(** * gmail-checker-sender: a shallow embedding of the four command-line tools

    The repository holds four independent Python scripts
    ([send_email.py], [notify_designer.py], [add_calendar_event.py],
    [capture_email.py]).  Each one loads a token from disk, talks to the
    Gmail / Calendar API, and prints or returns a result dictionary.

    The scripts are embedded as functions in a small state-and-exception
    monad over a [world] (files, console, log of remote calls); the remote
    provider is a record of oracles, one per API method the scripts call.

    Conventions.
    - A Python [str] is a [string]; one [ascii] stands for one character,
      the character with that code point.  Text with characters from
      U+0100 on is outside the embedding.  (The few such characters in the
      scripts' own messages are written as their UTF-8 bytes; those
      messages are printed and never looked into.)
    - A result dictionary is a [gmap string value]; [d !! k] is [d.get(k)].
    - A JSON object whose order and duplicates matter (the cache file) is an
      association list.
    - The [raw] field of a request is recorded as the MIME message that was
      serialised.  The serialiser,
      [base64.urlsafe_b64encode(message.as_bytes())], is the library's: it
      can refuse a message, which is the oracle [as_bytes]; what it accepts
      it maps to a text that is a function of the message, so the
      provider's answer is a function of the message too.  Different
      messages can have the same serialisation (a CR in a 7-bit text part
      leaves as LF), so every statement about [raw] is about the message
      the tool built, not about the bytes the provider received.
    - [parser.parse_args()] is the library's as well: a command line is
      given by what argparse makes of it ([command_line]).
    - The console takes every text written to it: [print] does not fail.
      An interrupt by the operator is not an event of the embedding. *)

From stdpp Require Import base strings list gmap pretty.
From Stdlib Require Import ZArith Ascii String Lia.

Local Open Scope string_scope.
Set Warnings "-register-all,-abstract-large-number".
Set Default Proof Using "Type".

(** ** Python string built-ins used by the scripts *)

Module Py.

Definition LF : ascii := Ascii.ascii_of_nat 10.

(** [s.startswith(p)] *)
Fixpoint startswith (p s : string) : bool :=
  match p, s with
  | EmptyString, _ => true
  | String a p', String b s' => if Ascii.eqb a b then startswith p' s' else false
  | String _ _, EmptyString => false
  end.

(** [s.replace(old, new)] for a non-empty [old], as at every call site:
    scan from the left; where [old] starts, emit [new] and jump over
    [old]; otherwise copy one character.  [skip] counts the characters
    of a matched [old] that are still to be jumped over. *)
Fixpoint replace_from (old new : string) (skip : nat) (s : string) : string :=
  match s with
  | EmptyString => EmptyString
  | String c s' =>
      match skip with
      | S k => replace_from old new k s'
      | O =>
          if startswith old s
          then new +:+ replace_from old new (String.length old - 1) s'
          else String c (replace_from old new 0 s')
      end
  end.

Definition replace (old new s : string) : string := replace_from old new 0 s.

(** [str.isspace] of one character: TAB, LF, VT, FF, CR, FS, GS, RS, US,
    the blank, and the two further white-space characters below U+0100,
    NEXT LINE (U+0085) and NO-BREAK SPACE (U+00A0). *)
Definition isspace (c : ascii) : bool :=
  let n := Ascii.nat_of_ascii c in
  ((9 <=? n) && (n <=? 13) || (28 <=? n) && (n <=? 32)
   || (n =? 133) || (n =? 160))%nat.

Fixpoint lstrip (s : string) : string :=
  match s with
  | EmptyString => EmptyString
  | String c s' => if isspace c then lstrip s' else s
  end.

Fixpoint rstrip (s : string) : string :=
  match s with
  | EmptyString => EmptyString
  | String c s' =>
      match rstrip s' with
      | EmptyString => if isspace c then EmptyString else String c EmptyString
      | r => String c r
      end
  end.

(** [s.strip()] *)
Definition strip (s : string) : string := rstrip (lstrip s).

(** The lower-case form of one character: of A-Z, and of the accented
    capitals U+00C0-U+00DE (the multiplication sign U+00D7 apart). *)
Definition lower_char (c : ascii) : ascii :=
  let n := Ascii.nat_of_ascii c in
  if ((65 <=? n) && (n <=? 90)
      || (192 <=? n) && (n <=? 222) && negb (n =? 215))%nat
  then Ascii.ascii_of_nat (n + 32) else c.

(** The upper-case form of one character: of a-z, and of the accented
    small letters U+00E0-U+00FE (the division sign U+00F7 apart).  The
    upper-case forms of U+00B5, U+00DF and U+00FF lie outside the
    embedding's characters; these three are kept, which is enough where the
    scripts compare [upper()] with a word of ASCII letters. *)
Definition upper_char (c : ascii) : ascii :=
  let n := Ascii.nat_of_ascii c in
  if ((97 <=? n) && (n <=? 122)
      || (224 <=? n) && (n <=? 254) && negb (n =? 247))%nat
  then Ascii.ascii_of_nat (n - 32) else c.

Fixpoint map_chars (f : ascii -> ascii) (s : string) : string :=
  match s with
  | EmptyString => EmptyString
  | String c s' => String (f c) (map_chars f s')
  end.

(** [s.lower()] and [s.upper()] *)
Definition lower : string -> string := map_chars lower_char.
Definition upper : string -> string := map_chars upper_char.

(** [s[:n]] *)
Fixpoint take (n : nat) (s : string) : string :=
  match n, s with
  | S k, String c s' => String c (take k s')
  | _, _ => EmptyString
  end.

(** [s[n:]] *)
Fixpoint drop (n : nat) (s : string) : string :=
  match n, s with
  | S k, String _ s' => drop k s'
  | _, _ => s
  end.

(** [sep.join(parts)] *)
Fixpoint join (sep : string) (parts : list string) : string :=
  match parts with
  | [] => EmptyString
  | [p] => p
  | p :: rest => p +:+ sep +:+ join sep rest
  end.

(** [x in [..]] on strings *)
Definition mem (x : string) (l : list string) : bool :=
  existsb (String.eqb x) l.

(** Truth value of an optional string argument ([None] and [''] are
    false). *)
Definition truthy_str (o : option string) : bool :=
  match o with
  | Some (String _ _) => true
  | _ => false
  end.

End Py.

(** ** Values, exceptions, files *)

(** The values the result dictionaries hold. *)
Inductive value :=
| VNone
| VBool (b : bool)
| VStr (s : string).

(** [bool(d.get(k))] *)
Definition truthy (o : option value) : bool :=
  match o with
  | Some (VBool b) => b
  | Some (VStr (String _ _)) => true
  | _ => false
  end.

(** [d.get(k)] for an optional field of a provider response. *)
Definition opt_value (o : option string) : value :=
  match o with
  | Some s => VStr s
  | None => VNone
  end.

(** [str(x)] inside an f-string *)
Definition str_value (v : value) : string :=
  match v with
  | VNone => "None"
  | VBool true => "True"
  | VBool false => "False"
  | VStr s => s
  end.

(** Exceptions.  [Exception cls msg] is an instance of a subclass [cls] of
    [Exception] with [str(e) = msg]; [SystemExit] is what [sys.exit] and
    [exit] raise, and is not caught by [except Exception]. *)
Inductive exn :=
| Exception (cls msg : string)
| SystemExit (code : Z).

Definition str_exn (e : exn) : string :=
  match e with
  | Exception _ msg => msg
  | SystemExit code => EmptyString
  end.

Inductive outcome (A : Type) :=
| Return (a : A)
| Raise (e : exn).
Arguments Return {A} a.
Arguments Raise {A} e.

(** What a provider or library call answers: a value, or an error of class
    [cls] with message [msg].  The errors of the API client, of the token
    refresh and of the decoders are all subclasses of [Exception]. *)
Inductive answer (A : Type) :=
| Answer (a : A)
| Fails (cls msg : string).
Arguments Answer {A} a.
Arguments Fails {A} cls msg.

Definition to_outcome {A} (r : answer A) : outcome A :=
  match r with
  | Answer a => Return a
  | Fails cls msg => Raise (Exception cls msg)
  end.

(** JSON values, as [json.load] returns them and [json.dump] takes them. *)
Inductive json :=
| JNull
| JBool (b : bool)
| JNum (z : Z)
| JStr (s : string)
| JArr (items : list json)
| JObj (fields : list (string * json)).

(** The state of a stored token that the scripts look at. *)
Record credentials := Credentials {
  token : string;
  valid : bool;
  expired : bool;
  refresh_token : option string
}.

(** A file, by what the loaders make of it. *)
Inductive file :=
| PickleFile (c : credentials)   (* a pickled credentials object *)
| TokenJson (c : credentials)    (* an authorized-user JSON file *)
| JsonFile (j : json)            (* any other well-formed JSON text *)
| TextFile (text : string).      (* anything else *)

(** ** Provider requests and responses *)

(** The MIME message of [MIMEMultipart('alternative')] with its two parts,
    as the scripts build it. *)
Record mime := Mime {
  m_to : string;
  m_from : string;
  m_subject : string;
  m_cc : option string;
  m_bcc : option string;
  m_in_reply_to : option string;
  m_references : option string;
  m_plain : string;
  m_html : string
}.

(** The body of a send request, or the [message] of a draft request.
    [raw] is the message whose serialisation the request carries. *)
Record msg_body := MsgBody {
  raw : mime;
  threadId : option string
}.

Record reminder := Reminder { r_method : string; r_minutes : Z }.

Record event_body := EventBody {
  summary : string;
  location : string;
  description : string;
  start_dateTime : string;
  end_dateTime : string;
  timeZone : string;
  useDefault : bool;
  overrides : list reminder;
  colorId : option string
}.

Record profile := Profile { emailAddress : option string }.
Record sent_message := Sent { sent_id : option string; sent_threadId : option string }.
Record saved_draft := Saved { saved_id : option string }.
(** A thread, by the ids of its messages. *)
Record thread := Thread { thread_messages : list string }.
Record msg_meta := Meta { meta_id : string; meta_threadId : string }.
Record created_event := Created { event_id : option string; htmlLink : option string }.

(** A message payload: optional [mimeType], optional [body.data], optional
    [parts]. *)
Inductive payload :=
| Payload (mimeType : option string) (data : option string)
          (parts : option (list payload)).

Record header := Header { h_name : option string; h_value : option string }.

Record message := Message {
  msg_headers : list header;   (* [payload.headers], [[]] when absent *)
  msg_payload : payload;       (* [payload], [{}] when absent *)
  msg_snippet : option string
}.

(** The remote calls a script can issue. *)
Inductive call :=
| GetProfile
| ThreadsGet (id : string)
| MessagesSend (body : msg_body)
| DraftsCreate (body : msg_body)
| MessagesList (q : string) (maxResults : Z)
| MessagesGet (id : string)
| EventsInsert (calendarId : string) (body : event_body)
| TokenRefresh (c : credentials)
| OAuthFlow.

(** The provider, and the libraries in front of it: what each call
    answers.  [as_bytes] is [message.as_bytes()] of the [email] package,
    which refuses some messages (a header value with a line break in it,
    for one) with an exception.  [discovery] is
    [googleapiclient.discovery.build(serviceName, version, ...)], which
    can fail before any request is made. *)
Record remote := Remote {
  getProfile : answer profile;
  threads_get : string -> answer thread;
  messages_send : msg_body -> answer sent_message;
  drafts_create : msg_body -> answer saved_draft;
  messages_list : string -> answer (option (list msg_meta));
  messages_get : string -> answer message;
  events_insert : string -> event_body -> answer created_event;
  refresh : credentials -> answer credentials;
  run_local_server : answer credentials;
  as_bytes : mime -> answer unit;
  discovery : string -> string -> answer unit
}.

(** ** The world and the monad *)

Inductive output :=
| Line (s : string)                       (* [print(s)] *)
| ErrLine (s : string)                    (* [print(s, file=sys.stderr)] *)
| Prompt (s : string)                     (* the prompt of [input(s)] *)
| JsonResult (d : gmap string value)      (* [print(json.dumps(result))] *)
| JsonList (l : list json).               (* [print(json.dumps(captured))] *)

Record world := World {
  api : remote;
  home : string;                     (* [Path.home()] *)
  files : gmap string file;
  stdin : list string;               (* the lines still to be read *)
  stdout : list output;              (* oldest first *)
  calls : list (call * option exn);  (* remote calls and what they raised *)
  now : nat -> string;               (* [datetime.now().isoformat()], by tick *)
  tick : nat
}.

Definition M (A : Type) : Type := world -> outcome A * world.

Definition ret {A} (a : A) : M A := fun w => (Return a, w).
Definition raise {A} (e : exn) : M A := fun w => (Raise e, w).
Definition bind {A B} (m : M A) (k : A -> M B) : M B :=
  fun w =>
    match m w with
    | (Return a, w') => k a w'
    | (Raise e, w') => (Raise e, w')
    end.

Declare Scope py_scope.
Delimit Scope py_scope with py.
Notation "x <- m ;; k" := (bind m (fun x => k))
  (at level 100, m at next level, right associativity) : py_scope.
Notation "m ;;; k" := (bind m (fun _ => k))
  (at level 100, right associativity) : py_scope.
Local Open Scope py_scope.

(** [try: body except Exception as e: handler e] *)
Definition try_except {A} (body : M A) (handler : exn -> M A) : M A :=
  fun w =>
    match body w with
    | (Raise (Exception cls msg), w') => handler (Exception cls msg) w'
    | r => r
    end.

(** [try: body except: handler] (a bare [except] catches everything) *)
Definition try_except_all {A} (body : M A) (handler : M A) : M A :=
  fun w =>
    match body w with
    | (Raise _, w') => handler w'
    | r => r
    end.

Definition set_files (f : gmap string file) (w : world) : world :=
  World (api w) (home w) f (stdin w) (stdout w) (calls w) (now w) (tick w).
Definition set_stdin (i : list string) (w : world) : world :=
  World (api w) (home w) (files w) i (stdout w) (calls w) (now w) (tick w).
Definition set_stdout (o : list output) (w : world) : world :=
  World (api w) (home w) (files w) (stdin w) o (calls w) (now w) (tick w).
Definition set_calls (c : list (call * option exn)) (w : world) : world :=
  World (api w) (home w) (files w) (stdin w) (stdout w) c (now w) (tick w).
Definition set_tick (t : nat) (w : world) : world :=
  World (api w) (home w) (files w) (stdin w) (stdout w) (calls w) (now w) t.

Definition emit (o : output) : M unit :=
  fun w => (Return tt, set_stdout (stdout w ++ [o]) w).
Definition print (s : string) : M unit := emit (Line s).
Definition eprint (s : string) : M unit := emit (ErrLine s).

(** [input(prompt)]: write the prompt, read one line; [EOFError] at the end
    of the input. *)
Definition input (prompt : string) : M string :=
  fun w =>
    let w1 := set_stdout (stdout w ++ [Prompt prompt]) w in
    match stdin w with
    | l :: rest => (Return l, set_stdin rest w1)
    | [] => (Raise (Exception "EOFError" "EOF when reading a line"), w1)
    end.

(** [sys.stdin.read()]: everything that is left. *)
Definition stdin_read : M string :=
  fun w => (Return (Py.join (String Py.LF EmptyString) (stdin w)), set_stdin [] w).

Definition raised {A} (r : outcome A) : option exn :=
  match r with
  | Return _ => None
  | Raise e => Some e
  end.

(** One remote call: ask the provider, log the call and what it raised. *)
Definition remote_call {A} (c : call) (ask : remote -> answer A) : M A :=
  fun w =>
    let r := to_outcome (ask (api w)) in
    (r, set_calls (calls w ++ [(c, raised r)]) w).

(** [base64.urlsafe_b64encode(message.as_bytes()).decode()]: no remote
    call; it raises what the library refuses the message with. *)
Definition serialise (message : mime) : M unit :=
  fun w => (to_outcome (as_bytes (api w) message), w).

(** [build(serviceName, version, credentials=creds)]: the service object
    is not kept, the requests go to [api]; it raises what the library
    fails with. *)
Definition build (serviceName version : string) : M unit :=
  fun w => (to_outcome (discovery (api w) serviceName version), w).

Definition path_exists (p : string) : M bool :=
  fun w => (Return (bool_decide (is_Some (files w !! p))), w).

Definition write_file (p : string) (f : file) : M unit :=
  fun w => (Return tt, set_files (<[p := f]> (files w)) w).

(** [pickle.load(open(p, 'rb'))] *)
Definition pickle_load (p : string) : M credentials :=
  fun w =>
    match files w !! p with
    | Some (PickleFile c) => (Return c, w)
    | Some _ => (Raise (Exception "UnpicklingError" "invalid load key"), w)
    | None =>
        (Raise (Exception "FileNotFoundError"
                  ("[Errno 2] No such file or directory: '" +:+ p +:+ "'")), w)
    end.

(** [json.load(open(p, 'r'))] *)
Definition json_load (p : string) : M json :=
  fun w =>
    match files w !! p with
    | Some (JsonFile j) => (Return j, w)
    | Some _ => (Raise (Exception "JSONDecodeError" "Expecting value"), w)
    | None =>
        (Raise (Exception "FileNotFoundError"
                  ("[Errno 2] No such file or directory: '" +:+ p +:+ "'")), w)
    end.

(** [open(p, 'r').read()] *)
Definition read_text (p : string) : M string :=
  fun w =>
    match files w !! p with
    | Some (TextFile t) => (Return t, w)
    | Some _ => (Raise (Exception "UnicodeDecodeError" "invalid start byte"), w)
    | None =>
        (Raise (Exception "FileNotFoundError"
                  ("[Errno 2] No such file or directory: '" +:+ p +:+ "'")), w)
    end.

(** [datetime.now().isoformat()] *)
Definition datetime_now : M string :=
  fun w => (Return (now w (tick w)), set_tick (S (tick w)) w).

(** How a process ends: [sys.exit(code)] (or falling off the end, code 0),
    or an exception nobody caught. *)
Inductive process_end :=
| Exit (code : Z)
| Uncaught (e : exn).

Definition run_process (main : M unit) (w : world) : process_end * world :=
  match main w with
  | (Return _, w') => (Exit 0, w')
  | (Raise (SystemExit code), w') => (Exit code, w')
  | (Raise (Exception cls msg), w') => (Uncaught (Exception cls msg), w')
  end.

(** What [parser.parse_args()] makes of a command line: the namespace of
    its options; or, for [-h] and [--help], the help text on the standard
    output and exit status 0; or, for a command line that argparse rejects
    (a required option is missing, an option is unknown or lacks its value,
    a value is outside the choices), the usage and the error on the error
    stream and exit status 2. *)
Inductive command_line (A : Type) :=
| Options (a : A)
| HelpRequested (help : string)
| Rejected (usage : string).
Arguments Options {A} a.
Arguments HelpRequested {A} help.
Arguments Rejected {A} usage.

Definition parse_args {A} (c : command_line A) : M A :=
  match c with
  | Options a => ret a
  | HelpRequested help => print help ;;; raise (SystemExit 0)
  | Rejected usage => eprint usage ;;; raise (SystemExit 2)
  end.

(** ** Result dictionaries shared by the tools *)

Definition failure (msg : string) : gmap string value :=
  {[ "success" := VBool false; "error" := VStr msg ]}.

Definition cancelled : gmap string value :=
  {[ "success" := VBool false; "error" := VStr "User cancelled";
     "preview_only" := VBool true ]}.

Definition affirmative : list string := ["yes"; "y"; "send"; "draft"].

(** [body.replace('\n', '<br>')] *)
Definition html_of (body : string) : string :=
  Py.replace (String Py.LF EmptyString) "<br>" body.

Definition rule (c : string) (n : nat) : string :=
  String.concat EmptyString (repeat c n).

Definition get_home : M string := fun w => (Return (home w), w).

(** [str(d.get(k))] inside an f-string *)
Definition str_get (d : gmap string value) (k : string) : string :=
  match d !! k with
  | Some v => str_value v
  | None => "None"
  end.

(** [x if x else None] on an optional header ([if cc: message['cc'] = cc]) *)
Definition if_truthy (o : option string) : option string :=
  if Py.truthy_str o then o else None.

(** The confirmation prompt shared by the three mail paths:
    [input(f"{action} this {what}? (yes/no): ").strip().lower()] and the
    membership test; [true] when the operator confirmed. *)
Definition confirm (draft : bool) (what : string) : M bool :=
  let action := if draft then "Save as draft" else "Send" in
  response <- input (action +:+ " this " +:+ what +:+ "? (yes/no): ") ;;
  ret (Py.mem (Py.lower (Py.strip response)) affirmative).

(** [creds.refresh(Request())] followed by the write-back of the token. *)
Definition refresh_if_expired (creds_path : string) (creds : credentials)
  : M credentials :=
  if expired creds && Py.truthy_str (refresh_token creds) then
    creds' <- remote_call (TokenRefresh creds) (fun r => refresh r creds) ;;
    write_file creds_path (PickleFile creds') ;;;
    ret creds'
  else ret creds.

(** ** send_email.py *)

Module SendEmail.

Definition DEFAULT_ACCOUNT : string := "livemomentssg@gmail.com".

Definition token_file (home account : string) : string :=
  home +:+ "/.nanobot/credentials/gmail/"
       +:+ Py.replace "@" "_at_" account +:+ ".token".

Definition alt_path (home account : string) : string :=
  home +:+ "/.nanobot/credentials/" +:+ account +:+ ".json".

Definition get_credentials_path (account : string) : M (option string) :=
  h <- get_home ;;
  there <- path_exists (token_file h account) ;;
  alt <- (if negb there then
            alt_there <- path_exists (alt_path h account) ;;
            ret (if alt_there then Some (alt_path h account) else None)
          else ret None) ;;
  match alt with
  | Some p => ret (Some p)
  | None =>
      there' <- path_exists (token_file h account) ;;
      ret (if there' then Some (token_file h account) else None)
  end.

Definition load_credentials (account : string) : M (option credentials) :=
  creds_path <- get_credentials_path account ;;
  match creds_path with
  | None => ret None
  | Some p =>
      try_except
        (creds <- pickle_load p ;;
         creds' <- refresh_if_expired p creds ;;
         ret (Some creds'))
        (fun e =>
           eprint ("Error loading credentials for " +:+ account +:+ ": "
                     +:+ str_exn e) ;;;
           ret None)
  end.

Definition preview_email (to subject body : string) (cc bcc sender : option string)
  : M unit :=
  print (String Py.LF (rule "=" 70)) ;;;
  print "📧 EMAIL PREVIEW" ;;;
  print (rule "=" 70) ;;;
  (match if_truthy sender with Some s => print ("From: " +:+ s) | None => ret tt end) ;;;
  print ("To: " +:+ to) ;;;
  (match if_truthy cc with Some c => print ("Cc: " +:+ c) | None => ret tt end) ;;;
  (match if_truthy bcc with Some b => print ("Bcc: " +:+ b) | None => ret tt end) ;;;
  print ("Subject: " +:+ subject) ;;;
  print (rule "-" 70) ;;;
  print body ;;;
  print (rule "=" 70) ;;;
  print EmptyString.

(** [from_address] if given, else the address of the profile. *)
Definition get_sender (account : string) (from_address : option string) : M string :=
  match if_truthy from_address with
  | Some a => ret a
  | None =>
      p <- remote_call GetProfile getProfile ;;
      ret (default account (emailAddress p))
  end.

Definition send_email (account to subject body : string) (cc bcc : option string)
    (auto_confirm : bool) (from_address : option string) (draft : bool)
    (thread_id : option string) : M (gmap string value) :=
  creds <- load_credentials account ;;
  match creds with
  | None =>
      ret (failure ("No credentials found for " +:+ account
                      +:+ ". Run OAuth setup first."))
  | Some _ =>
      try_except
        (build "gmail" "v1" ;;;
         sender <- get_sender account from_address ;;
         go <- (if negb auto_confirm then
                  preview_email to subject body cc bcc (Some sender) ;;;
                  confirm draft "email"
                else ret true) ;;
         if negb go then ret cancelled
         else
           let message :=
             Mime to sender subject (if_truthy cc) (if_truthy bcc) None None
                  body (html_of body) in
           serialise message ;;;
           let body' := MsgBody message (if_truthy thread_id) in
           if draft then
             saved <- remote_call (DraftsCreate body')
                        (fun r => drafts_create r body') ;;
             ret ({[ "success" := VBool true;
                     "draft_id" := opt_value (saved_id saved);
                     "sender" := VStr sender;
                     "to" := VStr to;
                     "subject" := VStr subject;
                     "is_draft" := VBool true ]} : gmap string value)
           else
             sent <- remote_call (MessagesSend body')
                       (fun r => messages_send r body') ;;
             ret ({[ "success" := VBool true;
                     "message_id" := opt_value (sent_id sent);
                     "thread_id" := opt_value (sent_threadId sent);
                     "sender" := VStr sender;
                     "to" := VStr to;
                     "subject" := VStr subject ]} : gmap string value))
        (fun e => ret (failure (str_exn e)))
  end.

(** [f"Re: {subject.replace('Re: ', '')}"] *)
Definition reply_subject (subject : string) : string :=
  "Re: " +:+ Py.replace "Re: " EmptyString subject.

(** [thread['messages'][-1]['id']] *)
Definition last_message_id (t : thread) : M string :=
  match last (thread_messages t) with
  | Some id => ret id
  | None => raise (Exception "IndexError" "list index out of range")
  end.

Definition send_reply (account thread_id to subject body : string)
    (cc : option string) (auto_confirm : bool) (from_address : option string)
    (draft : bool) : M (gmap string value) :=
  creds <- load_credentials account ;;
  match creds with
  | None => ret (failure ("No credentials found for " +:+ account))
  | Some _ =>
      try_except
        (build "gmail" "v1" ;;;
         sender <- get_sender account from_address ;;
         t <- remote_call (ThreadsGet thread_id) (fun r => threads_get r thread_id) ;;
         original_msg_id <- last_message_id t ;;
         let message :=
           Mime to sender (reply_subject subject) (if_truthy cc) None
                (Some original_msg_id) (Some original_msg_id)
                body (html_of body) in
         serialise message ;;;
         let body' := MsgBody message (Some thread_id) in
         go <- (if negb auto_confirm then
                  preview_email to subject body cc None (Some sender) ;;;
                  confirm draft "reply"
                else ret true) ;;
         if negb go then ret cancelled
         else if draft then
           saved <- remote_call (DraftsCreate body')
                      (fun r => drafts_create r body') ;;
           ret ({[ "success" := VBool true;
                   "draft_id" := opt_value (saved_id saved);
                   "thread_id" := VStr thread_id;
                   "sender" := VStr sender;
                   "to" := VStr to;
                   "subject" := VStr subject;
                   "is_draft" := VBool true ]} : gmap string value)
         else
           sent <- remote_call (MessagesSend body')
                     (fun r => messages_send r body') ;;
           ret ({[ "success" := VBool true;
                   "message_id" := opt_value (sent_id sent);
                   "thread_id" := opt_value (sent_threadId sent);
                   "sender" := VStr sender;
                   "to" := VStr to;
                   "subject" := VStr subject ]} : gmap string value))
        (fun e => ret (failure (str_exn e)))
  end.

(** The namespace of the options ([--to] and [--subject] are required). *)
Record args := Args {
  account : string;
  to : string;
  subject : string;
  body : option string;
  body_file : option string;
  cc : option string;
  bcc : option string;
  from_address : option string;
  reply_to : option string;
  reply_subject_arg : option string;
  draft : bool;
  yes : bool;
  json_flag : bool
}.

Definition PREVIEW_NOTICE : string := "📋 Preview shown. Email not saved/sent.".
Definition FAILED : string := "❌ Failed: ".

(** The human-readable rendering of a result (the [else] of [if args.json]). *)
Definition render (result : gmap string value) : M unit :=
  if truthy (result !! "success") then
    (if truthy (result !! "is_draft") then
       print "✅ Draft saved successfully!" ;;;
       print ("   Draft ID: " +:+ str_get result "draft_id")
     else
       print "✅ Email sent successfully!" ;;;
       print ("   Message ID: " +:+ str_get result "message_id")) ;;;
    print ("   From: " +:+ str_get result "sender") ;;;
    print ("   To: " +:+ str_get result "to") ;;;
    print ("   Subject: " +:+ str_get result "subject")
  else if truthy (result !! "preview_only") then
    print PREVIEW_NOTICE
  else
    print (FAILED +:+ str_get result "error").

Definition exit_code (result : gmap string value) : Z :=
  if truthy (result !! "success") then 0 else 1.

Definition main (c : command_line args) : M unit :=
  a <- parse_args c ;;
  body <- (match if_truthy (body_file a), if_truthy (body a) with
           | Some f, _ => read_text f
           | None, Some b => ret b
           | None, None =>
               print "Enter email body (Ctrl+D to finish):" ;;; stdin_read
           end) ;;
  result <- (match if_truthy (reply_to a) with
             | Some thread_id =>
                 match if_truthy (reply_subject_arg a) with
                 | None =>
                     print "Error: --reply-subject required when using --reply-to" ;;;
                     raise (SystemExit 1)
                 | Some reply_subject =>
                     send_reply (account a) thread_id (to a) reply_subject body
                                (cc a) (yes a) (from_address a) (draft a)
                 end
             | None =>
                 send_email (account a) (to a) (subject a) body (cc a) (bcc a)
                            (yes a) (from_address a) (draft a) (reply_to a)
             end) ;;
  (if json_flag a then emit (JsonResult result) else render result) ;;;
  raise (SystemExit (exit_code result)).

End SendEmail.

(** ** notify_designer.py *)

Module NotifyDesigner.

Definition DEFAULT_ACCOUNT : string := "livemomentssg@gmail.com".
Definition DESIGNER_EMAIL : string := "designer@livemoments.com.sg".
Definition FROM_ADDRESS : string := "hello@livemoments.com.sg".

(** The credential functions are textually those of [send_email.py]. *)
Definition get_credentials_path := SendEmail.get_credentials_path.
Definition load_credentials := SendEmail.load_credentials.

Definition NL : string := String Py.LF EmptyString.

Definition build_designer_email (client poc poc_email date time venue event_type : string)
  : string * string :=
  let subject := "New Booking - " +:+ client +:+ " - " +:+ date in
  let body :=
    "Hi Ting Ting," +:+ NL +:+
    NL +:+
    "We have a new instant print booking confirmed." +:+ NL +:+
    NL +:+
    "Please liaise directly with the client for the overlay design:" +:+ NL +:+
    NL +:+
    "Client: " +:+ poc +:+ NL +:+
    "Email: " +:+ poc_email +:+ NL +:+
    "Event Date: " +:+ date +:+ NL +:+
    "Start Time: " +:+ time +:+ NL +:+
    "Venue: " +:+ venue +:+ NL +:+
    "Event Type: " +:+ event_type +:+ NL +:+
    NL +:+
    "Thank you!" in
  (subject, body).

Definition preview_email (to subject body sender : string) : M unit :=
  print (String Py.LF (rule "=" 70)) ;;;
  print "📧 DESIGNER NOTIFICATION PREVIEW" ;;;
  print (rule "=" 70) ;;;
  print ("From: " +:+ sender) ;;;
  print ("To: " +:+ to) ;;;
  print ("Subject: " +:+ subject) ;;;
  print (rule "-" 70) ;;;
  print body ;;;
  print (rule "=" 70) ;;;
  print EmptyString.

Definition send_designer_notification
    (account client poc poc_email date time venue event_type : string)
    (auto_confirm draft : bool) : M (gmap string value) :=
  creds <- load_credentials account ;;
  match creds with
  | None =>
      ret (failure ("No credentials found for " +:+ account
                      +:+ ". Run OAuth setup first."))
  | Some _ =>
      try_except
        (build "gmail" "v1" ;;;
         let '(subject, body) :=
           build_designer_email client poc poc_email date time venue event_type in
         go <- (if negb auto_confirm then
                  preview_email DESIGNER_EMAIL subject body FROM_ADDRESS ;;;
                  confirm draft "notification"
                else ret true) ;;
         if negb go then ret cancelled
         else
           let message :=
             Mime DESIGNER_EMAIL FROM_ADDRESS subject None None None None
                  body (html_of body) in
           serialise message ;;;
           let body' := MsgBody message None in
           if draft then
             saved <- remote_call (DraftsCreate body')
                        (fun r => drafts_create r body') ;;
             ret ({[ "success" := VBool true;
                     "draft_id" := opt_value (saved_id saved);
                     "sender" := VStr FROM_ADDRESS;
                     "to" := VStr DESIGNER_EMAIL;
                     "subject" := VStr subject;
                     "is_draft" := VBool true;
                     "client" := VStr client;
                     "poc" := VStr poc ]} : gmap string value)
           else
             sent <- remote_call (MessagesSend body')
                       (fun r => messages_send r body') ;;
             ret ({[ "success" := VBool true;
                     "message_id" := opt_value (sent_id sent);
                     "thread_id" := opt_value (sent_threadId sent);
                     "sender" := VStr FROM_ADDRESS;
                     "to" := VStr DESIGNER_EMAIL;
                     "subject" := VStr subject;
                     "client" := VStr client;
                     "poc" := VStr poc ]} : gmap string value))
        (fun e => ret (failure (str_exn e)))
  end.

Record args := Args {
  account : string;
  client : string;
  poc : string;
  email : string;
  date : string;
  time : string;
  venue : string;
  type : string;
  draft : bool;
  yes : bool;
  json_flag : bool
}.

Definition PREVIEW_NOTICE : string := "📋 Preview shown. Notification not sent.".
Definition FAILED : string := "❌ Failed: ".

Definition render (result : gmap string value) : M unit :=
  if truthy (result !! "success") then
    (if truthy (result !! "is_draft") then
       print "✅ Designer notification saved as draft!" ;;;
       print ("   Draft ID: " +:+ str_get result "draft_id")
     else
       print "✅ Designer notification sent successfully!" ;;;
       print ("   Message ID: " +:+ str_get result "message_id")) ;;;
    print ("   Designer: " +:+ str_get result "to") ;;;
    print ("   Client: " +:+ str_get result "client" +:+ " ("
             +:+ str_get result "poc" +:+ ")") ;;;
    print ("   Subject: " +:+ str_get result "subject")
  else if truthy (result !! "preview_only") then
    print PREVIEW_NOTICE
  else
    print (FAILED +:+ str_get result "error").

Definition exit_code (result : gmap string value) : Z :=
  if truthy (result !! "success") then 0 else 1.

Definition main (c : command_line args) : M unit :=
  a <- parse_args c ;;
  result <- send_designer_notification (account a) (client a) (poc a) (email a)
              (date a) (time a) (venue a) (type a) (yes a) (draft a) ;;
  (if json_flag a then emit (JsonResult result) else render result) ;;;
  raise (SystemExit (exit_code result)).

End NotifyDesigner.

(** ** add_calendar_event.py *)

(** What a name can be bound to, as far as the f-strings care. *)
Inductive pyobj :=
| PStr (s : string)
| PNone
| PObject (what : string).   (* a module, class or function *)

(** [str(x)] of a bound object *)
Definition format_obj (o : pyobj) : string :=
  match o with
  | PStr s => s
  | PNone => "None"
  | PObject what => "<" +:+ what +:+ ">"
  end.

Definition opt_obj (o : option string) : pyobj :=
  match o with
  | Some s => PStr s
  | None => PNone
  end.

(** Evaluation of a name: the function's locals, then the module's
    globals (no built-in is looked up through this function);
    [NameError] when it is bound in neither. *)
Definition load_name (locals globals : gmap string pyobj) (x : string) : M pyobj :=
  match locals !! x with
  | Some v => ret v
  | None =>
      match globals !! x with
      | Some v => ret v
      | None => raise (Exception "NameError" ("name '" +:+ x +:+ "' is not defined"))
      end
  end.

(** [d[k] == s] *)
Definition is_str (o : option value) (s : string) : bool :=
  match o with
  | Some (VStr t) => String.eqb t s
  | _ => false
  end.

(** A library call, which raises what it fails with. *)
Definition lift {A} (r : answer A) : M A := fun w => (to_outcome r, w).

Module AddCalendarEvent.

Definition CALENDAR_ADMIN : string :=
  "jml0dbb0k0pq0qfdlhdo89oql0@group.calendar.google.com".
Definition CALENDAR_MAIN : string := "livemomentssg@gmail.com".
Definition DEFAULT_ACCOUNT : string := "livemomentssg@gmail.com".

(** The names bound at module level. *)
Definition module_globals : gmap string pyobj :=
  list_to_map
    [ ("os", PObject "module"); ("sys", PObject "module");
      ("json", PObject "module"); ("pickle", PObject "module");
      ("argparse", PObject "module"); ("datetime", PObject "class");
      ("timedelta", PObject "class"); ("Path", PObject "class");
      ("Request", PObject "class"); ("Credentials", PObject "class");
      ("build", PObject "function");
      ("CALENDAR_ADMIN", PStr CALENDAR_ADMIN);
      ("CALENDAR_MAIN", PStr CALENDAR_MAIN);
      ("DEFAULT_ACCOUNT", PStr DEFAULT_ACCOUNT);
      ("get_credentials_path", PObject "function");
      ("load_credentials", PObject "function");
      ("add_event", PObject "function"); ("main", PObject "function") ].

Definition token_file (home account : string) : string :=
  home +:+ "/.nanobot/credentials/gmail/"
       +:+ Py.replace "@" "_at_" account +:+ ".token".

Definition get_credentials_path (account : string) : M (option string) :=
  h <- get_home ;;
  there <- path_exists (token_file h account) ;;
  ret (if there then Some (token_file h account) else None).

Definition load_credentials (account : string) : M (option credentials) :=
  creds_path <- get_credentials_path account ;;
  match creds_path with
  | None =>
      print ("Error: No credentials found for " +:+ account) ;;;
      print ("Expected: " +:+ format_obj (opt_obj creds_path)) ;;;
      ret None
  | Some p =>
      try_except
        (creds <- pickle_load p ;;
         creds' <- refresh_if_expired p creds ;;
         ret (Some creds'))
        (fun e =>
           print ("Error loading credentials: " +:+ str_exn e) ;;;
           ret None)
  end.

(** Lines 69-76: calendar, colour and title prefix from the status. *)
Definition route (status : string) : string * option string * string :=
  if String.eqb (Py.upper status) "TBC"
  then (CALENDAR_ADMIN, Some "3", "TBC - ")
  else (CALENDAR_MAIN, None, EmptyString).

Definition reminders : list reminder :=
  [ Reminder "email" (7 * 24 * 60); Reminder "email" (3 * 24 * 60) ].

(** The local names bound when line 79 builds the title: the parameters
    and the assignments of lines 61-76. *)
Definition locals_at_title (account company poc event_type date start_time
    end_time location email_id : string) (description : option string)
    (status calendar_id : string) (color_id : option string)
    (title_prefix : string) : gmap string pyobj :=
  list_to_map
    [ ("account", PStr account); ("company", PStr company);
      ("poc", PStr poc); ("event_type", PStr event_type);
      ("date", PStr date); ("start_time", PStr start_time);
      ("end_time", PStr end_time); ("location", PStr location);
      ("email_id", PStr email_id);
      ("description", opt_obj description);
      ("status", PStr status); ("creds", PObject "Credentials");
      ("service", PObject "Resource");
      ("calendar_id", PStr calendar_id);
      ("color_id", opt_obj color_id);
      ("title_prefix", PStr title_prefix) ].

Section WithDatetime.

(** Lines 93-98 and the two [isoformat()] calls are the [datetime]
    library's: [datetimes date start_time end_time] is the pair of
    ISO timestamps, or the [ValueError] of a malformed date or time. *)
Variable datetimes : string -> string -> string -> answer (string * string).

Definition add_event (account company poc event_type date start_time end_time
    location email_id : string) (description : option string) (status : string)
  : M (gmap string value) :=
  creds <- load_credentials account ;;
  match creds with
  | None => ret (failure "No credentials found")
  | Some _ =>
      try_except
        (build "calendar" "v3" ;;;
         let '(calendar_id, color_id, title_prefix) := route status in
         let locals :=
           locals_at_title account company poc event_type date start_time
             end_time location email_id description status calendar_id
             color_id title_prefix in
         (* title = f"{title_prefix}{company} - { POC} ({event_type.upper()})" *)
         f1 <- load_name locals module_globals "title_prefix" ;;
         f2 <- load_name locals module_globals "company" ;;
         f3 <- load_name locals module_globals "POC" ;;
         f4 <- load_name locals module_globals "event_type" ;;
         let title :=
           format_obj f1 +:+ format_obj f2 +:+ " - " +:+ format_obj f3
             +:+ " (" +:+ Py.upper (format_obj f4) +:+ ")" in
         let desc_parts :=
           ((if Py.truthy_str (Some email_id)
             then ["Email ID: " +:+ email_id] else [])
            ++ (match if_truthy description with Some d => [d] | None => [] end)
            ++ ["Status: " +:+ status; "POC: " +:+ poc])%list in
         let full_description :=
           Py.join (String Py.LF (String Py.LF EmptyString)) desc_parts in
         times <- lift (datetimes date start_time end_time) ;;
         let '(start_dt, end_dt) := times in
         let event_body :=
           EventBody title location full_description start_dt end_dt
                     "Asia/Singapore" false reminders color_id in
         event <- remote_call (EventsInsert calendar_id event_body)
                    (fun r => events_insert r calendar_id event_body) ;;
         ret ({[ "success" := VBool true;
                 "event_id" := opt_value (event_id event);
                 "calendar_id" := VStr calendar_id;
                 "title" := VStr title;
                 "html_link" := opt_value (htmlLink event);
                 "status" := VStr status ]} : gmap string value))
        (fun e => ret (failure (str_exn e)))
  end.

Record args := Args {
  account : string;
  company : string;
  poc : string;
  type : string;
  date : string;
  start : string;
  end_ : string;
  location_arg : string;
  email_id : string;
  description_arg : option string;
  status : string;
  json_flag : bool
}.

(** The [choices] of [--type] and [--status]: argparse rejects a command
    line with another value, with exit status 2.  A namespace that holds
    such a value stands for a command line that is rejected. *)
Definition check_choices (a : args) : M unit :=
  if Py.mem (type a) ["EVENT"; "LIVE"] && Py.mem (status a) ["TBC"; "CONFIRMED"]
  then ret tt
  else raise (SystemExit 2).

Definition FAILED : string := "‚ùå Failed: ".

Definition render (result : gmap string value) : M unit :=
  if truthy (result !! "success") then
    let is_tbc := is_str (result !! "status") "TBC" in
    let status_emoji := if is_tbc then "üü£" else "üîµ" in
    print (status_emoji +:+ " Event created successfully!") ;;;
    print ("   Title: " +:+ str_get result "title") ;;;
    print ("   Calendar: "
             +:+ (if is_tbc then "Administration (Purple)" else "Main")) ;;;
    print ("   Link: " +:+ str_get result "html_link")
  else
    print (FAILED +:+ str_get result "error").

Definition exit_code (result : gmap string value) : Z :=
  if truthy (result !! "success") then 0 else 1.

Definition main (c : command_line args) : M unit :=
  a <- parse_args c ;;
  check_choices a ;;;
  result <- add_event (account a) (company a) (poc a) (type a) (date a)
              (start a) (end_ a) (location_arg a) (email_id a)
              (description_arg a) (status a) ;;
  (if json_flag a then emit (JsonResult result) else render result) ;;;
  raise (SystemExit (exit_code result)).

End WithDatetime.

End AddCalendarEvent.

(** ** capture_email.py *)

(** A Python [dict] with string keys, in insertion order. *)
Fixpoint dict_get {V} (k : string) (d : list (string * V)) : option V :=
  match d with
  | [] => None
  | (k', v) :: rest => if String.eqb k' k then Some v else dict_get k rest
  end.

(** [d[k] = v]: replace the value in place, or append a new item. *)
Fixpoint dict_set {V} (k : string) (v : V) (d : list (string * V))
  : list (string * V) :=
  match d with
  | [] => [(k, v)]
  | (k', v') :: rest =>
      if String.eqb k' k then (k', v) :: rest else (k', v') :: dict_set k v rest
  end.

Definition abind {A B} (r : answer A) (k : A -> answer B) : answer B :=
  match r with
  | Answer a => k a
  | Fails cls msg => Fails cls msg
  end.

Definition nonempty (s : string) : bool :=
  match s with
  | EmptyString => false
  | String _ _ => true
  end.

Module CaptureEmail.

Definition CACHE_FILE (home : string) : string :=
  home +:+ "/.nanobot/workspace/skills/gmail-checker-sender/email_cache.json".

Definition token_path : string := "token.json".
Definition credentials_path : string := "credentials.json".

(** [Credentials.from_authorized_user_file(p, SCOPES)] *)
Definition from_authorized_user_file (p : string) : M credentials :=
  fun w =>
    match files w !! p with
    | Some (TokenJson c) => (Return c, w)
    | Some _ =>
        (Raise (Exception "ValueError"
                  "Authorized user info was not in the expected format"), w)
    | None =>
        (Raise (Exception "FileNotFoundError"
                  ("[Errno 2] No such file or directory: '" +:+ p +:+ "'")), w)
    end.

Definition get_credentials : M credentials :=
  there <- path_exists token_path ;;
  creds <- (if there then c <- from_authorized_user_file token_path ;; ret (Some c)
            else ret None) ;;
  match creds with
  | Some c =>
      if valid c then ret c
      else if expired c && Py.truthy_str (refresh_token c) then
        c' <- remote_call (TokenRefresh c) (fun r => refresh r c) ;;
        write_file token_path (TokenJson c') ;;;
        ret c'
      else
        secrets <- path_exists credentials_path ;;
        if negb secrets then
          print "Error: credentials.json not found" ;;;
          print "Please download credentials from Google Cloud Console" ;;;
          raise (SystemExit 1)
        else
          c' <- remote_call OAuthFlow run_local_server ;;
          write_file token_path (TokenJson c') ;;;
          ret c'
  | None =>
      secrets <- path_exists credentials_path ;;
      if negb secrets then
        print "Error: credentials.json not found" ;;;
        print "Please download credentials from Google Cloud Console" ;;;
        raise (SystemExit 1)
      else
        c' <- remote_call OAuthFlow run_local_server ;;
        write_file token_path (TokenJson c') ;;;
        ret c'
  end.

Definition header_names : list string :=
  ["from"; "to"; "cc"; "bcc"; "subject"; "date"; "message-id"].

Definition extract_headers (headers : list header) : gmap string string :=
  fold_left
    (fun result h =>
       let name := Py.lower (default EmptyString (h_name h)) in
       let value := default EmptyString (h_value h) in
       if Py.mem name header_names then <[name := value]> result else result)
    headers ∅.

(** The captured record, a dictionary of twelve strings. *)
Record email := Email {
  captured_at : string;
  message_id : string;
  thread_id : string;
  from_ : string;
  to_ : string;
  cc_ : string;
  bcc_ : string;
  subject_ : string;
  date_ : string;
  body_ : string;
  search_query : string;
  snippet_ : string
}.

Definition email_json (e : email) : json :=
  JObj [ ("captured_at", JStr (captured_at e));
         ("message_id", JStr (message_id e));
         ("thread_id", JStr (thread_id e));
         ("from", JStr (from_ e));
         ("to", JStr (to_ e));
         ("cc", JStr (cc_ e));
         ("bcc", JStr (bcc_ e));
         ("subject", JStr (subject_ e));
         ("date", JStr (date_ e));
         ("body", JStr (body_ e));
         ("search_query", JStr (search_query e));
         ("snippet", JStr (snippet_ e)) ].

(** [f"{email['thread_id']}_{email['message_id'][:8]}"] *)
Definition cache_key (e : email) : string :=
  thread_id e +:+ "_" +:+ Py.take 8 (message_id e).

(** [body[:5000] if body else ''] *)
Definition limit_body (body : string) : string :=
  if nonempty body then Py.take 5000 body else EmptyString.

(** [cache_data[key] = email] on whatever [json.load] returned. *)
Definition setitem (cache_data : json) (key : string) (v : json) : M json :=
  match cache_data with
  | JObj fields => ret (JObj (dict_set key v fields))
  | JArr _ =>
      raise (Exception "TypeError"
               "list indices must be integers or slices, not str")
  | _ =>
      raise (Exception "TypeError" "object does not support item assignment")
  end.

(** The loop [for email in captured: cache_data[key] = email]. *)
Fixpoint store_all (captured : list email) (cache_data : json) : M json :=
  match captured with
  | [] => ret cache_data
  | e :: rest =>
      cache_data' <- setitem cache_data (cache_key e) (email_json e) ;;
      store_all rest cache_data'
  end.

(** Lines 150-157: the cache as it is on disk, [{}] when the file is
    missing or unreadable. *)
Definition read_cache (cache_file : string) : M json :=
  there <- path_exists cache_file ;;
  if there then try_except_all (json_load cache_file) (ret (JObj []))
  else ret (JObj []).

Definition print_summary (i : nat) (e : email) : M unit :=
  print (String Py.LF (rule "=" 60)) ;;;
  print ("EMAIL #" +:+ pretty i) ;;;
  print (rule "=" 60) ;;;
  print ("Thread ID:  " +:+ thread_id e) ;;;
  print ("Message ID: " +:+ message_id e) ;;;
  print ("From:       " +:+ from_ e) ;;;
  print ("To:         " +:+ to_ e) ;;;
  print ("CC:         " +:+ (if nonempty (cc_ e) then cc_ e else "(none)")) ;;;
  print ("Subject:    " +:+ subject_ e) ;;;
  print ("Date:       " +:+ date_ e) ;;;
  print (String Py.LF "Body Preview (first 500 chars):") ;;;
  print (Py.take 500 (body_ e) +:+ "...").

Fixpoint print_summaries (i : nat) (captured : list email) : M unit :=
  match captured with
  | [] => ret tt
  | e :: rest => print_summary i e ;;; print_summaries (S i) rest
  end.

Section WithBase64.

(** [base64.urlsafe_b64decode(data).decode('utf-8', errors='ignore')],
    the library's decoder; it raises on malformed input. *)
Variable b64decode : string -> answer string.

Fixpoint decode_body (p : payload) : answer string :=
  match p with
  | Payload _ _ (Some parts) =>
      (fix loop (parts : list payload) (body : string) : answer string :=
         match parts with
         | [] => Answer body
         | part :: rest =>
             let '(Payload mime_type data sub) := part in
             let mime_type := default EmptyString mime_type in
             (* the [elif 'parts' in part] branch *)
             let nested_parts :=
               match sub with
               | Some _ =>
                   abind (decode_body part)
                     (fun nested_body =>
                        if nonempty nested_body then Answer nested_body
                        else loop rest body)
               | None => loop rest body
               end in
             match data with
             | Some d =>
                 if String.eqb mime_type "text/plain" then b64decode d
                 else if String.eqb mime_type "text/html" then
                   if nonempty body then loop rest body
                   else abind (b64decode d) (fun body' => loop rest body')
                 else nested_parts
             | None => nested_parts
             end
         end) parts EmptyString
  | Payload _ (Some d) None => b64decode d
  | Payload _ None None => Answer EmptyString
  end.

(** One round of the loop over [messages]: fetch, decode, build the
    record. *)
Definition capture_one (query : string) (msg_meta : msg_meta) : M email :=
  let msg_id := meta_id msg_meta in
  let thread_id := meta_threadId msg_meta in
  msg <- remote_call (MessagesGet msg_id) (fun r => messages_get r msg_id) ;;
  let headers := extract_headers (msg_headers msg) in
  body <- lift (decode_body (msg_payload msg)) ;;
  stamp <- datetime_now ;;
  ret (Email stamp msg_id thread_id
             (default EmptyString (headers !! "from"))
             (default EmptyString (headers !! "to"))
             (default EmptyString (headers !! "cc"))
             (default EmptyString (headers !! "bcc"))
             (default EmptyString (headers !! "subject"))
             (default EmptyString (headers !! "date"))
             (limit_body body)
             query
             (default EmptyString (msg_snippet msg))).

Fixpoint capture_all (query : string) (messages : list msg_meta) : M (list email) :=
  match messages with
  | [] => ret []
  | m :: rest =>
      e <- capture_one query m ;;
      es <- capture_all query rest ;;
      ret (e :: es)
  end.

(** Lines 149-170. *)
Definition save_cache (cache_file : string) (captured : list email)
    (json_output : bool) : M unit :=
  cache_data <- read_cache cache_file ;;
  cache_data' <- store_all captured cache_data ;;
  write_file cache_file (JsonFile cache_data') ;;;
  if negb json_output then
    print ("✓ Saved " +:+ pretty (List.length captured) +:+ " email(s) to cache: "
             +:+ cache_file)
  else ret tt.

Definition capture_email (query : string) (save json_output : bool)
    (cache_path : option string) : M (option (list email)) :=
  h <- get_home ;;
  let cache_file := default (CACHE_FILE h) cache_path in
  results <- remote_call (MessagesList query 5) (fun r => messages_list r query) ;;
  match default [] results with
  | [] =>
      print ("No emails found for query: " +:+ query) ;;;
      ret None
  | messages =>
      captured <- capture_all query messages ;;
      (if save then save_cache cache_file captured json_output else ret tt) ;;;
      (if json_output then emit (JsonList (map email_json captured))
       else print_summaries 1 captured) ;;;
      ret (Some captured)
  end.

Record args := Args {
  query : string;
  save : bool;
  json_flag : bool;
  cache_path : option string
}.

Definition main (c : command_line args) : M unit :=
  a <- parse_args c ;;
  creds <- get_credentials ;;
  build "gmail" "v1" ;;;
  (* cache_path = Path(args.cache_path) if args.cache_path else None *)
  capture_email (query a) (save a) (json_flag a) (if_truthy (cache_path a)) ;;;
  ret tt.

End WithBase64.

End CaptureEmail.

(** ** Sample worlds *)

Definition fresh_token : credentials := Credentials "ya29.token" true false None.

(** A provider that answers every call. *)
Definition obliging : remote :=
  Remote (Answer (Profile (Some "hello@livemoments.com.sg")))
         (fun _ => Answer (Thread ["m-first"; "m-last"]))
         (fun b => Answer (Sent (Some "sent-1") (threadId b)))
         (fun _ => Answer (Saved (Some "draft-1")))
         (fun _ => Answer (Some [Meta "18c2f3a4b5d6e7f8" "thread-1"]))
         (fun _ => Answer (Message [] (Payload None None None) None))
         (fun _ _ => Answer (Created (Some "event-1") (Some "https://calendar/event-1")))
         (fun c => Answer c)
         (Answer fresh_token)
         (fun _ => Answer tt)
         (fun _ _ => Answer tt).

Definition world_of (r : remote) (fs : gmap string file) (typed : list string) : world :=
  World r "/home/ops" fs typed [] [] (fun _ => "2026-01-01T09:00:00") 0.

Definition token_store (account : string) : gmap string file :=
  {[ SendEmail.token_file "/home/ops" account := PickleFile fresh_token ]}.

(** The mail account with its token in place, and what the operator types. *)
Definition office (typed : list string) : world :=
  world_of obliging (token_store "livemomentssg@gmail.com") typed.

(** A machine on which nothing was set up. *)
Definition bare : world := world_of obliging ∅ [].

(** A provider whose search is rate-limited. *)
Definition throttled : remote :=
  Remote (getProfile obliging) (threads_get obliging) (messages_send obliging)
         (drafts_create obliging)
         (fun _ => Fails "HttpError" "Rate Limit Exceeded")
         (messages_get obliging) (events_insert obliging) (refresh obliging)
         (run_local_server obliging) (as_bytes obliging) (discovery obliging).

(** A provider whose search finds two messages of one thread, received
    within the same few seconds: their ids share the first eight digits. *)
Definition twins : remote :=
  Remote (getProfile obliging) (threads_get obliging) (messages_send obliging)
         (drafts_create obliging)
         (fun _ => Answer (Some [Meta "18c2f3a4b5d6e7f8" "thread-1";
                                 Meta "18c2f3a4c0ffee00" "thread-1"]))
         (fun id => Answer (Message [Header (Some "Subject") (Some id)]
                              (Payload (Some "text/plain") (Some id) None)
                              (Some id)))
         (events_insert obliging) (refresh obliging) (run_local_server obliging)
         (as_bytes obliging) (discovery obliging).

(** A record as the capture tool builds it. *)
Definition quotation_mail : CaptureEmail.email :=
  CaptureEmail.Email "2026-01-01T09:00:00" "18c2f3a4b5d6e7f8" "thread-1"
    "jean@example.com" "livemomentssg@gmail.com" "" "" "Quotation" "Thu, 1 Jan 2026"
    "Dear team, please send the quotation." "from:jean subject:quotation"
    "Dear team, please send".

(** A cache file that already holds one entry. *)
Definition cache_path : string := "/home/ops/email_cache.json".
Definition cached : world :=
  world_of obliging
    {[ cache_path := JsonFile (JObj [("thread-0_17aa0000", JStr "an older record")]) ]}
    [].

(** A ten-character decoder output repeated 600 times: a body of 6000
    characters. *)
Definition long_body : string :=
  String.concat EmptyString (repeat "0123456789" 600).

(** The capture tool's working directory with its [token.json]. *)
Definition capture_desk (r : remote) : world :=
  world_of r {[ "token.json" := TokenJson fresh_token ]} [].

Definition iso_datetimes : string -> string -> string -> answer (string * string) :=
  fun date start_time end_time =>
    Answer (date +:+ "T" +:+ start_time +:+ ":00", date +:+ "T" +:+ end_time +:+ ":00").

(** ** Observations on a run *)

Definition is_refresh (c : call * option exn) : bool :=
  match fst c with
  | TokenRefresh _ | OAuthFlow => true
  | _ => false
  end.

(** The calls that send or store something at the provider. *)
Definition delivers (c : call * option exn) : bool :=
  match fst c with
  | MessagesSend _ | DraftsCreate _ | EventsInsert _ _ => true
  | _ => false
  end.

(** The message a call hands over, if it hands one over. *)
Definition delivered (c : call * option exn) : option msg_body :=
  match fst c with
  | MessagesSend b | DraftsCreate b => Some b
  | _ => None
  end.

Definition is_prompt (o : output) : bool :=
  match o with
  | Prompt _ => true
  | _ => false
  end.

(** [m], started in [w], ends with [r] in [w'], having appended [new_calls]
    to the log of remote calls and [new_out] to the console. *)
Record run_of {A} (m : M A) (w : world) (r : outcome A) (w' : world)
    (new_calls : list (call * option exn)) (new_out : list output) : Prop := RunOf {
  run_eq : m w = (r, w');
  run_api : api w' = api w;
  run_home : home w' = home w;
  run_calls : calls w' = (calls w ++ new_calls)%list;
  run_out : stdout w' = (stdout w ++ new_out)%list
}.

(** What every mail operation guarantees about one run from [w]:
    it returns a result; a provider call that failed (other than a token
    refresh) is reported as a failure with its message; every message
    handed over satisfies [ok]; an operator who declines at the prompt gets
    the cancelled result and nothing is handed over; without a token the
    result is the failure [unconfigured] and no remote call is made. *)
Definition mail_run (m : M (gmap string value)) (w : world) (auto_confirm : bool)
    (ok : msg_body -> Prop) (no_token : Prop) (unconfigured : string) : Prop :=
  exists res w' l o,
    run_of m w (Return res) w' l o /\
    (forall c e, In (c, Some e) l -> is_refresh (c, Some e) = false ->
                 res = failure (str_exn e)) /\
    Forall (fun c => forall b, delivered c = Some b -> ok b) l /\
    (auto_confirm = false -> forall line rest,
       stdin w = line :: rest ->
       Py.mem (Py.lower (Py.strip line)) affirmative = false ->
       Forall (fun c => delivers c = false) l /\
       (existsb is_prompt o = true -> res = cancelled)) /\
    (no_token -> res = failure unconfigured /\ calls w' = calls w).

(** No token file for [account] at either place the mail tools look. *)
Definition no_mail_token (account : string) (w : world) : Prop :=
  files w !! SendEmail.token_file (home w) account = None /\
  files w !! SendEmail.alt_path (home w) account = None.


(** ** The operations behind one interface *)

Inductive job :=
| SendEmailJob (account to subject body : string) (cc bcc : option string)
    (auto_confirm : bool) (from_address : option string) (draft : bool)
    (thread_id : option string)
| SendReplyJob (account thread_id to subject body : string) (cc : option string)
    (auto_confirm : bool) (from_address : option string) (draft : bool)
| NotifyJob (account client poc poc_email date time venue event_type : string)
    (auto_confirm draft : bool)
| AddEventJob (account company poc event_type date start_time end_time location
    email_id : string) (description : option string) (status : string).

Section Perform.

Variable datetimes : string -> string -> string -> answer (string * string).

Definition perform (j : job) : M (gmap string value) :=
match j with
| SendEmailJob account to subject body cc bcc auto_confirm from_address draft
    thread_id =>
    SendEmail.send_email account to subject body cc bcc auto_confirm
      from_address draft thread_id
| SendReplyJob account thread_id to subject body cc auto_confirm from_address
    draft =>
    SendEmail.send_reply account thread_id to subject body cc auto_confirm
      from_address draft
| NotifyJob account client poc poc_email date time venue event_type
    auto_confirm draft =>
    NotifyDesigner.send_designer_notification account client poc poc_email date
      time venue event_type auto_confirm draft
| AddEventJob account company poc event_type date start_time end_time location
    email_id description status =>
    AddCalendarEvent.add_event datetimes account company poc event_type date
      start_time end_time location email_id description status
end.

End Perform.

(** Whether the operation skips the confirmation prompt; [add_event] has
    none. *)
Definition auto_confirmed (j : job) : bool :=
  match j with
  | SendEmailJob _ _ _ _ _ _ auto_confirm _ _ _ => auto_confirm
  | SendReplyJob _ _ _ _ _ _ auto_confirm _ _ => auto_confirm
  | NotifyJob _ _ _ _ _ _ _ _ auto_confirm _ => auto_confirm
  | AddEventJob _ _ _ _ _ _ _ _ _ _ _ => true
  end.

(** The plain-text body of the message the operation builds. *)
Definition body_of (j : job) : string :=
  match j with
  | SendEmailJob _ _ _ body _ _ _ _ _ _ => body
  | SendReplyJob _ _ _ _ body _ _ _ _ => body
  | NotifyJob _ client poc poc_email date time venue event_type _ _ =>
      snd (NotifyDesigner.build_designer_email client poc poc_email date time
             venue event_type)
  | AddEventJob _ _ _ _ _ _ _ _ _ _ _ => EmptyString
  end.

Definition account_of (j : job) : string :=
  match j with
  | SendEmailJob account _ _ _ _ _ _ _ _ _ => account
  | SendReplyJob account _ _ _ _ _ _ _ _ => account
  | NotifyJob account _ _ _ _ _ _ _ _ _ => account
  | AddEventJob account _ _ _ _ _ _ _ _ _ _ => account
  end.

(** No stored token where the operation looks for one. *)
Definition token_missing (j : job) (w : world) : Prop :=
  match j with
  | AddEventJob account _ _ _ _ _ _ _ _ _ _ =>
      files w !! AddCalendarEvent.token_file (home w) account = None
  | _ => no_mail_token (account_of j) w
  end.

(** The error message of the operation when no token is stored. *)
Definition not_configured (j : job) : string :=
  match j with
  | SendEmailJob account _ _ _ _ _ _ _ _ _ =>
      "No credentials found for " +:+ account +:+ ". Run OAuth setup first."
  | SendReplyJob account _ _ _ _ _ _ _ _ =>
      "No credentials found for " +:+ account
  | NotifyJob account _ _ _ _ _ _ _ _ _ =>
      "No credentials found for " +:+ account +:+ ". Run OAuth setup first."
  | AddEventJob _ _ _ _ _ _ _ _ _ _ _ => "No credentials found"
  end.

(** The path the operation expects the token at. *)
Definition expected_path (j : job) (w : world) : string :=
  match j with
  | AddEventJob account _ _ _ _ _ _ _ _ _ _ =>
      AddCalendarEvent.token_file (home w) account
  | _ => SendEmail.token_file (home w) (account_of j)
  end.

(** ** The words of the specification *)

(** "Every newline replaced by a line break marker, no other character
    changed." *)
Fixpoint line_breaks (body : string) : string :=
  match body with
  | EmptyString => EmptyString
  | String c rest =>
      if Ascii.eqb c Py.LF then "<br>" +:+ line_breaks rest
      else String c (line_breaks rest)
  end.

(** "Strip a pre-existing [Re:] prefix once, then re-add a single [Re: ]";
    a [Re: ] that is not a prefix stays. *)
Definition normalized_reply_subject (subject : string) : string :=
  "Re: " +:+ (if Py.startswith "Re: " subject then Py.drop 4 subject else subject).

(** [removed old s t]: [t] is [s] without the occurrences of [old], found
    from the left and not overlapping. *)
Inductive removed (old : string) : string -> string -> Prop :=
| removed_end : removed old EmptyString EmptyString
| removed_here s t :
    Py.startswith old s = true ->
    removed old (Py.drop (String.length old) s) t ->
    removed old s t
| removed_copy c s t :
    Py.startswith old (String c s) = false ->
    removed old s t ->
    removed old (String c s) (String c t).

(** [needle in hay] *)
Fixpoint contains (needle hay : string) : bool :=
  Py.startswith needle hay
  || match hay with
     | EmptyString => false
     | String _ rest => contains needle rest
     end.

(** The subjects of the messages handed to the provider, oldest first. *)
Definition delivered_subjects (w : world) : list string :=
  omap (fun c => option_map (fun b => m_subject (raw b)) (delivered c)) (calls w).

(** The cache object a file is read as: [{}] when missing or unreadable;
    nothing when the file holds JSON that is not an object. *)
Definition cache_object (f : option file) : option (list (string * json)) :=
  match f with
  | Some (JsonFile (JObj fields)) => Some fields
  | Some (JsonFile _) => None
  | _ => Some []
  end.

(** The dictionary after the loop [for email in captured: cache_data[key] = email]. *)
Definition merged (captured : list CaptureEmail.email) (fields : list (string * json))
  : list (string * json) :=
  fold_left
    (fun d e => dict_set (CaptureEmail.cache_key e) (CaptureEmail.email_json e) d)
    captured fields.

(** What the body of a captured record is: the decoded body of the fetched
    message, cut after 5000 characters. *)
Definition body_cut_from (b64decode : string -> answer string) (w : world)
    (e : CaptureEmail.email) : Prop :=
  exists msg body,
    messages_get (api w) (CaptureEmail.message_id e) = Answer msg /\
    CaptureEmail.decode_body b64decode (msg_payload msg) = Answer body /\
    CaptureEmail.body_ e = Py.take 5000 body.

(** ** Further observations on a run *)

Definition is_profile (c : call * option exn) : bool :=
  match fst c with
  | GetProfile => true
  | _ => false
  end.

Definition sends (c : call * option exn) : bool :=
  match fst c with
  | MessagesSend _ => true
  | _ => false
  end.

Definition stores_draft (c : call * option exn) : bool :=
  match fst c with
  | DraftsCreate _ => true
  | _ => false
  end.

(** The call came back without an exception. *)
Definition returned (c : call * option exn) : bool :=
  match snd c with
  | None => true
  | Some _ => false
  end.

(** With [draft] nothing is sent; without it no draft is stored. *)
Definition kind_ok (draft : bool) (c : call * option exn) : bool :=
  if draft then negb (sends c) else negb (stores_draft c).

(** The guarantees of a mail operation beyond [mail_run]: [r] is the run's
    result dictionary, [l] its new remote calls, [o] its new console
    output. *)
Record mail_detail (w w' : world) (auto_confirm draft : bool)
    (res : gmap string value) (l : list (call * option exn)) (o : list output)
  : Prop := MailDetail {
  (** a success is one delivery, the last call, and it came back *)
  on_success :
    truthy (res !! "success") = true ->
    exists c, last l = Some c /\ delivers c = true /\ returned c = true /\
              List.filter delivers l = [c];
  (** otherwise whatever was handed over was refused *)
  on_failure :
    truthy (res !! "success") = false ->
    Forall (fun c => delivers c = true -> returned c = false) l;
  only_the_kind_asked : Forall (fun c => kind_ok draft c = true) l;
  (** auto-confirmed runs leave the console input alone *)
  no_prompt :
    auto_confirm = true -> stdin w' = stdin w /\ existsb is_prompt o = false;
  (** a prompt at the end of the input is a failure, not a crash *)
  prompt_at_eof :
    auto_confirm = false -> stdin w = [] ->
    Forall (fun c => delivers c = false) l /\
    (existsb is_prompt o = true -> res = failure "EOF when reading a line")
}.

Definition is_thread_lookup (c : call * option exn) : bool :=
  match fst c with
  | ThreadsGet _ => true
  | _ => false
  end.

(** The sender of a message: the override when there is one, else the
    address of the profile, else the account. *)
Definition sender_rule (w : world) (account : string) (from_address : option string)
    (sender : string) : Prop :=
  match if_truthy from_address with
  | Some a => sender = a
  | None =>
      exists p, getProfile (api w) = Answer p /\
                sender = default account (emailAddress p)
  end.

Definition draft_of (j : job) : bool :=
  match j with
  | SendEmailJob _ _ _ _ _ _ _ _ draft _ => draft
  | SendReplyJob _ _ _ _ _ _ _ _ draft => draft
  | NotifyJob _ _ _ _ _ _ _ _ _ draft => draft
  | AddEventJob _ _ _ _ _ _ _ _ _ _ _ => false
  end.

(** Whether the operation knows its sender without asking the provider:
    an override is given, or the operation has a fixed sender or none. *)
Definition sender_known (j : job) : bool :=
  match j with
  | SendEmailJob _ _ _ _ _ _ _ from_address _ _ => Py.truthy_str from_address
  | SendReplyJob _ _ _ _ _ _ _ from_address _ => Py.truthy_str from_address
  | NotifyJob _ _ _ _ _ _ _ _ _ _ => true
  | AddEventJob _ _ _ _ _ _ _ _ _ _ _ => true
  end.

(** ** Further sample worlds *)

(** A provider whose threads hold no message. *)
Definition hollow : remote :=
  Remote (getProfile obliging) (fun _ => Answer (Thread []))
         (messages_send obliging) (drafts_create obliging) (messages_list obliging)
         (messages_get obliging) (events_insert obliging) (refresh obliging)
         (run_local_server obliging) (as_bytes obliging) (discovery obliging).

(** A serialiser that refuses a subject with a line break in it. *)
Definition strict : remote :=
  Remote (getProfile obliging) (threads_get obliging) (messages_send obliging)
         (drafts_create obliging) (messages_list obliging)
         (messages_get obliging) (events_insert obliging) (refresh obliging)
         (run_local_server obliging)
         (fun m =>
            if contains (String Py.LF EmptyString) (m_subject m)
            then Fails "HeaderWriteError" "folded header contains newline"
            else Answer tt)
         (discovery obliging).

(** A provider that refuses every send. *)
Definition over_quota : remote :=
  Remote (getProfile obliging) (threads_get obliging)
         (fun _ => Fails "HttpError" "Daily user sending quota exceeded")
         (drafts_create obliging) (messages_list obliging)
         (messages_get obliging) (events_insert obliging) (refresh obliging)
         (run_local_server obliging) (as_bytes obliging) (discovery obliging).

Definition quotation : job :=
  SendEmailJob "livemomentssg@gmail.com" "client@example.com" "Quotation"
    "Please find the quotation attached." (Some "boss@example.com") (Some "")
    true None false None.

Definition quotation_draft : job :=
  SendEmailJob "livemomentssg@gmail.com" "client@example.com" "Quotation"
    "Please find the quotation attached." None None true
    (Some "hello@livemoments.com.sg") true None.

Definition quotation_reply : job :=
  SendReplyJob "livemomentssg@gmail.com" "thread-1" "client@example.com"
    "Re: Quotation" "Thanks." None true None false.

Definition booking_notice (auto_confirm : bool) : job :=
  NotifyJob "livemomentssg@gmail.com" "Acme" "Jane" "jane@acme.example"
    "24 May 2026" "6:00 PM" "Conrad Singapore" "Corporate" auto_confirm false.

(** A token that ran out and can be renewed, and the token store holding
    it. *)
Definition stale_token : credentials :=
  Credentials "ya29.old" false true (Some "1//refresh").

Definition renewing : remote :=
  Remote (getProfile obliging) (threads_get obliging) (messages_send obliging)
         (drafts_create obliging) (messages_list obliging)
         (messages_get obliging) (events_insert obliging)
         (fun c => Answer (Credentials "ya29.new" true false (refresh_token c)))
         (run_local_server obliging) (as_bytes obliging) (discovery obliging).

Definition revoked : remote :=
  Remote (getProfile obliging) (threads_get obliging) (messages_send obliging)
         (drafts_create obliging) (messages_list obliging)
         (messages_get obliging) (events_insert obliging)
         (fun _ => Fails "RefreshError" "invalid_grant: Token has been expired or revoked.")
         (run_local_server obliging) (as_bytes obliging) (discovery obliging).

Definition stale_store (account : string) : gmap string file :=
  {[ SendEmail.token_file "/home/ops" account := PickleFile stale_token ]}.

(** The [.json] fallback of the mail tools, holding a token as JSON text. *)
Definition json_store (account : string) : gmap string file :=
  {[ SendEmail.alt_path "/home/ops" account := TokenJson fresh_token ]}.

(** The file the mail tools load the token from, if there is one: the
    [.token] file first, the [.json] file otherwise. *)
Definition mail_token_path (account : string) (w : world) : option string :=
  if bool_decide (is_Some (files w !! SendEmail.token_file (home w) account))
  then Some (SendEmail.token_file (home w) account)
  else if bool_decide (is_Some (files w !! SendEmail.alt_path (home w) account))
       then Some (SendEmail.alt_path (home w) account)
       else None.

(** A stored file from which no token can be loaded: it is no pickle, or
    it holds an expired token whose refresh the provider refuses. *)
Definition unloadable (r : remote) (f : file) : Prop :=
  match f with
  | PickleFile c =>
      expired c = true /\ Py.truthy_str (refresh_token c) = true /\
      exists cls msg, refresh r c = Fails cls msg
  | _ => True
  end.

(** The three operations of the mail tools. *)
Definition is_mail (j : job) : bool :=
  match j with
  | AddEventJob _ _ _ _ _ _ _ _ _ _ _ => false
  | _ => true
  end.

(** ** What the calls of a run amount to *)

(** One delivering call, the last of the run, and the provider took it. *)
Definition accepted_once (l : list (call * option exn)) : Prop :=
  exists c, last l = Some c /\ delivers c = true /\ returned c = true /\
            List.filter delivers l = [c].

(** No delivering call that the provider took. *)
Definition none_accepted (l : list (call * option exn)) : Prop :=
  Forall (fun c => delivers c = true -> returned c = false) l.

(** Exit status 0 stands for one accepted delivery, 1 for none. *)
Definition status_tells (code : Z) (l : list (call * option exn)) : Prop :=
  code = 0%Z /\ accepted_once l \/ code = 1%Z /\ none_accepted l.

(** Sample command lines. *)
Definition quotation_args : SendEmail.args :=
  SendEmail.Args "livemomentssg@gmail.com" "client@example.com" "Quotation"
    (Some "inline body") (Some "body.txt") None None None None None false true false.

Definition booking_args : NotifyDesigner.args :=
  NotifyDesigner.Args "livemomentssg@gmail.com" "Acme" "Jane" "jane@acme.example"
    "24 May 2026" "6:00 PM" "Conrad Singapore" "Corporate" false true false.

Definition event_args (json_flag : bool) : AddCalendarEvent.args :=
  AddCalendarEvent.Args "livemomentssg@gmail.com" "Acme" "Jane" "EVENT" "2026-05-21"
    "09:00" "20:30" "Conrad Singapore" "abc123" None "TBC" json_flag.

(** ** The capture tool, piece by piece *)

(** The loop of [decode_body] over the parts of a payload (lines 64-81),
    entered with the body found so far. *)
Definition decode_parts (b64decode : string -> answer string)
  : list payload -> string -> answer string :=
  fix loop (parts : list payload) (body : string) : answer string :=
    match parts with
    | [] => Answer body
    | part :: rest =>
        let '(Payload mime_type data sub) := part in
        let mime_type := default EmptyString mime_type in
        let nested_parts :=
          match sub with
          | Some _ =>
              abind (CaptureEmail.decode_body b64decode part)
                (fun nested_body =>
                   if nonempty nested_body then Answer nested_body
                   else loop rest body)
          | None => loop rest body
          end in
        match data with
        | Some d =>
            if String.eqb mime_type "text/plain" then b64decode d
            else if String.eqb mime_type "text/html" then
              if nonempty body then loop rest body
              else abind (b64decode d) (fun body' => loop rest body')
            else nested_parts
        | None => nested_parts
        end
    end.

(** The data of a part that is [text/plain] and has body data. *)
Definition plain_data (p : payload) : option string :=
  let '(Payload mime_type data _) := p in
  if String.eqb (default EmptyString mime_type) "text/plain" then data else None.

(** The data of a part that is [text/html] and has body data. *)
Definition html_data (p : payload) : option string :=
  let '(Payload mime_type data _) := p in
  if String.eqb (default EmptyString mime_type) "text/html" then data else None.

Definition has_parts (p : payload) : bool :=
  let '(Payload _ _ sub) := p in
  match sub with Some _ => true | None => false end.

(** The lower-cased name and the value of a header, as [extract_headers]
    reads them. *)
Definition header_key (h : header) : string := Py.lower (default EmptyString (h_name h)).
Definition header_text (h : header) : string := default EmptyString (h_value h).

(** The [get] call that fetches a message. *)
Definition fetch (m : msg_meta) : call * option exn := (MessagesGet (meta_id m), None).

(** A provider whose search finds nothing, without a [messages] key. *)
Definition silent_inbox : remote :=
  Remote (getProfile obliging) (threads_get obliging) (messages_send obliging)
         (drafts_create obliging) (fun _ => Answer None)
         (messages_get obliging) (events_insert obliging) (refresh obliging)
         (run_local_server obliging) (as_bytes obliging) (discovery obliging).

(** A message in the two usual renderings, the HTML one first. *)
Definition two_renderings : payload :=
  Payload (Some "multipart/alternative") (Some "ignored")
    (Some [ Payload (Some "text/html") (Some "<p>Dear team</p>") None;
            Payload (Some "text/plain") (Some "Dear team") None ]).

(** The capture tool's working directory with a cache file that holds a
    JSON list. *)
Definition list_cache : world :=
  world_of twins
    {[ "token.json" := TokenJson fresh_token;
       cache_path := JsonFile (JArr [JStr "not an object"]) ]} [].

(** ** When a mail operation gets as far as the provider *)

(** A stored token that is loaded as it is: a pickle that is not both
    expired and renewable. *)
Definition token_ready (account : string) (w : world) : Prop :=
  exists p c,
    mail_token_path account w = Some p /\
    files w !! p = Some (PickleFile c) /\
    expired c && Py.truthy_str (refresh_token c) = false.

(** For a reply, the thread is there and holds a message. *)
Definition thread_ready (j : job) (w : world) : Prop :=
  match j with
  | SendReplyJob _ thread_id _ _ _ _ _ _ _ =>
      exists t id,
        threads_get (api w) thread_id = Answer t /\
        last (thread_messages t) = Some id
  | _ => True
  end.

(** The operation is auto-confirmed, or the next line of the console is an
    accepted answer. *)
Definition confirmation_given (auto_confirm : bool) (w : world) : Prop :=
  auto_confirm = true \/
  exists line rest,
    stdin w = line :: rest /\
    Py.mem (Py.lower (Py.strip line)) affirmative = true.

(** Nothing stops the operation before it hands its message over: the
    token loads, the service is built, the sender is known or the profile
    is answered, the thread of a reply is found, the serialiser takes the
    message, and the operator agrees. *)
Definition goes_through (j : job) (w : world) : Prop :=
  is_mail j = true /\
  token_ready (account_of j) w /\
  (sender_known j = true \/ exists p, getProfile (api w) = Answer p) /\
  discovery (api w) "gmail" "v1" = Answer tt /\
  thread_ready j w /\
  (forall m, as_bytes (api w) m = Answer tt) /\
  confirmation_given (auto_confirmed j) w.
(** * Properties *)

(** ** The string built-ins *)

Section StringFacts.

Implicit Types (s t old new : string) (c : ascii).

Lemma append_cons c s t : String c s +:+ t = String c (s +:+ t).
Proof. reflexivity. Qed.

Lemma append_empty t : EmptyString +:+ t = t.
Proof. reflexivity. Qed.

Lemma startswith_app p s : Py.startswith p (p +:+ s) = true.
Proof.
  induction p as [|a p IH]; [reflexivity|].
  rewrite append_cons. cbn [Py.startswith].
  rewrite Ascii.eqb_refl. exact IH.
Qed.

Lemma drop_app p s : Py.drop (String.length p) (p +:+ s) = s.
Proof.
  induction p as [|a p IH]; [destruct s; reflexivity|].
  rewrite append_cons. exact IH.
Qed.

Lemma drop_nil n : Py.drop n EmptyString = EmptyString.
Proof. destruct n; reflexivity. Qed.

Lemma take_drop n s : Py.take n s +:+ Py.drop n s = s.
Proof.
  revert s; induction n as [|n IH]; intros [|c s]; try reflexivity.
  cbn [Py.take Py.drop]. rewrite append_cons. f_equal. apply IH.
Qed.

Lemma take_length n s : String.length (Py.take n s) = Nat.min n (String.length s).
Proof.
  revert s; induction n as [|n IH]; intros [|c s]; simpl; try reflexivity.
  f_equal. apply IH.
Qed.

(** Jumping over [k] characters is dropping them. *)
Lemma replace_from_drop old new k s :
  Py.replace_from old new k s = Py.replace old new (Py.drop k s).
Proof.
  unfold Py.replace. revert k; induction s as [|c s IH]; intros k.
  - rewrite drop_nil. reflexivity.
  - destruct k as [|k]; [reflexivity|]. simpl. apply IH.
Qed.

(** The two equations of [str.replace]: at a match, emit [new] and go on
    behind the match; elsewhere, copy a character. *)
Lemma replace_match old new s :
  old <> EmptyString -> Py.startswith old s = true ->
  Py.replace old new s = new +:+ Py.replace old new (Py.drop (String.length old) s).
Proof.
  intros Hold Hs. destruct s as [|c s].
  - destruct old; [congruence | discriminate].
  - unfold Py.replace at 1. cbn [Py.replace_from]. rewrite Hs.
    rewrite replace_from_drop. destruct old as [|a old]; [congruence|].
    simpl. rewrite Nat.sub_0_r. reflexivity.
Qed.

Lemma replace_copy old new c s :
  Py.startswith old (String c s) = false ->
  Py.replace old new (String c s) = String c (Py.replace old new s).
Proof. intros Hs. unfold Py.replace. cbn [Py.replace_from]. rewrite Hs. reflexivity. Qed.

Lemma replace_empty old new : Py.replace old new EmptyString = EmptyString.
Proof. reflexivity. Qed.

Lemma replace_app_old old new s :
  old <> EmptyString ->
  Py.replace old new (old +:+ s) = new +:+ Py.replace old new s.
Proof.
  intros Hold. rewrite replace_match by (auto using startswith_app).
  rewrite drop_app. reflexivity.
Qed.

Lemma mem_In x l : Py.mem x l = true <-> In x l.
Proof.
  unfold Py.mem. rewrite existsb_exists. split.
  - intros (y & Hy & E). apply String.eqb_eq in E. subst. exact Hy.
  - intros H. exists x. split; [exact H | apply String.eqb_refl].
Qed.

End StringFacts.

(** ** Running the monad *)

Ltac answer_cases :=
  match goal with
  | H : context [to_outcome ?x] |- _ => destruct x eqn:?
  | |- context [to_outcome ?x] => destruct x eqn:?
  end.

(** Symbolic execution: reduce, split on the next provider answer or on the
    next scrutinee, and drop the impossible branches. *)
Ltac run :=
  repeat (simpl in *; simplify_eq; try first [answer_cases | case_match]).

(** [l' = l ++ ?new] for an [l'] that is [l] with items appended. *)
Ltac appended :=
  simpl; rewrite <- ?app_assoc;
  first [ reflexivity
        | apply eq_sym, app_nil_r
        | repeat f_equal; first [reflexivity | apply eq_sym, app_nil_r] ].

Ltac framed E := split; [exact E | appended ..].

(** Close the branches that need a file which is known to be absent. *)
Ltac absent :=
  intros;
  first [ split; reflexivity
        | reflexivity
        | exfalso;
          first [ congruence
                | repeat match goal with
                    | H : files ?w !! ?p = None, H' : context [files ?w !! ?p] |- _ =>
                        lazymatch type of H' with
                        | files w !! p = None => fail
                        | _ => rewrite H in H'; simpl in H'
                        end
                    end; congruence ] ].

Section Credentials.

Lemma not_prompt_existsb o :
  Forall (fun x => is_prompt x = false) o -> existsb is_prompt o = false.
Proof.
  induction 1 as [|x o Hx _ IH]; [reflexivity|].
  simpl. rewrite Hx. exact IH.
Qed.

(** Loading the token of the mail tools always returns; it issues token
    refreshes only, reads nothing from the console, and without a token
    file it returns [None] and leaves the world as it was. *)
Lemma mail_load_credentials_run account w :
  exists oc w1 l o,
    run_of (SendEmail.load_credentials account) w (Return oc) w1 l o /\
    stdin w1 = stdin w /\
    Forall (fun c => is_refresh c = true) l /\
    Forall (fun x => is_prompt x = false) o /\
    (files w !! SendEmail.token_file (home w) account = None ->
     files w !! SendEmail.alt_path (home w) account = None ->
     oc = None /\ w1 = w).
Proof.
  destruct (SendEmail.load_credentials account w) as [r w1] eqn:E.
  pose proof E as E0.
  set (m := SendEmail.load_credentials account) in E0 |- *.
  unfold SendEmail.load_credentials, SendEmail.get_credentials_path,
    refresh_if_expired, bind, try_except, ret, raise, get_home, path_exists,
    pickle_load, write_file, eprint, emit, remote_call in E.
  run.
  all: eexists _, _, _, _; (split; [framed E0|]).
  all: split; [reflexivity|].
  all: split; [repeat constructor | split; [repeat constructor|]].
  all: absent.
Qed.

Lemma calendar_load_credentials_run account w :
  exists oc w1 l o,
    run_of (AddCalendarEvent.load_credentials account) w (Return oc) w1 l o /\
    stdin w1 = stdin w /\
    Forall (fun c => is_refresh c = true) l /\
    Forall (fun x => is_prompt x = false) o /\
    (files w !! AddCalendarEvent.token_file (home w) account = None ->
     oc = None /\ l = []).
Proof.
  destruct (AddCalendarEvent.load_credentials account w) as [r w1] eqn:E.
  pose proof E as E0.
  set (m := AddCalendarEvent.load_credentials account) in E0 |- *.
  unfold AddCalendarEvent.load_credentials, AddCalendarEvent.get_credentials_path,
    refresh_if_expired, bind, try_except, ret, raise, get_home, path_exists,
    pickle_load, write_file, print, emit, remote_call in E.
  run.
  all: eexists _, _, _, _; (split; [framed E0|]).
  all: split; [reflexivity|].
  all: split; [repeat constructor | split; [repeat constructor|]].
  all: absent.
Qed.

Lemma set_stdout_twice o1 o2 w : set_stdout o2 (set_stdout o1 w) = set_stdout o2 w.
Proof. reflexivity. Qed.

Lemma mail_preview_run to subject body cc bcc sender w :
  exists o,
    SendEmail.preview_email to subject body cc bcc sender w
    = (Return tt, set_stdout (stdout w ++ o) w) /\
    Forall (fun x => is_prompt x = false) o.
Proof.
  unfold SendEmail.preview_email, bind, print, emit, ret.
  destruct (if_truthy sender), (if_truthy cc), (if_truthy bcc);
    simpl; rewrite !set_stdout_twice;
    (eexists; split; [f_equal; f_equal; appended | repeat constructor]).
Qed.

Lemma designer_preview_run to subject body sender w :
  exists o,
    NotifyDesigner.preview_email to subject body sender w
    = (Return tt, set_stdout (stdout w ++ o) w) /\
    Forall (fun x => is_prompt x = false) o.
Proof.
  unfold NotifyDesigner.preview_email, bind, print, emit, ret. simpl.
  rewrite !set_stdout_twice.
  eexists; split; [f_equal; f_equal; appended | repeat constructor].
Qed.

End Credentials.

(** ** One run of each mail operation *)

Local Arguments Py.mem : simpl never.
Local Arguments html_of : simpl never.
Local Arguments SendEmail.reply_subject : simpl never.
(* The previews are stepped over with their run lemmas, never unfolded. *)
Opaque SendEmail.preview_email NotifyDesigner.preview_email.

Ltac previews :=
  match goal with
  | H : context [SendEmail.preview_email ?a ?b ?c ?d ?e ?f ?w] |- _ =>
      let Ep := fresh "Ep" in
      destruct (mail_preview_run a b c d e f w) as (? & Ep & ?);
      rewrite Ep in H; clear Ep
  | H : context [NotifyDesigner.preview_email ?a ?b ?c ?d ?w] |- _ =>
      let Ep := fresh "Ep" in
      destruct (designer_preview_run a b c d w) as (? & Ep & ?);
      rewrite Ep in H; clear Ep
  end.

(** Symbolic execution that steps over the previews. *)
Ltac exec :=
  repeat (simpl in *; simplify_eq; try first [previews | answer_cases | case_match]).

(** Rewrite the frame equations of an earlier run into the goal. *)
Ltac reframe :=
  simpl;
  repeat match goal with
    | H : api _ = _ |- _ => rewrite H
    | H : home _ = _ |- _ => rewrite H
    | H : calls _ = _ |- _ => rewrite H
    | H : stdout _ = _ |- _ => rewrite H
    end.

Ltac framed_on E := split; [exact E | reframe; appended ..].

Lemma refresh_quiet c :
  is_refresh c = true -> delivers c = false /\ delivered c = None.
Proof.
  unfold is_refresh, delivers, delivered.
  destruct c as [[] ?]; simpl; intros; split; congruence.
Qed.

(** A failed call among the new ones is either a refresh or the call that
    made the operation fail. *)
Ltac blame Hl :=
  let Hin := fresh "Hin" in
  let Hnr := fresh "Hnr" in
  intros ? ? Hin Hnr; apply in_app_or in Hin as [Hin|Hin];
  [ pose proof (proj1 (List.Forall_forall _ _) Hl _ Hin); congruence
  | simpl in Hin; repeat destruct Hin as [Hin|Hin]; simplify_eq;
    try reflexivity; try contradiction ].

Ltac each_new :=
  repeat first [apply List.Forall_nil | apply List.Forall_cons].

Ltac rendered Hl tac :=
  apply Forall_app; split;
  [ eapply Forall_impl; [exact Hl|];
    let Hr := fresh in intros ? Hr ? ?; apply refresh_quiet in Hr as [_ Hr]; congruence
  | each_new; unfold delivered; simpl; intros; simplify_eq; simpl; tac ].

Ltac undelivered Hl :=
  apply Forall_app; split;
  [ eapply Forall_impl; [exact Hl|];
    let Hr := fresh in intros ? Hr; apply refresh_quiet in Hr as [Hr _]; exact Hr
  | each_new; reflexivity ].

Ltac unprompted Ho :=
  let Hp := fresh "Hp" in
  intros Hp; first
    [ reflexivity
    | exfalso; rewrite existsb_app, (not_prompt_existsb _ Ho) in Hp;
      simpl in Hp; discriminate ].

(** The operator's line is the one the prompt read; a declined line cannot
    have passed the membership test. *)
Ltac gate Ein Hl Ho :=
  let Hauto := fresh "Hauto" in
  let Hline := fresh "Hline" in
  let Hno := fresh "Hno" in
  intros Hauto line rest Hline Hno; try discriminate Hauto;
  rewrite Hline in Ein;
  try match goal with
    | H : stdin _ = ?r |- _ =>
        lazymatch r with
        | stdin _ => fail
        | line :: rest => fail
        | _ => rewrite Ein in H
        end
    end;
  try match goal with
    | H : _ :: _ = [] |- _ => discriminate H
    | H : [] = _ :: _ |- _ => discriminate H
    end;
  repeat match goal with
    | H : _ :: _ = _ :: _ |- _ => injection H as ? ?; subst
    end;
  try (match goal with
       | H : negb (Py.mem _ _) = false |- _ => rewrite Hno in H; discriminate
       end);
  (split; [undelivered Hl | unprompted Ho]).

Ltac unconfigured Habs :=
  let H1 := fresh in
  let H2 := fresh in
  intros [H1 H2]; destruct (Habs H1 H2); simplify_eq; split; reflexivity.

Lemma send_email_run account to subject body cc bcc auto_confirm from_address
    draft thread_id w :
  mail_run
    (SendEmail.send_email account to subject body cc bcc auto_confirm
       from_address draft thread_id) w auto_confirm
    (fun b => m_subject (raw b) = subject /\ m_plain (raw b) = body /\
              m_html (raw b) = html_of body)
    (no_mail_token account w)
    ("No credentials found for " +:+ account +:+ ". Run OAuth setup first.").
Proof.
  unfold mail_run.
  destruct (SendEmail.send_email account to subject body cc bcc auto_confirm
              from_address draft thread_id w) as [r w'] eqn:E.
  pose proof E as E0.
  set (m := SendEmail.send_email _ _ _ _ _ _ _ _ _ _) in E0 |- *.
  destruct (mail_load_credentials_run account w)
    as (oc & w1 & lc & oc_out & [Ec Eapi Ehome Ecalls Eout] & Ein & Hl & Ho & Habs).
  unfold SendEmail.send_email, bind at 1 in E. rewrite Ec in E.
  unfold try_except, build, SendEmail.get_sender, remote_call, serialise, confirm,
    input, ret, bind in E.
  clear Ec. destruct auto_confirm, draft.
  all: exec.
  all: eexists _, _, (lc ++ _)%list, (oc_out ++ _)%list; (split; [framed_on E0|]).
  all: split; [blame Hl|].
  all: split; [rendered Hl auto|].
  all: split; [gate Ein Hl Ho | unconfigured Habs].
Qed.

Lemma send_reply_run account thread_id to subject body cc auto_confirm from_address
    draft w :
  mail_run
    (SendEmail.send_reply account thread_id to subject body cc auto_confirm
       from_address draft) w auto_confirm
    (fun b => m_subject (raw b) = SendEmail.reply_subject subject /\
              m_plain (raw b) = body /\ m_html (raw b) = html_of body /\
              exists t id, threads_get (api w) thread_id = Answer t /\
                           last (thread_messages t) = Some id /\
                           m_in_reply_to (raw b) = Some id)
    (no_mail_token account w)
    ("No credentials found for " +:+ account).
Proof.
  unfold mail_run.
  destruct (SendEmail.send_reply account thread_id to subject body cc auto_confirm
              from_address draft w) as [r w'] eqn:E.
  pose proof E as E0.
  set (m := SendEmail.send_reply _ _ _ _ _ _ _ _ _) in E0 |- *.
  destruct (mail_load_credentials_run account w)
    as (oc & w1 & lc & oc_out & [Ec Eapi Ehome Ecalls Eout] & Ein & Hl & Ho & Habs).
  unfold SendEmail.send_reply, bind at 1 in E. rewrite Ec in E.
  unfold try_except, build, SendEmail.get_sender, SendEmail.last_message_id,
    remote_call, serialise,
    confirm, input, ret, raise, bind in E.
  clear Ec. destruct auto_confirm, draft.
  all: exec.
  all: eexists _, _, (lc ++ _)%list, (oc_out ++ _)%list; (split; [framed_on E0|]).
  all: split; [blame Hl|].
  all: split; [rendered Hl ltac:(rewrite ?Eapi in *; eauto 10)|].
  all: split; [gate Ein Hl Ho | unconfigured Habs].
Qed.

Lemma send_designer_notification_run account client poc poc_email date time venue
    event_type auto_confirm draft w :
  mail_run
    (NotifyDesigner.send_designer_notification account client poc poc_email date
       time venue event_type auto_confirm draft) w auto_confirm
    (fun b =>
       let '(subject, body) :=
         NotifyDesigner.build_designer_email client poc poc_email date time venue
           event_type in
       m_subject (raw b) = subject /\ m_plain (raw b) = body /\
       m_html (raw b) = html_of body)
    (no_mail_token account w)
    ("No credentials found for " +:+ account +:+ ". Run OAuth setup first.").
Proof.
  unfold mail_run.
  destruct (NotifyDesigner.send_designer_notification account client poc poc_email
              date time venue event_type auto_confirm draft w) as [r w'] eqn:E.
  pose proof E as E0.
  set (m := NotifyDesigner.send_designer_notification _ _ _ _ _ _ _ _ _ _) in E0 |- *.
  destruct (mail_load_credentials_run account w)
    as (oc & w1 & lc & oc_out & [Ec Eapi Ehome Ecalls Eout] & Ein & Hl & Ho & Habs).
  unfold NotifyDesigner.send_designer_notification, NotifyDesigner.load_credentials,
    bind at 1 in E. rewrite Ec in E.
  destruct (NotifyDesigner.build_designer_email client poc poc_email date time
              venue event_type) as [subject body].
  unfold try_except, build, remote_call, serialise, confirm, input, ret, bind in E.
  clear Ec. destruct auto_confirm, draft.
  all: exec.
  all: eexists _, _, (lc ++ _)%list, (oc_out ++ _)%list; (split; [framed_on E0|]).
  all: split; [blame Hl|].
  all: split; [rendered Hl auto|].
  all: split; [gate Ein Hl Ho | unconfigured Habs].
Qed.

(** ** One run of [add_event] *)

Section TitleScope.

Variables (account company poc event_type date start_time end_time location
           email_id : string) (description : option string)
          (status calendar_id : string) (color_id : option string)
          (title_prefix : string).

Local Abbreviation locals :=
  (AddCalendarEvent.locals_at_title account company poc event_type date start_time
     end_time location email_id description status calendar_id color_id
     title_prefix).

Lemma title_prefix_bound w :
  load_name locals AddCalendarEvent.module_globals "title_prefix" w
  = (Return (PStr title_prefix), w).
Proof. reflexivity. Qed.

Lemma company_bound w :
  load_name locals AddCalendarEvent.module_globals "company" w
  = (Return (PStr company), w).
Proof. reflexivity. Qed.

Lemma poc_bound w :
  load_name locals AddCalendarEvent.module_globals "poc" w = (Return (PStr poc), w).
Proof. reflexivity. Qed.

(** The parameter is [poc]; nothing is called [POC]. *)
Lemma POC_unbound w :
  load_name locals AddCalendarEvent.module_globals "POC" w
  = (Raise (Exception "NameError" "name 'POC' is not defined"), w).
Proof. reflexivity. Qed.

End TitleScope.

Lemma add_event_run datetimes account company poc event_type date start_time
    end_time location email_id description status w :
  exists res w' l o,
    run_of (AddCalendarEvent.add_event datetimes account company poc event_type
              date start_time end_time location email_id description status)
      w (Return res) w' l o /\
    Forall (fun c => is_refresh c = true) l /\
    (files w !! AddCalendarEvent.token_file (home w) account = None ->
     res = failure "No credentials found" /\ l = []) /\
    (forall c w1,
       AddCalendarEvent.load_credentials account w = (Return (Some c), w1) ->
       w' = w1 /\
       exists msg,
         res = failure msg /\
         (discovery (api w) "calendar" "v3" = Answer tt ->
          msg = "name 'POC' is not defined")).
Proof.
  destruct (AddCalendarEvent.add_event datetimes account company poc event_type
              date start_time end_time location email_id description status w)
    as [r w'] eqn:E.
  pose proof E as E0.
  destruct (calendar_load_credentials_run account w)
    as (oc & w1 & lc & oc_out & [Ec Eapi Ehome Ecalls Eout] & Ein & Hl & Ho & Habs).
  unfold AddCalendarEvent.add_event, bind at 1 in E. rewrite Ec in E.
  destruct oc as [c|].
  - destruct (AddCalendarEvent.route status) as [[calendar_id color_id] title_prefix].
    unfold try_except, bind at 1, build in E. rewrite Eapi in E.
    destruct (discovery (api w) "calendar" "v3") as [[]|cls msg] eqn:Eb;
      cbn [to_outcome] in E; cbn beta iota in E.
    + unfold bind at 1 in E. rewrite title_prefix_bound in E.
      unfold bind at 1 in E. rewrite company_bound in E.
      unfold bind at 1 in E. rewrite POC_unbound in E.
      cbn [str_exn ret] in E. injection E as <- <-.
      exists (failure "name 'POC' is not defined"), w1, lc, oc_out.
      split; [split; auto|].
      split; [exact Hl|].
      split; [intros Hnone; destruct (Habs Hnone); discriminate|].
      intros c' w2 E. split; [congruence|]. eexists. split; reflexivity.
    + cbn [str_exn ret] in E. injection E as <- <-.
      exists (failure msg), w1, lc, oc_out.
      split; [split; auto|].
      split; [exact Hl|].
      split; [intros Hnone; destruct (Habs Hnone); discriminate|].
      intros c' w2 E. split; [congruence|]. eexists. split; [reflexivity|].
      discriminate.
  - cbn [ret] in E. injection E as <- <-.
    exists (failure "No credentials found"), w1, lc, oc_out.
    split; [split; auto|].
    split; [exact Hl|].
    split; [intros Hnone; destruct (Habs Hnone); auto|].
    intros c' w2 E. congruence.
Qed.

Transparent SendEmail.preview_email NotifyDesigner.preview_email.

(** ** Every operation at once *)

Lemma mail_run_weaken m w auto_confirm (ok ok' : msg_body -> Prop) no_token msg :
  (forall b, ok b -> ok' b) ->
  mail_run m w auto_confirm ok no_token msg ->
  mail_run m w auto_confirm ok' no_token msg.
Proof.
  intros Hok (res & w' & l & o & Hrun & Herr & Hmsg & Hrest).
  exists res, w', l, o. split; [exact Hrun|]. split; [exact Herr|].
  split; [|exact Hrest].
  eapply Forall_impl; [exact Hmsg|]. cbn beta. intros c Hc b Hb. auto.
Qed.

(** The guarantees of [mail_run], for the four operations. *)
Lemma perform_run datetimes j w :
  mail_run (perform datetimes j) w (auto_confirmed j)
    (fun b => m_plain (raw b) = body_of j /\ m_html (raw b) = html_of (body_of j))
    (token_missing j w) (not_configured j).
Proof.
  destruct j as [account to subject body cc bcc auto_confirm from_address draft thread_id
                | account thread_id to subject body cc auto_confirm from_address draft
                | account client poc poc_email date time venue event_type auto_confirm draft
                | account company poc event_type date start_time end_time venue email_id
                    notes status];
    cbn [perform auto_confirmed body_of token_missing not_configured account_of].
  - eapply mail_run_weaken; [|apply send_email_run]. cbn beta. intuition.
  - eapply mail_run_weaken; [|apply send_reply_run]. cbn beta. intuition.
  - eapply mail_run_weaken; [|apply send_designer_notification_run]. cbn beta.
    intros b. destruct (NotifyDesigner.build_designer_email _ _ _ _ _ _ _).
    cbn [snd]. intuition.
  - destruct (add_event_run datetimes account company poc event_type date
                start_time end_time venue email_id notes status w)
      as (res & w' & l & o & Hrun & Hl & Hnone & _).
    exists res, w', l, o. split; [exact Hrun|].
    split.
    { intros c e Hin Hnr.
      pose proof (proj1 (List.Forall_forall _ _) Hl _ Hin). congruence. }
    split.
    { eapply Forall_impl; [exact Hl|]. intros c Hc b Hb.
      apply refresh_quiet in Hc as [_ Hc]. congruence. }
    split; [discriminate|].
    intros Hmiss. destruct (Hnone Hmiss) as [-> ->]. split; [reflexivity|].
    rewrite (run_calls _ _ _ _ _ _ Hrun). apply app_nil_r.
Qed.

(** ** The strings the operations build *)

Lemma html_of_line_breaks body : html_of body = line_breaks body.
Proof.
  unfold html_of. induction body as [|c body IH]; [reflexivity|].
  cbn [line_breaks]. destruct (Ascii.eqb c Py.LF) eqn:Ec.
  - apply Ascii.eqb_eq in Ec. subst c.
    rewrite replace_match; [|discriminate|cbn; rewrite Ascii.eqb_refl; reflexivity].
    cbn [String.length Py.drop]. rewrite IH. reflexivity.
  - rewrite replace_copy; [rewrite IH; reflexivity|].
    cbn [Py.startswith]. rewrite Ascii.eqb_sym, Ec. reflexivity.
Qed.

Lemma drop_length k s : String.length (Py.drop k s) = String.length s - k.
Proof.
  revert s; induction k as [|k IH]; intros [|c s]; cbn [Py.drop String.length];
    try lia. apply IH.
Qed.

(** [str.replace(old, '')] removes the occurrences of [old]. *)
Lemma replace_removes old s :
  old <> EmptyString -> removed old s (Py.replace old EmptyString s).
Proof.
  intros Hold. remember (String.length s) as n eqn:Hn.
  revert s Hn. induction n as [n IH] using lt_wf_ind. intros s Hn.
  destruct s as [|c s]; [constructor|].
  destruct (Py.startswith old (String c s)) eqn:Hs.
  - rewrite replace_match by assumption. rewrite append_empty.
    apply removed_here; [exact Hs|].
    eapply IH; [|reflexivity]. rewrite drop_length. subst n.
    destruct old; [congruence|]. cbn [String.length]. lia.
  - rewrite replace_copy by assumption.
    apply removed_copy; [exact Hs|].
    eapply IH; [|reflexivity]. subst n. cbn [String.length]. lia.
Qed.


(** ** The way to the provider *)

Lemma mail_credentials_path_run account w :
  SendEmail.get_credentials_path account w = (Return (mail_token_path account w), w).
Proof.
  unfold SendEmail.get_credentials_path, mail_token_path, bind, get_home,
    path_exists, ret. cbn.
  destruct (bool_decide (is_Some (files w !! SendEmail.token_file (home w) account)))
    eqn:E1; cbn.
  - rewrite E1. reflexivity.
  - destruct (bool_decide (is_Some (files w !! SendEmail.alt_path (home w) account)));
      cbn; [reflexivity|]. rewrite E1. reflexivity.
Qed.

(** A token that is ready is loaded without a trace. *)
Lemma token_ready_run account w :
  token_ready account w ->
  exists c, SendEmail.load_credentials account w = (Return (Some c), w).
Proof.
  intros (p & c & Hp & Hf & He). exists c.
  unfold SendEmail.load_credentials, bind at 1.
  rewrite mail_credentials_path_run, Hp.
  unfold try_except, bind, pickle_load, refresh_if_expired. rewrite Hf, He.
  reflexivity.
Qed.

Opaque SendEmail.preview_email NotifyDesigner.preview_email.

(** The run ended with a call that hands [b] over. *)
Ltac handed_over :=
  first
    [ exfalso;
      match goal with
      | H : negb (Py.mem ?x ?l) = true, H' : Py.mem ?x ?l = true |- _ =>
          rewrite H' in H; discriminate H
      end
    | solve [ eexists _, _, _, _; split; [reflexivity|];
              split; [simpl; rewrite <- ?app_assoc; reflexivity|];
              split; [reflexivity|];
              eexists; repeat split ] ].

Ltac on_the_way Hser :=
  repeat match goal with
    | H : context [as_bytes _ _] |- _ => rewrite Hser in H
    end.

(** The sender is found without a failure. *)
Lemma sender_found from_address w :
  Py.truthy_str from_address = true \/ (exists p, getProfile (api w) = Answer p) ->
  (exists a, if_truthy from_address = Some a) \/
  if_truthy from_address = None /\ exists p, getProfile (api w) = Answer p.
Proof.
  unfold if_truthy. intros [H|H].
  - rewrite H. destruct from_address; [eauto | discriminate H].
  - destruct (Py.truthy_str from_address); [|auto].
    destruct from_address; [eauto | auto].
Qed.

Lemma send_email_goes_through account to subject body cc bcc auto_confirm
    from_address draft thread_id w :
  token_ready account w ->
  discovery (api w) "gmail" "v1" = Answer tt ->
  (Py.truthy_str from_address = true \/ exists p, getProfile (api w) = Answer p) ->
  (forall m, as_bytes (api w) m = Answer tt) ->
  confirmation_given auto_confirm w ->
  exists r w' l c,
    SendEmail.send_email account to subject body cc bcc auto_confirm from_address
      draft thread_id w = (r, w') /\
    calls w' = (calls w ++ l)%list /\ last l = Some c /\
    exists b, delivered c = Some b /\
              m_plain (raw b) = body /\ m_html (raw b) = html_of body.
Proof.
  intros Htok Hbuild Hsender Hser Hgo.
  destruct (token_ready_run _ _ Htok) as (c0 & Ec).
  destruct (SendEmail.send_email account to subject body cc bcc auto_confirm
              from_address draft thread_id w) as [r w'] eqn:E.
  unfold SendEmail.send_email, bind at 1 in E. rewrite Ec in E.
  unfold try_except, build, SendEmail.get_sender, remote_call, serialise, confirm,
    input, ret, bind in E.
  rewrite Hbuild in E.
  destruct (sender_found _ _ Hsender) as [(a & Ha)|(Ha & p & Hp)];
    rewrite Ha in E; rewrite ?Hp in E;
    (destruct Hgo as [->|(line & rest & Hline & Hyes)]);
    destruct draft; exec; on_the_way Hser; simplify_eq.
  all: handed_over.
Qed.

Lemma send_reply_goes_through account thread_id to subject body cc auto_confirm
    from_address draft w t id :
  token_ready account w ->
  discovery (api w) "gmail" "v1" = Answer tt ->
  (Py.truthy_str from_address = true \/ exists p, getProfile (api w) = Answer p) ->
  threads_get (api w) thread_id = Answer t ->
  last (thread_messages t) = Some id ->
  (forall m, as_bytes (api w) m = Answer tt) ->
  confirmation_given auto_confirm w ->
  exists r w' l c,
    SendEmail.send_reply account thread_id to subject body cc auto_confirm
      from_address draft w = (r, w') /\
    calls w' = (calls w ++ l)%list /\ last l = Some c /\
    exists b, delivered c = Some b /\
              m_plain (raw b) = body /\ m_html (raw b) = html_of body.
Proof.
  intros Htok Hbuild Hsender Ht Hlast Hser Hgo.
  destruct (token_ready_run _ _ Htok) as (c0 & Ec).
  destruct (SendEmail.send_reply account thread_id to subject body cc auto_confirm
              from_address draft w) as [r w'] eqn:E.
  unfold SendEmail.send_reply, bind at 1 in E. rewrite Ec in E.
  unfold try_except, build, SendEmail.get_sender, SendEmail.last_message_id,
    remote_call, serialise, confirm, input, ret, raise, bind in E.
  rewrite Hbuild in E.
  destruct (sender_found _ _ Hsender) as [(a & Ha)|(Ha & p & Hp)];
    rewrite Ha in E; rewrite ?Hp in E; cbn [to_outcome raised api set_calls] in E;
    rewrite Ht in E; cbn [to_outcome] in E; rewrite Hlast in E;
    (destruct Hgo as [->|(line & rest & Hline & Hyes)]);
    destruct draft; exec; on_the_way Hser; simplify_eq.
  all: handed_over.
Qed.

Lemma send_designer_notification_goes_through account client poc poc_email date
    time venue event_type auto_confirm draft w :
  token_ready account w ->
  discovery (api w) "gmail" "v1" = Answer tt ->
  (forall m, as_bytes (api w) m = Answer tt) ->
  confirmation_given auto_confirm w ->
  exists r w' l c,
    NotifyDesigner.send_designer_notification account client poc poc_email date time
      venue event_type auto_confirm draft w = (r, w') /\
    calls w' = (calls w ++ l)%list /\ last l = Some c /\
    exists b, delivered c = Some b /\
              m_plain (raw b)
              = snd (NotifyDesigner.build_designer_email client poc poc_email date
                       time venue event_type) /\
              m_html (raw b)
              = html_of (snd (NotifyDesigner.build_designer_email client poc
                                poc_email date time venue event_type)).
Proof.
  intros Htok Hbuild Hser Hgo.
  destruct (token_ready_run _ _ Htok) as (c0 & Ec).
  destruct (NotifyDesigner.send_designer_notification account client poc poc_email
              date time venue event_type auto_confirm draft w) as [r w'] eqn:E.
  unfold NotifyDesigner.send_designer_notification, NotifyDesigner.load_credentials,
    bind at 1 in E. rewrite Ec in E.
  destruct (NotifyDesigner.build_designer_email client poc poc_email date time
              venue event_type) as [subject body].
  unfold try_except, build, remote_call, serialise, confirm, input, ret, bind in E.
  rewrite Hbuild in E.
  destruct Hgo as [->|(line & rest & Hline & Hyes)];
    destruct draft; exec; on_the_way Hser; simplify_eq.
  all: handed_over.
Qed.

Transparent SendEmail.preview_email NotifyDesigner.preview_email.

(** Under [goes_through] every mail operation ends with the call that hands
    its message over. *)
Lemma perform_goes_through datetimes j w :
  goes_through j w ->
  exists r w' l c,
    perform datetimes j w = (r, w') /\
    calls w' = (calls w ++ l)%list /\ last l = Some c /\
    exists b, delivered c = Some b /\
              m_plain (raw b) = body_of j /\ m_html (raw b) = html_of (body_of j).
Proof.
  intros (Hmail & Htok & Hsender & Hbuild & Hthread & Hser & Hgo).
  destruct j as [account to subject body cc bcc auto_confirm from_address draft thread_id
                | account thread_id to subject body cc auto_confirm from_address draft
                | account client poc poc_email date time venue event_type auto_confirm draft
                | account company poc event_type date start_time end_time venue email_id
                    notes status];
    cbn [perform auto_confirmed body_of account_of sender_known thread_ready] in *.
  - apply send_email_goes_through; assumption.
  - destruct Hthread as (t & id & Ht & Hlast).
    eapply send_reply_goes_through; eassumption.
  - apply send_designer_notification_goes_through; assumption.
  - discriminate Hmail.
Qed.
(** * The claims *)

(** ** C1: routing and title of a calendar event *)

(** C1.  The scenario asks for an event titled "TBC - Acme - Jane (EVENT)"
    on the administration calendar.  Line 79 of [add_calendar_event.py] builds
    the title from the name [POC], which is bound nowhere (the parameter is
    [poc]): the [NameError] is caught by the function's own handler, so
    [add_event] with valid credentials returns a failure and never reaches
    the insert call.  First conjunct: the scenario of the claim.  Second
    conjunct: for every input the run ends in a failure and issues no
    insert. *)
Theorem add_event_title_name_error :
  (forall datetimes,
     AddCalendarEvent.add_event datetimes "livemomentssg@gmail.com" "Acme" "Jane"
       "EVENT" "2026-05-21" "09:00" "20:30" "Conrad Singapore" "abc123" None "TBC"
       (office [])
     = (Return (failure "name 'POC' is not defined"), office [])) /\
  (forall datetimes account company poc event_type date start_time end_time venue
          email_id notes status w,
     exists res w' l o,
       run_of (AddCalendarEvent.add_event datetimes account company poc event_type
                 date start_time end_time venue email_id notes status)
         w (Return res) w' l o /\
       Forall (fun c => delivers c = false) l /\
       res !! "success" = Some (VBool false)).
Proof.
  split.
  - intros datetimes. vm_compute. reflexivity.
  - intros.
    destruct (add_event_run datetimes account company poc event_type date
                start_time end_time venue email_id notes status w)
      as (res & w' & l & o & Hrun & Hl & Hnone & Hsome).
    exists res, w', l, o. split; [exact Hrun|]. split.
    + eapply Forall_impl; [exact Hl|]. intros c Hc.
      apply refresh_quiet in Hc as [Hc _]. exact Hc.
    + destruct (AddCalendarEvent.load_credentials account w) as [[[c|]|e] w1] eqn:E.
      * destruct (Hsome c w1 eq_refl) as (_ & msg & -> & _). reflexivity.
      * destruct (calendar_load_credentials_run account w)
          as (oc & w2 & lc & oo & [Ec _ _ _ _] & _).
        assert (oc = None) as -> by congruence.
        pose proof (run_eq _ _ _ _ _ _ Hrun) as Er.
        unfold AddCalendarEvent.add_event, bind in Er. rewrite Ec in Er.
        cbn in Er. injection Er as <- _. reflexivity.
      * destruct (calendar_load_credentials_run account w)
          as (oc & w2 & lc & oo & [Ec _ _ _ _] & _). congruence.
Qed.

(** The routing itself (lines 69-76), on the two statuses the command line
    admits. *)
Lemma route_of_the_two_statuses :
  AddCalendarEvent.route "TBC"
  = (AddCalendarEvent.CALENDAR_ADMIN, Some "3", "TBC - ") /\
  AddCalendarEvent.route "CONFIRMED"
  = (AddCalendarEvent.CALENDAR_MAIN, None, EmptyString).
Proof. split; reflexivity. Qed.

(** Any other string is routed by [status.upper() == "TBC"]. *)
Example route_of_other_strings :
  AddCalendarEvent.route "tbc" = AddCalendarEvent.route "TBC" /\
  AddCalendarEvent.route "PENDING" = AddCalendarEvent.route "CONFIRMED".
Proof. split; reflexivity. Qed.

(** ** C2: the subject of a reply *)

(** For a non-empty [old] there is one way to remove its occurrences. *)
Lemma removed_unique old s t t' :
  old <> EmptyString -> removed old s t -> removed old s t' -> t = t'.
Proof.
  intros Hold H. revert t'.
  induction H as [|s t Hs H IH|c s t Hs H IH]; intros t' H'.
  - inversion H' as [|s' t0 Hs' _|]; subst; [reflexivity|].
    destruct old; [congruence | discriminate].
  - inversion H' as [|s' t0 Hs' H0|c' s' t0 Hs' H0]; subst.
    + destruct old; [congruence | discriminate].
    + apply IH, H0.
    + congruence.
  - inversion H' as [|s' t0 Hs' H0|c' s' t0 Hs' H0]; subst.
    + congruence.
    + f_equal. apply IH, H0.
Qed.


(** C2, counterexample.  A reply to "Fwd: Re: hi" goes out as "Re: Fwd: hi":
    the inner "Re: " is removed, where the claim keeps it. *)
Lemma reply_subject_inner_re_is_removed :
  delivered_subjects
    (snd (SendEmail.send_reply "livemomentssg@gmail.com" "thread-1"
            "client@example.com" "Fwd: Re: hi" "Thanks." None true None false
            (office [])))
  = ["Re: Fwd: hi"] /\
  normalized_reply_subject "Fwd: Re: hi" = "Re: Fwd: Re: hi" /\
  "Re: Fwd: hi" <> normalized_reply_subject "Fwd: Re: hi".
Proof. split; [|split]; [vm_compute; reflexivity | reflexivity | discriminate]. Qed.

(** C2, amended.  Every message [send_reply] hands to the provider has the
    subject "Re: " followed by the given subject without its occurrences of
    "Re: ", wherever they stand. *)
Theorem reply_subject_removes_each_re account thread_id to subject body cc
    auto_confirm from_address draft w :
  exists res w' l o t,
    run_of (SendEmail.send_reply account thread_id to subject body cc auto_confirm
              from_address draft) w (Return res) w' l o /\
    removed "Re: " subject t /\
    Forall (fun c => forall b, delivered c = Some b ->
              m_subject (raw b) = "Re: " +:+ t) l.
Proof.
  destruct (send_reply_run account thread_id to subject body cc auto_confirm
              from_address draft w)
    as (res & w' & l & o & Hrun & _ & Hmsg & _).
  exists res, w', l, o, (Py.replace "Re: " EmptyString subject).
  split; [exact Hrun|]. split; [apply replace_removes; discriminate|].
  eapply Forall_impl; [exact Hmsg|]. cbn beta. intros c Hc b Hb.
  destruct (Hc b Hb) as [Hs _]. exact Hs.
Qed.

(** A subject that starts with "Re: " loses that prefix, and any further
    one, before the single "Re: " is put in front. *)
Example reply_subject_samples :
  SendEmail.reply_subject "Quotation" = "Re: Quotation" /\
  SendEmail.reply_subject "Re: Quotation" = "Re: Quotation" /\
  SendEmail.reply_subject "Re: Re: Quotation" = "Re: Quotation".
Proof. repeat split; reflexivity. Qed.

(** ** C3: errors of the provider *)

(** C3, counterexample.  The capture tool wraps neither its list call nor
    its get call: with a rate-limited search the process ends with the
    exception uncaught. *)
Lemma capture_search_error_escapes :
  fst (run_process
         (CaptureEmail.main (fun d => Answer d)
            (Options (CaptureEmail.Args "from:jean subject:quotation" false false None)))
         (capture_desk throttled))
  = Uncaught (Exception "HttpError" "Rate Limit Exceeded").
Proof. vm_compute. reflexivity. Qed.

(** C3, amended.  In [send_email], [send_reply],
    [send_designer_notification] and [add_event] the run always returns a
    result, and a provider call that raised (a token refresh apart) makes
    that result the failure carrying the exception's message.  In
    [capture_email] the exception of the list call, and of a get call,
    leaves the function. *)
Theorem provider_errors_become_failures :
  (forall datetimes j w,
     exists res w' l o,
       run_of (perform datetimes j) w (Return res) w' l o /\
       forall c cls msg,
         In (c, Some (Exception cls msg)) l ->
         is_refresh (c, Some (Exception cls msg)) = false ->
         res = failure msg) /\
  (forall b64decode query save json_output cache_path w cls msg,
     messages_list (api w) query = Fails cls msg ->
     fst (CaptureEmail.capture_email b64decode query save json_output cache_path w)
     = Raise (Exception cls msg)) /\
  (forall b64decode query save json_output cache_path w m ms cls msg,
     messages_list (api w) query = Answer (Some (m :: ms)) ->
     messages_get (api w) (meta_id m) = Fails cls msg ->
     fst (CaptureEmail.capture_email b64decode query save json_output cache_path w)
     = Raise (Exception cls msg)).
Proof.
  split; [|split].
  - intros datetimes j w.
    destruct (perform_run datetimes j w) as (res & w' & l & o & Hrun & Herr & _).
    exists res, w', l, o. split; [exact Hrun|].
    intros c cls msg Hin Hnr. apply (Herr c _ Hin Hnr).
  - intros b64decode query save json_output cache_path w cls msg Hlist.
    unfold CaptureEmail.capture_email, bind, get_home, remote_call. cbn.
    rewrite Hlist. reflexivity.
  - intros b64decode query save json_output cache_path w m ms cls msg Hlist Hget.
    unfold CaptureEmail.capture_email, bind, get_home, remote_call. cbn.
    rewrite Hlist. cbn.
    unfold CaptureEmail.capture_one, bind, remote_call. cbn.
    rewrite Hget. reflexivity.
Qed.

Lemma provider_errors_witness :
  messages_list (api (capture_desk throttled)) "in:inbox"
  = Fails "HttpError" "Rate Limit Exceeded" /\
  fst (CaptureEmail.capture_email (fun d => Answer d) "in:inbox" true false None
         (capture_desk throttled))
  = Raise (Exception "HttpError" "Rate Limit Exceeded").
Proof.
  split; [reflexivity|].
  apply (proj1 (proj2 provider_errors_become_failures)). reflexivity.
Defined.

(** A send that the provider rejects is reported with the provider's
    message. *)
Example rejected_send_is_a_failure :
  let quota :=
    Remote (getProfile obliging) (threads_get obliging)
           (fun _ => Fails "HttpError" "Daily user sending quota exceeded")
           (drafts_create obliging) (messages_list obliging)
           (messages_get obliging) (events_insert obliging) (refresh obliging)
           (run_local_server obliging) (as_bytes obliging) (discovery obliging) in
  fst (SendEmail.send_email "livemomentssg@gmail.com" "client@example.com"
         "Quotation" "Please find attached." None None true None false None
         (world_of quota (token_store "livemomentssg@gmail.com") []))
  = Return (failure "Daily user sending quota exceeded").
Proof. vm_compute. reflexivity. Qed.

(** ** C4: a missing token *)

(** C4, counterexample.  Without a stored token [send_email] names the
    account in its error, not the path it looked at; [add_event] names
    neither. *)
Lemma missing_token_error_lacks_the_path :
  let mail :=
    SendEmailJob "ops@example.com" "client@example.com" "Quotation" "Hello"
      None None true None false None in
  let event :=
    AddEventJob "ops@example.com" "Acme" "Jane" "EVENT" "2026-05-21" "09:00"
      "20:30" "Conrad Singapore" "abc123" None "TBC" in
  expected_path mail bare = "/home/ops/.nanobot/credentials/gmail/ops_at_example.com.token" /\
  fst (perform iso_datetimes mail bare)
  = Return (failure "No credentials found for ops@example.com. Run OAuth setup first.") /\
  contains (expected_path mail bare)
    "No credentials found for ops@example.com. Run OAuth setup first." = false /\
  fst (perform iso_datetimes event bare) = Return (failure "No credentials found") /\
  contains (expected_path event bare) "No credentials found" = false.
Proof. repeat split; vm_compute; reflexivity. Qed.

(** C4, amended.  When no token is stored for the account, each operation
    that loads one returns, without raising and without a remote call, the
    failure result with its "No credentials found" message. *)
Theorem missing_token_is_a_failure datetimes j w :
  token_missing j w ->
  exists w',
    perform datetimes j w = (Return (failure (not_configured j)), w') /\
    calls w' = calls w.
Proof.
  intros Hmiss.
  destruct (perform_run datetimes j w) as (res & w' & l & o & Hrun & _ & _ & _ & Hnone).
  destruct (Hnone Hmiss) as [-> Hcalls].
  exists w'. split; [apply (run_eq _ _ _ _ _ _ Hrun) | exact Hcalls].
Qed.

Lemma missing_token_witness :
  let j :=
    SendReplyJob "ops@example.com" "thread-1" "client@example.com" "Quotation"
      "Hello" None true None false in
  token_missing j bare /\
  exists w',
    perform iso_datetimes j bare = (Return (failure (not_configured j)), w') /\
    calls w' = calls bare.
Proof.
  assert (H : token_missing
                (SendReplyJob "ops@example.com" "thread-1" "client@example.com"
                   "Quotation" "Hello" None true None false) bare)
    by (split; reflexivity).
  exact (conj H (missing_token_is_a_failure iso_datetimes _ bare H)).
Defined.

(** ** C5: a reply without a subject *)

Lemma bind_return {A B} (m : M A) (k : A -> M B) w a w1 :
  m w = (Return a, w1) -> bind m k w = k a w1.
Proof. intros E. unfold bind. rewrite E. reflexivity. Qed.

Lemma bind_raise {A B} (m : M A) (k : A -> M B) w e w1 :
  m w = (Raise e, w1) -> bind m k w = (Raise e, w1).
Proof. intros E. unfold bind. rewrite E. reflexivity. Qed.


(** The namespace of an accepted command line is what [main] goes on with. *)
Lemma parse_options {A B} (a : A) (k : A -> M B) w :
  bind (parse_args (Options a)) k w = k a w.
Proof. reflexivity. Qed.





(** A reply whose [--body-file] does not exist: the process ends with the
    exception of [open], and the missing [--reply-subject] is never
    reported. *)
Example reply_with_a_missing_body_file :
  let a :=
    SendEmail.Args "livemomentssg@gmail.com" "client@example.com" "unused"
      None (Some "missing.txt") None None None (Some "thread-1") None false true
      false in
  run_process (SendEmail.main (Options a)) (office [])
  = (Uncaught (Exception "FileNotFoundError"
                 "[Errno 2] No such file or directory: 'missing.txt'"),
     office []).
Proof. vm_compute. reflexivity. Qed.

(** ** C6: the confirmation prompt *)

(** The white space that [strip()] removes: of the characters of the
    embedding, exactly those that [str.isspace] holds of. *)
Example white_space_characters :
  List.filter (fun n => Py.isspace (Ascii.ascii_of_nat n)) (List.seq 0 256)
  = [9; 10; 11; 12; 13; 28; 29; 30; 31; 32; 133; 160]%nat.
Proof. vm_compute. reflexivity. Qed.

(** C6.  When the operation is not auto-confirmed and the line the operator
    types is, stripped and lowercased, none of "yes", "y", "send", "draft",
    no send and no create call is issued, and once the prompt was shown the
    result is the cancelled one. *)
Theorem declined_prompt_sends_nothing datetimes j w line rest :
  auto_confirmed j = false ->
  stdin w = line :: rest ->
  Py.mem (Py.lower (Py.strip line)) affirmative = false ->
  exists res w' l o,
    run_of (perform datetimes j) w (Return res) w' l o /\
    Forall (fun c => delivers c = false) l /\
    (existsb is_prompt o = true -> res = cancelled).
Proof.
  intros Hauto Hline Hno.
  destruct (perform_run datetimes j w)
    as (res & w' & l & o & Hrun & _ & _ & Hgate & _).
  exists res, w', l, o. split; [exact Hrun|].
  apply (Hgate Hauto line rest Hline Hno).
Qed.

Lemma declined_prompt_witness :
  let j :=
    NotifyJob "livemomentssg@gmail.com" "Acme" "Jane" "jane@acme.example"
      "24 May 2026" "6:00 PM" "Conrad Singapore" "Corporate" false false in
  auto_confirmed j = false /\
  stdin (office [" Not yet "]) = [" Not yet "] /\
  Py.mem (Py.lower (Py.strip " Not yet ")) affirmative = false /\
  exists res w' l o,
    run_of (perform iso_datetimes j) (office [" Not yet "]) (Return res) w' l o /\
    Forall (fun c => delivers c = false) l /\
    (existsb is_prompt o = true -> res = cancelled).
Proof.
  refine (conj eq_refl (conj eq_refl (conj eq_refl _))).
  exact (declined_prompt_sends_nothing iso_datetimes
           (NotifyJob "livemomentssg@gmail.com" "Acme" "Jane" "jane@acme.example"
              "24 May 2026" "6:00 PM" "Conrad Singapore" "Corporate" false false)
           (office [" Not yet "]) " Not yet " [] eq_refl eq_refl eq_refl).
Defined.

(** The prompt is reached and declined: the three gated operations end
    cancelled, with an empty log of remote sends. *)
Example declined_runs :
  let declined m :=
    (fst (m (office ["no"])),
     List.filter delivers (calls (snd (m (office ["no"]))))) in
  declined (SendEmail.send_email "livemomentssg@gmail.com" "client@example.com"
              "Quotation" "Hello" None None false (Some "hello@livemoments.com.sg")
              false None)
  = (Return cancelled, []) /\
  declined (SendEmail.send_reply "livemomentssg@gmail.com" "thread-1"
              "client@example.com" "Quotation" "Hello" None false None true)
  = (Return cancelled, []) /\
  declined (NotifyDesigner.send_designer_notification "livemomentssg@gmail.com"
              "Acme" "Jane" "jane@acme.example" "24 May 2026" "6:00 PM"
              "Conrad Singapore" "Corporate" false false)
  = (Return cancelled, []).
Proof. repeat split; vm_compute; reflexivity. Qed.

(** An answer followed by a no-break space is stripped to "yes" and
    accepted, as by [str.strip()]; the same letters followed by another
    character are not. *)
Example answer_with_a_no_break_space :
  let typed c := "yes" +:+ String (Ascii.ascii_of_nat c) EmptyString in
  let sent line :=
    delivered_subjects
      (snd (SendEmail.send_email "livemomentssg@gmail.com" "client@example.com"
              "Quotation" "Hello" None None false (Some "hello@livemoments.com.sg")
              false None (office [line]))) in
  Py.mem (Py.lower (Py.strip (typed 160))) affirmative = true /\
  sent (typed 160) = ["Quotation"] /\
  sent (typed 133) = ["Quotation"] /\
  Py.mem (Py.lower (Py.strip (typed 173))) affirmative = false /\
  sent (typed 173) = [].
Proof. repeat split; vm_compute; reflexivity. Qed.

(** An accepted answer lets the message through. *)
Example confirmed_run :
  let w' :=
    snd (SendEmail.send_email "livemomentssg@gmail.com" "client@example.com"
           "Quotation" "Hello" None None false (Some "hello@livemoments.com.sg")
           false None (office ["  YES "])) in
  delivered_subjects w' = ["Quotation"].
Proof. vm_compute. reflexivity. Qed.

(** ** C7: the HTML part *)

(** C7.  For every body, the HTML rendering the tools derive is the body
    with each newline replaced by "<br>" and every other character kept.
    In every message an operation builds and hands over, the plain part is
    the body and the HTML part is that rendering.  And each mail operation
    does build and hand over such a message whenever nothing stops it
    before ([goes_through]): it is the last call of the run.  (The
    statement is about the message as built; its serialisation is the
    library's.) *)
Theorem html_part_is_body_with_line_breaks datetimes j w :
  (forall body, html_of body = line_breaks body) /\
  exists res w' l o,
    run_of (perform datetimes j) w (Return res) w' l o /\
    Forall (fun c => forall b, delivered c = Some b ->
              m_plain (raw b) = body_of j /\
              m_html (raw b) = line_breaks (body_of j)) l /\
    (goes_through j w ->
     exists c b,
       last l = Some c /\ delivered c = Some b /\
       m_plain (raw b) = body_of j /\
       m_html (raw b) = line_breaks (body_of j)).
Proof.
  split; [apply html_of_line_breaks|].
  destruct (perform_run datetimes j w) as (res & w' & l & o & Hrun & _ & Hmsg & _).
  exists res, w', l, o. split; [exact Hrun|]. split.
  - eapply Forall_impl; [exact Hmsg|]. cbn beta. intros c Hc b Hb.
    destruct (Hc b Hb) as [Hp Hh]. rewrite <- html_of_line_breaks. auto.
  - intros Hgo.
    destruct (perform_goes_through datetimes j w Hgo)
      as (r2 & w2 & l2 & c & E2 & Hcalls2 & Hlast & b & Hb & Hp & Hh).
    rewrite (run_eq _ _ _ _ _ _ Hrun) in E2. injection E2 as <- <-.
    rewrite (run_calls _ _ _ _ _ _ Hrun) in Hcalls2.
    apply app_inv_head in Hcalls2 as ->.
    exists c, b. rewrite <- html_of_line_breaks. auto.
Qed.

(** The notification, confirmed by the operator at the prompt, goes
    through. *)
Lemma html_part_witness :
  let j :=
    NotifyJob "livemomentssg@gmail.com" "Acme" "Jane" "jane@acme.example"
      "24 May 2026" "6:00 PM" "Conrad Singapore" "Corporate" false false in
  goes_through j (office [" Yes "]) /\
  exists res w' l o,
    run_of (perform iso_datetimes j) (office [" Yes "]) (Return res) w' l o /\
    exists c b,
      last l = Some c /\ delivered c = Some b /\
      m_plain (raw b) = body_of j /\
      m_html (raw b) = line_breaks (body_of j).
Proof.
  assert (Hgo : goes_through
                  (NotifyJob "livemomentssg@gmail.com" "Acme" "Jane"
                     "jane@acme.example" "24 May 2026" "6:00 PM" "Conrad Singapore"
                     "Corporate" false false) (office [" Yes "])).
  { split; [reflexivity|]. split.
    - exists (SendEmail.token_file "/home/ops" "livemomentssg@gmail.com"), fresh_token.
      split; [vm_compute; reflexivity|]. split; [vm_compute; reflexivity | reflexivity].
    - split; [left; reflexivity|]. split; [reflexivity|]. split; [exact I|].
      split; [reflexivity|].
      right. exists " Yes ", []. split; [reflexivity | vm_compute; reflexivity]. }
  split; [exact Hgo|].
  destruct (html_part_is_body_with_line_breaks iso_datetimes
              (NotifyJob "livemomentssg@gmail.com" "Acme" "Jane" "jane@acme.example"
                 "24 May 2026" "6:00 PM" "Conrad Singapore" "Corporate" false false)
              (office [" Yes "]))
    as (_ & res & w' & l & o & Hrun & _ & Hlive).
  exists res, w', l, o. split; [exact Hrun | exact (Hlive Hgo)].
Defined.

Example html_part_sample :
  let body := String.concat (String Py.LF EmptyString) ["Dear Jean,"; ""; "<b>5 & 6</b>"] in
  omap (fun c => option_map (fun b => m_html (raw b)) (delivered c))
    (calls (snd (SendEmail.send_email "livemomentssg@gmail.com" "client@example.com"
                   "Quotation" body None None true None false None (office []))))
  = ["Dear Jean,<br><br><b>5 & 6</b>"].
Proof. vm_compute. reflexivity. Qed.

(** ** C9: how a cancellation is reported *)

(** C9, counterexample.  The operator answers "no": the process reports the
    cancellation as [success: false] with an [error] field, and exits with
    status 1, the status of a failed send. *)
Lemma cancellation_is_reported_as_an_error :
  let a :=
    SendEmail.Args "livemomentssg@gmail.com" "client@example.com" "Quotation"
      (Some "Hello") None None None (Some "hello@livemoments.com.sg") None None
      false false true in
  let end_ := run_process (SendEmail.main (Options a)) (office ["no"]) in
  fst end_ = Exit 1 /\
  last (stdout (snd end_)) = Some (JsonResult cancelled) /\
  cancelled !! "success" = Some (VBool false) /\
  cancelled !! "error" = Some (VStr "User cancelled") /\
  SendEmail.exit_code cancelled = SendEmail.exit_code (failure "quota exceeded").
Proof. repeat split; vm_compute; reflexivity. Qed.

(** C9, amended.  The cancelled result differs from every failure result by
    its [preview_only] flag, and the human-readable output of both mail
    tools shows it by a preview notice where a failure shows the "Failed:"
    line; it still has [success] false and the error "User cancelled", and
    the exit status is 1 as for a failure. *)
Theorem cancellation_is_told_apart_from_failure :
  cancelled !! "preview_only" = Some (VBool true) /\
  (forall msg, failure msg !! "preview_only" = None) /\
  (forall msg, cancelled <> failure msg) /\
  (forall w,
     SendEmail.render cancelled w
     = (Return tt, set_stdout (stdout w ++ [Line SendEmail.PREVIEW_NOTICE]) w) /\
     NotifyDesigner.render cancelled w
     = (Return tt, set_stdout (stdout w ++ [Line NotifyDesigner.PREVIEW_NOTICE]) w)) /\
  (forall msg w,
     SendEmail.render (failure msg) w
     = (Return tt, set_stdout (stdout w ++ [Line (SendEmail.FAILED +:+ msg)]) w) /\
     NotifyDesigner.render (failure msg) w
     = (Return tt, set_stdout (stdout w ++ [Line (NotifyDesigner.FAILED +:+ msg)]) w)) /\
  (forall msg,
     SendEmail.PREVIEW_NOTICE <> SendEmail.FAILED +:+ msg /\
     NotifyDesigner.PREVIEW_NOTICE <> NotifyDesigner.FAILED +:+ msg) /\
  (forall msg,
     SendEmail.exit_code cancelled = 1%Z /\
     SendEmail.exit_code (failure msg) = 1%Z /\
     NotifyDesigner.exit_code cancelled = 1%Z /\
     NotifyDesigner.exit_code (failure msg) = 1%Z) /\
  cancelled !! "success" = Some (VBool false) /\
  cancelled !! "error" = Some (VStr "User cancelled").
Proof.
  assert (Hflag : forall msg, failure msg !! "preview_only" = None)
    by (intros msg; reflexivity).
  split; [reflexivity|]. split; [exact Hflag|].
  split.
  { intros msg E. specialize (Hflag msg). rewrite <- E in Hflag. discriminate. }
  split; [intros w; split; reflexivity|].
  split; [intros msg w; split; reflexivity|].
  split; [intros msg; split; discriminate|].
  split; [intros msg; repeat split; reflexivity|].
  split; reflexivity.
Qed.

(** ** C8: the cache *)

Section Dict.

Context {V : Type}.
Implicit Types (k : string) (v : V) (d : list (string * V)).

Lemma dict_get_set_eq k v d : dict_get k (dict_set k v d) = Some v.
Proof.
  induction d as [|[k' v'] d IH]; cbn.
  - rewrite String.eqb_refl. reflexivity.
  - destruct (String.eqb k' k) eqn:E; cbn; rewrite E; [reflexivity | exact IH].
Qed.

Lemma dict_get_set_ne k k' v d :
  k <> k' -> dict_get k' (dict_set k v d) = dict_get k' d.
Proof.
  intros Hne. induction d as [|[k0 v0] d IH]; cbn.
  - destruct (String.eqb k k') eqn:E; [apply String.eqb_eq in E; congruence|].
    reflexivity.
  - destruct (String.eqb k0 k) eqn:E; cbn.
    + apply String.eqb_eq in E. subst k0.
      destruct (String.eqb k k') eqn:E'; [apply String.eqb_eq in E'; congruence|].
      reflexivity.
    + rewrite IH. reflexivity.
Qed.

(** Assigning to a key that is there keeps the keys as they are. *)
Lemma dict_set_keys_old k v d :
  In k (map fst d) -> map fst (dict_set k v d) = map fst d.
Proof.
  induction d as [|[k' v'] d IH]; cbn; [contradiction|].
  intros Hin. destruct (String.eqb k' k) eqn:E; cbn; [reflexivity|].
  f_equal. apply IH. destruct Hin as [->|Hin]; [|exact Hin].
  rewrite String.eqb_refl in E. discriminate.
Qed.

(** Assigning to a new key appends it. *)
Lemma dict_set_keys_new k v d :
  ~ In k (map fst d) -> map fst (dict_set k v d) = (map fst d ++ [k])%list.
Proof.
  induction d as [|[k' v'] d IH]; cbn; [reflexivity|].
  intros Hnin. destruct (String.eqb k' k) eqn:E; cbn.
  - apply String.eqb_eq in E. tauto.
  - f_equal. apply IH. tauto.
Qed.

Lemma dict_set_NoDup k v d :
  NoDup (map fst d) -> NoDup (map fst (dict_set k v d)).
Proof.
  intros Hd. destruct (in_dec string_dec k (map fst d)) as [Hin|Hnin].
  - rewrite dict_set_keys_old by assumption. exact Hd.
  - rewrite dict_set_keys_new by assumption.
    apply NoDup_app. split; [exact Hd|]. split; [|apply NoDup_singleton].
    intros x Hx Hk. apply list_elem_of_In in Hx. apply list_elem_of_In in Hk.
    destruct Hk as [<-|[]]. contradiction.
Qed.

Lemma dict_set_keys_incl k k' v d :
  In k' (map fst d) -> In k' (map fst (dict_set k v d)).
Proof.
  intros Hin. destruct (in_dec string_dec k (map fst d)) as [Hk|Hk].
  - rewrite dict_set_keys_old by assumption. exact Hin.
  - rewrite dict_set_keys_new by assumption. apply in_or_app. auto.
Qed.

End Dict.

Section Merge.

Import CaptureEmail.
Implicit Types (captured : list email) (d : list (string * json)).

Lemma merged_cons e captured d :
  merged (e :: captured) d
  = merged captured (dict_set (cache_key e) (email_json e) d).
Proof. reflexivity. Qed.

(** Keys that no record of the batch has keep their value. *)
Lemma merged_other captured d k :
  ~ In k (map cache_key captured) ->
  dict_get k (merged captured d) = dict_get k d.
Proof.
  revert d; induction captured as [|e captured IH]; intros d Hk; [reflexivity|].
  rewrite merged_cons, IH by (cbn in Hk; tauto).
  apply dict_get_set_ne. cbn in Hk. intros E. apply Hk. auto.
Qed.

(** A record that no later record of the batch overwrites is stored. *)
Lemma merged_last_wins pre e post d :
  ~ In (cache_key e) (map cache_key post) ->
  dict_get (cache_key e) (merged (pre ++ e :: post) d) = Some (email_json e).
Proof.
  intros Hpost. revert d; induction pre as [|e' pre IH]; intros d.
  - cbn [app]. rewrite merged_cons, merged_other by assumption.
    apply dict_get_set_eq.
  - cbn [app]. rewrite merged_cons. apply IH.
Qed.

Lemma merged_NoDup captured d :
  NoDup (map fst d) -> NoDup (map fst (merged captured d)).
Proof.
  revert d; induction captured as [|e captured IH]; intros d Hd; [exact Hd|].
  rewrite merged_cons. apply IH, dict_set_NoDup, Hd.
Qed.

(** Saving records whose keys are all there adds no entry. *)
Lemma merged_keys_kept captured d :
  (forall e, In e captured -> In (cache_key e) (map fst d)) ->
  map fst (merged captured d) = map fst d.
Proof.
  revert d; induction captured as [|e captured IH]; intros d Hd; [reflexivity|].
  rewrite merged_cons, IH.
  - apply dict_set_keys_old, Hd. left. reflexivity.
  - intros e' He'. apply dict_set_keys_incl, Hd. right. exact He'.
Qed.

(** After a save every key of the batch is in the dictionary. *)
Lemma merged_keys_present captured d e :
  In e captured -> In (cache_key e) (map fst (merged captured d)).
Proof.
  revert d; induction captured as [|e' captured IH]; intros d; [intros []|].
  intros [->|Hin]; rewrite merged_cons; [|apply IH, Hin].
  assert (Hhere : In (cache_key e)
                    (map fst (dict_set (cache_key e) (email_json e) d))).
  { destruct (in_dec string_dec (cache_key e) (map fst d)) as [Hk|Hk].
    - rewrite dict_set_keys_old by assumption. exact Hk.
    - rewrite dict_set_keys_new by assumption. apply in_or_app. right. left.
      reflexivity. }
  clear IH. revert Hhere. generalize (dict_set (cache_key e) (email_json e) d).
  induction captured as [|e2 captured IH2]; intros d2 Hd2; [exact Hd2|].
  rewrite merged_cons. apply IH2, dict_set_keys_incl, Hd2.
Qed.

Lemma store_all_run captured d w :
  store_all captured (JObj d) w = (Return (JObj (merged captured d)), w).
Proof.
  revert d; induction captured as [|e captured IH]; intros d; [reflexivity|].
  cbn [store_all setitem]. unfold bind, ret. rewrite IH. reflexivity.
Qed.

Lemma read_cache_run cache_file w old :
  cache_object (files w !! cache_file) = Some old ->
  read_cache cache_file w = (Return (JObj old), w).
Proof.
  unfold read_cache, bind, path_exists, try_except_all, json_load, ret.
  destruct (files w !! cache_file) as [[c|c|[]|t]|] eqn:Ef; cbn; intros E;
    rewrite ?Ef; cbn; try discriminate; congruence.
Qed.

(** What [save_cache] leaves in the file. *)
Lemma save_cache_run cache_file captured json_output w old :
  cache_object (files w !! cache_file) = Some old ->
  exists w',
    save_cache cache_file captured json_output w = (Return tt, w') /\
    files w' !! cache_file = Some (JsonFile (JObj (merged captured old))).
Proof.
  intros Hold. unfold save_cache.
  rewrite (bind_return _ _ _ _ _ (read_cache_run _ _ _ Hold)).
  rewrite (bind_return _ _ _ _ _ (store_all_run _ _ _)).
  unfold bind, write_file, print, emit, ret.
  destruct json_output; cbn; eexists; (split; [reflexivity|]); cbn;
    apply lookup_insert_eq.
Qed.

End Merge.

Lemma json_load_run p w j :
  files w !! p = Some (JsonFile j) -> json_load p w = (Return j, w).
Proof. intros E. unfold json_load. rewrite E. reflexivity. Qed.

(** C8, counterexample.  Two messages of one thread whose ids share their
    first eight characters get the same key: after the save the cache holds
    the second record under it, and the first captured record is not in the
    file. *)
Lemma colliding_keys_lose_a_record :
  exists first second w' cache,
    CaptureEmail.capture_email (fun d => Answer d) "from:jean" true true
      (Some cache_path) (capture_desk twins)
    = (Return (Some [first; second]), w') /\
    json_load cache_path w' = (Return (JObj cache), w') /\
    CaptureEmail.cache_key first = "thread-1_18c2f3a4" /\
    dict_get (CaptureEmail.cache_key first) cache
    = Some (CaptureEmail.email_json second) /\
    CaptureEmail.email_json first <> CaptureEmail.email_json second /\
    List.length cache = 1.
Proof.
  eexists _, _, _, _. split; [vm_compute; reflexivity|].
  split; [vm_compute; reflexivity|].
  split; [reflexivity|]. split; [vm_compute; reflexivity|].
  split; [discriminate | reflexivity].
Qed.

(** C8, amended.  Saving a batch merges it into the cache object under the
    keys "{thread-id}_{first 8 characters of the message id}": on reload,
    every captured record that no later record of the batch shares its key
    with is found unchanged under its key, the entries under other keys are
    as before, and no key occurs twice; saving the same batch again leaves
    the keys as they are and stores the same records. *)
Theorem cache_keeps_the_last_record_of_each_key cache_file captured json_output w old :
  cache_object (files w !! cache_file) = Some old ->
  exists w',
    CaptureEmail.save_cache cache_file captured json_output w = (Return tt, w') /\
    json_load cache_file w' = (Return (JObj (merged captured old)), w') /\
    (forall e, CaptureEmail.cache_key e
               = CaptureEmail.thread_id e +:+ "_"
                   +:+ Py.take 8 (CaptureEmail.message_id e)) /\
    (forall pre e post,
       captured = (pre ++ e :: post)%list ->
       ~ In (CaptureEmail.cache_key e) (map CaptureEmail.cache_key post) ->
       dict_get (CaptureEmail.cache_key e) (merged captured old)
       = Some (CaptureEmail.email_json e)) /\
    (forall k, ~ In k (map CaptureEmail.cache_key captured) ->
               dict_get k (merged captured old) = dict_get k old) /\
    (NoDup (map fst old) -> NoDup (map fst (merged captured old))) /\
    exists w'',
      CaptureEmail.save_cache cache_file captured json_output w' = (Return tt, w'') /\
      json_load cache_file w''
      = (Return (JObj (merged captured (merged captured old))), w'') /\
      map fst (merged captured (merged captured old))
      = map fst (merged captured old) /\
      forall pre e post,
        captured = (pre ++ e :: post)%list ->
        ~ In (CaptureEmail.cache_key e) (map CaptureEmail.cache_key post) ->
        dict_get (CaptureEmail.cache_key e) (merged captured (merged captured old))
        = Some (CaptureEmail.email_json e).
Proof.
  intros Hold.
  destruct (save_cache_run cache_file captured json_output w old Hold)
    as (w' & Esave & Hfile).
  exists w'. split; [exact Esave|].
  split; [apply json_load_run, Hfile|].
  split; [reflexivity|].
  split; [intros pre e post -> Hpost; apply merged_last_wins, Hpost|].
  split; [intros k Hk; apply merged_other, Hk|].
  split; [apply merged_NoDup|].
  assert (Hnew : cache_object (files w' !! cache_file) = Some (merged captured old))
    by (rewrite Hfile; reflexivity).
  destruct (save_cache_run cache_file captured json_output w' _ Hnew)
    as (w'' & Esave' & Hfile').
  exists w''. split; [exact Esave'|].
  split; [apply json_load_run, Hfile'|].
  split; [apply merged_keys_kept; intros e He; apply merged_keys_present, He|].
  intros pre e post -> Hpost. apply merged_last_wins, Hpost.
Qed.

Lemma cache_merge_witness :
  cache_object (files cached !! cache_path)
  = Some [("thread-0_17aa0000", JStr "an older record")] /\
  exists w',
    CaptureEmail.save_cache cache_path [quotation_mail] true cached = (Return tt, w') /\
    json_load cache_path w'
    = (Return
         (JObj (merged [quotation_mail]
                  [("thread-0_17aa0000", JStr "an older record")])), w').
Proof.
  split; [reflexivity|].
  destruct (cache_keeps_the_last_record_of_each_key cache_path [quotation_mail] true
              cached [("thread-0_17aa0000", JStr "an older record")] eq_refl)
    as (w' & Hsave & Hload & _).
  exists w'. split; assumption.
Defined.

Example cache_after_a_save :
  merged [quotation_mail] [("thread-0_17aa0000", JStr "an older record")]
  = [("thread-0_17aa0000", JStr "an older record");
     ("thread-1_18c2f3a4", CaptureEmail.email_json quotation_mail)].
Proof. reflexivity. Qed.

(** ** C10: the size of a captured body *)

Lemma bind_inv {A B} (m : M A) (k : A -> M B) w b w' :
  bind m k w = (Return b, w') ->
  exists a w1, m w = (Return a, w1) /\ k a w1 = (Return b, w').
Proof.
  unfold bind. destruct (m w) as [[a|e] w1]; [eauto | discriminate].
Qed.

Lemma limit_body_take body : CaptureEmail.limit_body body = Py.take 5000 body.
Proof. destruct body; reflexivity. Qed.

Section Capture.

Import CaptureEmail.
Variable b64decode : string -> answer string.

Lemma capture_one_cut query m w e w' :
  capture_one b64decode query m w = (Return e, w') ->
  api w' = api w /\ files w' = files w /\ body_cut_from b64decode w e.
Proof.
  unfold capture_one, body_cut_from, bind, remote_call, lift, datetime_now, ret.
  destruct (messages_get (api w) (meta_id m)) as [msg|] eqn:Eg; cbn; [|discriminate].
  destruct (decode_body b64decode (msg_payload msg)) as [body|] eqn:Ed; cbn;
    [|discriminate].
  intros E. injection E as <- <-. cbn. repeat split.
  exists msg, body. rewrite limit_body_take. auto.
Qed.

Lemma capture_all_cut query messages w captured w' :
  capture_all b64decode query messages w = (Return captured, w') ->
  api w' = api w /\ files w' = files w /\
  List.length captured = List.length messages /\
  Forall (body_cut_from b64decode w) captured.
Proof.
  revert w captured; induction messages as [|m messages IH]; intros w captured.
  - intros E. injection E as <- <-. repeat split. constructor.
  - cbn [capture_all]. intros E.
    apply bind_inv in E as (e & w1 & E1 & E).
    apply bind_inv in E as (es & w2 & E2 & E).
    injection E as <- <-.
    destruct (capture_one_cut _ _ _ _ _ E1) as (Hapi1 & Hfiles1 & He).
    destruct (IH _ _ E2) as (Hapi2 & Hfiles2 & Hlen & Hes).
    split; [congruence|]. split; [congruence|].
    split; [cbn; congruence|].
    constructor; [exact He|].
    eapply Forall_impl; [exact Hes|]. unfold body_cut_from.
    intros x (msg & body & ? & ? & ?). exists msg, body. rewrite <- Hapi1. auto.
Qed.

End Capture.

Lemma take_at_most n s : String.length (Py.take n s) <= n.
Proof. rewrite take_length. lia. Qed.

(** C10.  Every record that [capture_email] returns has a body of at most
    5000 characters: it is the decoded body of the fetched message cut
    after its first 5000 characters. *)
Theorem captured_body_is_limited b64decode query save json_output cache_path w
    captured w' :
  CaptureEmail.capture_email b64decode query save json_output cache_path w
  = (Return (Some captured), w') ->
  Forall (fun e =>
            String.length (CaptureEmail.body_ e) <= 5000 /\
            exists msg body,
              messages_get (api w) (CaptureEmail.message_id e) = Answer msg /\
              CaptureEmail.decode_body b64decode (msg_payload msg) = Answer body /\
              CaptureEmail.body_ e = Py.take 5000 body)
    captured.
Proof.
  unfold CaptureEmail.capture_email. intros E.
  apply bind_inv in E as (h & w1 & Eh & E). injection Eh as <- <-.
  apply bind_inv in E as (results & w2 & Er & E).
  assert (Hapi : api w2 = api w).
  { unfold remote_call in Er. injection Er as _ <-. reflexivity. }
  destruct (default [] results) as [|m ms].
  - unfold bind, print, emit, ret in E. cbn in E. discriminate.
  - apply bind_inv in E as (cap & w3 & Ecap & E).
    apply bind_inv in E as (u1 & w4 & _ & E).
    apply bind_inv in E as (u2 & w5 & _ & E).
    injection E as <- <-.
    destruct (capture_all_cut _ _ _ _ _ _ Ecap) as (_ & _ & _ & Hcut).
    eapply Forall_impl; [exact Hcut|]. unfold body_cut_from.
    intros e (msg & body & Hg & Hd & Hb). split.
    + rewrite Hb. apply take_at_most.
    + exists msg, body. rewrite <- Hapi. auto.
Qed.

Lemma captured_body_witness :
  exists captured w',
    CaptureEmail.capture_email (fun _ => Answer long_body) "in:inbox" false true None
      (capture_desk twins)
    = (Return (Some captured), w') /\
    Forall (fun e =>
              String.length (CaptureEmail.body_ e) <= 5000 /\
              exists msg body,
                messages_get (api (capture_desk twins)) (CaptureEmail.message_id e)
                = Answer msg /\
                CaptureEmail.decode_body (fun _ => Answer long_body) (msg_payload msg)
                = Answer body /\
                CaptureEmail.body_ e = Py.take 5000 body)
      captured /\
    String.length long_body = 6000 /\
    map (fun e => String.length (CaptureEmail.body_ e)) captured = [5000; 5000].
Proof.
  destruct (CaptureEmail.capture_email (fun _ => Answer long_body) "in:inbox" false
              true None (capture_desk twins))
    as [[[captured|]|e] w'] eqn:E; try (vm_compute in E; discriminate).
  exists captured, w'. split; [reflexivity|].
  split; [exact (captured_body_is_limited _ _ _ _ _ _ _ _ E)|].
  split; [vm_compute; reflexivity|].
  vm_compute in E. injection E as <- _. vm_compute. reflexivity.
Defined.

(** What the cache holds after a save is what it held before or the JSON of
    a captured record, so the limit carries over to the file. *)
Lemma cache_values_are_records captured old k v :
  dict_get k (merged captured old) = Some v ->
  dict_get k old = Some v \/
  exists e, In e captured /\ v = CaptureEmail.email_json e.
Proof.
  revert old; induction captured as [|e captured IH]; intros old Hv; [auto|].
  rewrite merged_cons in Hv. destruct (IH _ Hv) as [Hold|(e' & He' & ->)].
  - destruct (string_dec (CaptureEmail.cache_key e) k) as [<-|Hne].
    + rewrite dict_get_set_eq in Hold. injection Hold as <-.
      right. exists e. split; [left; reflexivity | reflexivity].
    + rewrite dict_get_set_ne in Hold by assumption. auto.
  - right. exists e'. split; [right; exact He' | reflexivity].
Qed.

(** The nested parts of a payload: the first plain-text part wins over an
    HTML part seen before it. *)
Example decode_body_prefers_plain_text :
  CaptureEmail.decode_body (fun d => Answer d)
    (Payload (Some "multipart/alternative") None
       (Some [Payload (Some "text/html") (Some "<p>hi</p>") None;
              Payload (Some "text/plain") (Some "hi") None]))
  = Answer "hi".
Proof. reflexivity. Qed.

(** * Further properties of the tools *)

(** ** The mail operations, call by call *)

Opaque SendEmail.preview_email NotifyDesigner.preview_email.
Lemma refresh_calls_quiet l :
  Forall (fun c => is_refresh c = true) l ->
  List.filter delivers l = [] /\
  Forall (fun c => delivers c = false) l /\
  Forall (fun c => is_profile c = false) l /\
  (forall draft, Forall (fun c => kind_ok draft c = true) l) /\
  existsb is_thread_lookup l = false.
Proof.
  induction 1 as [|[c r] l Hc _ (IH1 & IH2 & IH3 & IH4 & IH5)].
  - repeat split; constructor.
  - assert (Hd : delivers (c, r) = false /\ is_profile (c, r) = false /\
                 sends (c, r) = false /\ stores_draft (c, r) = false /\
                 is_thread_lookup (c, r) = false)
      by (destruct c; cbn in *; auto; discriminate).
    destruct Hd as (Hd & Hp & Hs & Ht & Hu).
    repeat split.
    + cbn. rewrite Hd. exact IH1.
    + constructor; assumption.
    + constructor; assumption.
    + intros draft. constructor; [|apply IH4].
      unfold kind_ok. rewrite Hs, Ht. destruct draft; reflexivity.
    + cbn. rewrite Hu. exact IH5.
Qed.


Ltac succeeded Hf :=
  let Hs := fresh "Hs" in
  intros Hs;
  first [ vm_compute in Hs; discriminate Hs
        | eexists; split; [rewrite last_app; cbn; reflexivity|];
          split; [reflexivity|]; split; [reflexivity|];
          rewrite List.filter_app, Hf; reflexivity ].

Ltac refused Hnd :=
  let Hs := fresh "Hs" in
  intros Hs;
  first [ vm_compute in Hs; discriminate Hs
        | apply Forall_app; split;
          [ eapply Forall_impl; [exact Hnd|]; cbn beta; congruence
          | each_new; let Hd := fresh in
            intros Hd; first [discriminate Hd | reflexivity] ] ].

Ltac asked Hk :=
  apply Forall_app; split; [apply Hk | each_new; reflexivity].

Ltac silent Ein Ho :=
  let Ha := fresh in
  intros Ha; try discriminate Ha;
  (split; [cbn; congruence
          | rewrite existsb_app, (not_prompt_existsb _ Ho); reflexivity]).

Ltac at_eof Ein Hl Ho :=
  let Ha := fresh in
  let Hempty := fresh "Hempty" in
  intros Ha Hempty; try discriminate Ha;
  rewrite Hempty in Ein; try discriminate Ein;
  try match goal with
    | H : stdin _ = _ :: _ |- _ => rewrite Ein in H; discriminate H
    end;
  (split; [undelivered Hl | unprompted Ho]).


Ltac enveloped Hl tac :=
  apply Forall_app; split;
  [ eapply Forall_impl; [exact Hl|];
    let Hr := fresh in intros ? Hr ? ?; apply refresh_quiet in Hr as [_ Hr]; congruence
  | each_new; unfold delivered; simpl; intros; simplify_eq; simpl; tac ].

Ltac no_lookup Hnp :=
  let Hne := fresh "Hne" in
  intros Hne;
  first [ exfalso; apply Hne; first [reflexivity | assumption]
        | apply Forall_app; split; [exact Hnp | each_new; reflexivity] ].

Ltac echoed :=
  let Hs := fresh "Hs" in
  intros Hs;
  first [ vm_compute in Hs; discriminate Hs | repeat split; reflexivity ].

Ltac the_sender Eapi :=
  unfold sender_rule;
  match goal with
  | H : if_truthy _ = Some _ |- _ => rewrite H; reflexivity
  | H : if_truthy _ = None |- _ =>
      rewrite H; eexists; split; [rewrite <- Eapi; eassumption | reflexivity]
  end.

Ltac empty_thread Eapi Hl Hnt :=
  let Ht := fresh "Ht" in
  let Hlast := fresh "Hlast" in
  let Hx := fresh "Hx" in
  intros t Ht Hlast;
  try match goal with
    | H : threads_get (api _) _ = _ |- _ =>
        rewrite Eapi, Ht in H; first [discriminate H | injection H as ?; subst]
    end;
  try match goal with
    | H : last (thread_messages _) = Some _ |- _ =>
        rewrite Hlast in H; discriminate H
    end;
  (split;
   [ undelivered Hl
   | intros Hx; first
       [ reflexivity
       | exfalso; rewrite existsb_app, Hnt in Hx; cbn in Hx; discriminate Hx ] ]).

Lemma send_email_detail account to subject body cc bcc auto_confirm from_address
    draft thread_id w :
  exists res w' l o,
    run_of (SendEmail.send_email account to subject body cc bcc auto_confirm
              from_address draft thread_id) w (Return res) w' l o /\
    mail_detail w w' auto_confirm draft res l o /\
    Forall (fun c => forall b, delivered c = Some b ->
              raw b = Mime to (m_from (raw b)) subject (if_truthy cc) (if_truthy bcc)
                        None None body (html_of body) /\
              threadId b = if_truthy thread_id /\
              sender_rule w account from_address (m_from (raw b))) l /\
    (if_truthy from_address <> None -> Forall (fun c => is_profile c = false) l) /\
    (truthy (res !! "success") = true ->
     res !! "to" = Some (VStr to) /\ res !! "subject" = Some (VStr subject) /\
     res !! "is_draft" = (if draft then Some (VBool true) else None)).
Proof.
  destruct (SendEmail.send_email account to subject body cc bcc auto_confirm
              from_address draft thread_id w) as [r w'] eqn:E.
  pose proof E as E0.
  set (m := SendEmail.send_email _ _ _ _ _ _ _ _ _ _) in E0 |- *.
  destruct (mail_load_credentials_run account w)
    as (oc & w1 & lc & oc_out & [Ec Eapi Ehome Ecalls Eout] & Ein & Hl & Ho & Habs).
  destruct (refresh_calls_quiet lc Hl) as (Hf & Hnd & Hnp & Hk & Hnt).
  unfold SendEmail.send_email, bind at 1 in E. rewrite Ec in E.
  unfold try_except, build, SendEmail.get_sender, remote_call, serialise, confirm,
    input, ret, bind in E.
  clear Ec. destruct auto_confirm, draft.
  all: exec.
  all: eexists _, _, (lc ++ _)%list, (oc_out ++ _)%list; (split; [framed_on E0|]).
  all: split;
    [split; [succeeded Hf | refused Hnd | asked Hk | silent Ein Ho | at_eof Ein Hl Ho]|].
  all: split; [enveloped Hl ltac:(repeat split; the_sender Eapi)|].
  all: split; [no_lookup Hnp | echoed].
Qed.

Lemma send_reply_detail account thread_id to subject body cc auto_confirm
    from_address draft w :
  exists res w' l o,
    run_of (SendEmail.send_reply account thread_id to subject body cc auto_confirm
              from_address draft) w (Return res) w' l o /\
    mail_detail w w' auto_confirm draft res l o /\
    Forall (fun c => forall b, delivered c = Some b ->
              exists t id,
                threads_get (api w) thread_id = Answer t /\
                last (thread_messages t) = Some id /\
                raw b = Mime to (m_from (raw b)) (SendEmail.reply_subject subject)
                          (if_truthy cc) None (Some id) (Some id) body (html_of body) /\
                threadId b = Some thread_id /\
                sender_rule w account from_address (m_from (raw b))) l /\
    (if_truthy from_address <> None -> Forall (fun c => is_profile c = false) l) /\
    (truthy (res !! "success") = true ->
     res !! "to" = Some (VStr to) /\ res !! "subject" = Some (VStr subject) /\
     res !! "is_draft" = (if draft then Some (VBool true) else None)) /\
    (forall t, threads_get (api w) thread_id = Answer t ->
               last (thread_messages t) = None ->
               Forall (fun c => delivers c = false) l /\
               (existsb is_thread_lookup l = true ->
                res = failure "list index out of range")).
Proof.
  destruct (SendEmail.send_reply account thread_id to subject body cc auto_confirm
              from_address draft w) as [r w'] eqn:E.
  pose proof E as E0.
  set (m := SendEmail.send_reply _ _ _ _ _ _ _ _ _) in E0 |- *.
  destruct (mail_load_credentials_run account w)
    as (oc & w1 & lc & oc_out & [Ec Eapi Ehome Ecalls Eout] & Ein & Hl & Ho & Habs).
  destruct (refresh_calls_quiet lc Hl) as (Hf & Hnd & Hnp & Hk & Hnt).
  unfold SendEmail.send_reply, bind at 1 in E. rewrite Ec in E.
  unfold try_except, build, SendEmail.get_sender, SendEmail.last_message_id,
    remote_call, serialise,
    confirm, input, ret, raise, bind in E.
  clear Ec. destruct auto_confirm, draft.
  all: exec.
  all: eexists _, _, (lc ++ _)%list, (oc_out ++ _)%list; (split; [framed_on E0|]).
  all: split;
    [split; [succeeded Hf | refused Hnd | asked Hk | silent Ein Ho | at_eof Ein Hl Ho]|].
  all: split;
    [enveloped Hl ltac:(eexists _, _; split; [rewrite <- Eapi; eassumption|];
                        split; [eassumption|]; repeat split; the_sender Eapi)|].
  all: split; [no_lookup Hnp|]. all: split; [echoed | empty_thread Eapi Hl Hnt].
Qed.

Lemma send_designer_notification_detail account client poc poc_email date time venue
    event_type auto_confirm draft w :
  exists res w' l o,
    run_of (NotifyDesigner.send_designer_notification account client poc poc_email
              date time venue event_type auto_confirm draft) w (Return res) w' l o /\
    mail_detail w w' auto_confirm draft res l o /\
    Forall (fun c => forall b, delivered c = Some b ->
              let '(subject, body) :=
                NotifyDesigner.build_designer_email client poc poc_email date time
                  venue event_type in
              raw b = Mime NotifyDesigner.DESIGNER_EMAIL NotifyDesigner.FROM_ADDRESS
                        subject None None None None body (html_of body) /\
              threadId b = None) l /\
    Forall (fun c => is_profile c = false) l /\
    (truthy (res !! "success") = true ->
     res !! "to" = Some (VStr NotifyDesigner.DESIGNER_EMAIL) /\
     res !! "sender" = Some (VStr NotifyDesigner.FROM_ADDRESS) /\
     res !! "client" = Some (VStr client) /\ res !! "poc" = Some (VStr poc) /\
     res !! "is_draft" = (if draft then Some (VBool true) else None)).
Proof.
  destruct (NotifyDesigner.send_designer_notification account client poc poc_email
              date time venue event_type auto_confirm draft w) as [r w'] eqn:E.
  pose proof E as E0.
  set (m := NotifyDesigner.send_designer_notification _ _ _ _ _ _ _ _ _ _) in E0 |- *.
  destruct (mail_load_credentials_run account w)
    as (oc & w1 & lc & oc_out & [Ec Eapi Ehome Ecalls Eout] & Ein & Hl & Ho & Habs).
  destruct (refresh_calls_quiet lc Hl) as (Hf & Hnd & Hnp & Hk & Hnt).
  unfold NotifyDesigner.send_designer_notification, NotifyDesigner.load_credentials,
    bind at 1 in E. rewrite Ec in E.
  destruct (NotifyDesigner.build_designer_email client poc poc_email date time
              venue event_type) as [subject body].
  unfold try_except, build, remote_call, serialise, confirm, input, ret, bind in E.
  clear Ec. destruct auto_confirm, draft.
  all: exec.
  all: eexists _, _, (lc ++ _)%list, (oc_out ++ _)%list; (split; [framed_on E0|]).
  all: split;
    [split; [succeeded Hf | refused Hnd | asked Hk | silent Ein Ho | at_eof Ein Hl Ho]|].
  all: split; [enveloped Hl ltac:(split; reflexivity)|].
  all: split; [apply Forall_app; split; [exact Hnp | each_new; reflexivity] | echoed].
Qed.

(** [add_event] never prompts, reads nothing and never succeeds. *)
Lemma add_event_detail datetimes account company poc event_type date start_time
    end_time venue email_id notes status w :
  exists res w' l o,
    run_of (AddCalendarEvent.add_event datetimes account company poc event_type
              date start_time end_time venue email_id notes status)
      w (Return res) w' l o /\
    mail_detail w w' true false res l o /\
    Forall (fun c => is_profile c = false) l /\
    truthy (res !! "success") = false /\
    Forall (fun c => delivers c = false) l.
Proof.
  destruct (AddCalendarEvent.add_event datetimes account company poc event_type
              date start_time end_time venue email_id notes status w)
    as [r w'] eqn:E.
  pose proof E as E0.
  destruct (calendar_load_credentials_run account w)
    as (oc & w1 & lc & oc_out & [Ec Eapi Ehome Ecalls Eout] & Ein & Hl & Ho & Habs).
  destruct (refresh_calls_quiet lc Hl) as (Hf & Hnd & Hnp & Hk & Hnt).
  unfold AddCalendarEvent.add_event, bind at 1 in E. rewrite Ec in E.
  assert (Hres : exists msg, r = Return (failure msg) /\ w' = w1).
  { destruct oc as [c|].
    - destruct (AddCalendarEvent.route status) as [[calendar_id color_id] title_prefix].
      unfold try_except, bind at 1, build in E.
      destruct (discovery (api w1) "calendar" "v3") as [[]|cls msg'];
        cbn [to_outcome] in E; cbn beta iota in E.
      + unfold bind at 1 in E. rewrite title_prefix_bound in E.
        unfold bind at 1 in E. rewrite company_bound in E.
        unfold bind at 1 in E. rewrite POC_unbound in E.
        cbn [str_exn ret] in E. injection E as <- <-. eauto.
      + cbn [str_exn ret] in E. injection E as <- <-. eauto.
    - cbn [ret] in E. injection E as <- <-. eauto. }
  destruct Hres as (msg & -> & ->).
  exists (failure msg), w1, lc, oc_out. split; [split; auto|].
  split; [|split; [exact Hnp | split; [reflexivity | exact Hnd]]].
  split.
  - intros Hs. vm_compute in Hs. discriminate Hs.
  - intros _. eapply Forall_impl; [exact Hnd|]. cbn beta. congruence.
  - apply Hk.
  - intros _. split; [exact Ein | apply not_prompt_existsb, Ho].
  - discriminate.
Qed.

Lemma perform_detail datetimes j w :
  exists res w' l o,
    run_of (perform datetimes j) w (Return res) w' l o /\
    mail_detail w w' (auto_confirmed j) (draft_of j) res l o.
Proof.
  destruct j as [account to subject body cc bcc auto_confirm from_address draft thread_id
                | account thread_id to subject body cc auto_confirm from_address draft
                | account client poc poc_email date time venue event_type auto_confirm draft
                | account company poc event_type date start_time end_time venue email_id
                    notes status];
    cbn [perform auto_confirmed draft_of].
  - destruct (send_email_detail account to subject body cc bcc auto_confirm
                from_address draft thread_id w) as (res & w' & l & o & Hrun & Hd & _).
    exists res, w', l, o. split; assumption.
  - destruct (send_reply_detail account thread_id to subject body cc auto_confirm
                from_address draft w) as (res & w' & l & o & Hrun & Hd & _).
    exists res, w', l, o. split; assumption.
  - destruct (send_designer_notification_detail account client poc poc_email date
                time venue event_type auto_confirm draft w)
      as (res & w' & l & o & Hrun & Hd & _).
    exists res, w', l, o. split; assumption.
  - destruct (add_event_detail datetimes account company poc event_type date
                start_time end_time venue email_id notes status w)
      as (res & w' & l & o & Hrun & Hd & _).
    exists res, w', l, o. split; assumption.
Qed.

(** A successful result says whether it is a draft, and an operation that
    knows its sender never asks for the profile. *)
Lemma perform_kind datetimes j w :
  exists res w' l o,
    run_of (perform datetimes j) w (Return res) w' l o /\
    (truthy (res !! "success") = true ->
     res !! "is_draft" = (if draft_of j then Some (VBool true) else None)) /\
    (sender_known j = true -> Forall (fun c => is_profile c = false) l).
Proof.
  destruct j as [account to subject body cc bcc auto_confirm from_address draft thread_id
                | account thread_id to subject body cc auto_confirm from_address draft
                | account client poc poc_email date time venue event_type auto_confirm draft
                | account company poc event_type date start_time end_time venue email_id
                    notes status];
    cbn [perform sender_known draft_of].
  - destruct (send_email_detail account to subject body cc bcc auto_confirm
                from_address draft thread_id w)
      as (res & w' & l & o & Hrun & _ & _ & Hp & He).
    exists res, w', l, o. split; [exact Hrun|]. split.
    + intros Hs. apply (He Hs).
    + intros Hk. apply Hp. unfold if_truthy. rewrite Hk.
      destruct from_address; [discriminate | discriminate Hk].
  - destruct (send_reply_detail account thread_id to subject body cc auto_confirm
                from_address draft w)
      as (res & w' & l & o & Hrun & _ & _ & Hp & He & _).
    exists res, w', l, o. split; [exact Hrun|]. split.
    + intros Hs. apply (He Hs).
    + intros Hk. apply Hp. unfold if_truthy. rewrite Hk.
      destruct from_address; [discriminate | discriminate Hk].
  - destruct (send_designer_notification_detail account client poc poc_email date
                time venue event_type auto_confirm draft w)
      as (res & w' & l & o & Hrun & _ & _ & Hp & He).
    exists res, w', l, o. split; [exact Hrun|]. split.
    + intros Hs. apply (He Hs).
    + intros _. exact Hp.
  - destruct (add_event_detail datetimes account company poc event_type date
                start_time end_time venue email_id notes status w)
      as (res & w' & l & o & Hrun & _ & Hp & Hfail & _).
    exists res, w', l, o. split; [exact Hrun|]. split.
    + intros Hs. rewrite Hfail in Hs. discriminate Hs.
    + intros _. exact Hp.
Qed.

Transparent SendEmail.preview_email NotifyDesigner.preview_email.


(** A run has one result. *)
Lemma run_same {A} (m : M A) w r w' l o r2 w2 :
  run_of m w r w' l o -> m w = (r2, w2) -> r2 = r /\ w2 = w'.
Proof. intros [E _ _ _ _] E2. rewrite E in E2. injection E2 as <- <-. auto. Qed.

(** ** What the result of an operation says about the calls made *)

(** X1.  When [send_email], [send_reply] or [send_designer_notification]
    (or [add_event]) returns a result whose [success] is true, the run
    issued exactly one delivering call (a send, a draft creation or an event
    insertion); it is the last call of the run and the provider accepted
    it. *)
Theorem success_is_one_accepted_delivery datetimes j w res w' :
  perform datetimes j w = (Return res, w') ->
  truthy (res !! "success") = true ->
  exists l c,
    calls w' = (calls w ++ l)%list /\
    last l = Some c /\ delivers c = true /\ returned c = true /\
    List.filter delivers l = [c].
Proof.
  intros E Hs.
  destruct (perform_detail datetimes j w) as (res0 & w0 & l & o & Hrun & Hd).
  destruct (run_same _ _ _ _ _ _ _ _ Hrun E) as [[= ->] ->].
  destruct (on_success _ _ _ _ _ _ _ Hd Hs) as (c & Hc).
  exists l, c. split; [apply (run_calls _ _ _ _ _ _ Hrun) | exact Hc].
Qed.

Lemma success_is_one_accepted_delivery_witness :
  exists res w',
    perform iso_datetimes quotation (office []) = (Return res, w') /\
    truthy (res !! "success") = true /\
    exists l c,
      calls w' = (calls (office []) ++ l)%list /\
      last l = Some c /\ delivers c = true /\ returned c = true /\
      List.filter delivers l = [c].
Proof.
  eexists _, _. split; [vm_compute; reflexivity|]. split; [reflexivity|].
  eapply (success_is_one_accepted_delivery iso_datetimes quotation (office []));
    [vm_compute; reflexivity | reflexivity].
Defined.

(** X2.  When the result's [success] is not true, no delivering call of
    the run was accepted: each one that was issued raised. *)
Theorem failure_means_nothing_was_accepted datetimes j w res w' :
  perform datetimes j w = (Return res, w') ->
  truthy (res !! "success") = false ->
  exists l,
    calls w' = (calls w ++ l)%list /\
    Forall (fun c => delivers c = true -> returned c = false) l.
Proof.
  intros E Hs.
  destruct (perform_detail datetimes j w) as (res0 & w0 & l & o & Hrun & Hd).
  destruct (run_same _ _ _ _ _ _ _ _ Hrun E) as [[= ->] ->].
  exists l. split; [apply (run_calls _ _ _ _ _ _ Hrun)|].
  apply (on_failure _ _ _ _ _ _ _ Hd Hs).
Qed.

Lemma failure_means_nothing_was_accepted_witness :
  let w := world_of over_quota (token_store "livemomentssg@gmail.com") [] in
  exists res w',
    perform iso_datetimes quotation w = (Return res, w') /\
    truthy (res !! "success") = false /\
    exists l,
      calls w' = (calls w ++ l)%list /\
      Forall (fun c => delivers c = true -> returned c = false) l.
Proof.
  eexists _, _. split; [vm_compute; reflexivity|]. split; [reflexivity|].
  eapply (failure_means_nothing_was_accepted iso_datetimes quotation
            (world_of over_quota (token_store "livemomentssg@gmail.com") []));
    [vm_compute; reflexivity | reflexivity].
Defined.

(** X3.  The [draft] flag decides which call delivers: with it no
    [messages.send] is issued, without it no [drafts.create]; and a
    successful result carries [is_draft] exactly when the flag was set. *)
Theorem draft_flag_decides_the_call datetimes j w res w' :
  perform datetimes j w = (Return res, w') ->
  exists l,
    calls w' = (calls w ++ l)%list /\
    Forall (fun c => kind_ok (draft_of j) c = true) l /\
    (truthy (res !! "success") = true ->
     res !! "is_draft" = (if draft_of j then Some (VBool true) else None)).
Proof.
  intros E.
  destruct (perform_detail datetimes j w) as (res0 & w0 & l & o & Hrun & Hd).
  destruct (run_same _ _ _ _ _ _ _ _ Hrun E) as [[= ->] ->].
  exists l. split; [apply (run_calls _ _ _ _ _ _ Hrun)|].
  split; [apply (only_the_kind_asked _ _ _ _ _ _ _ Hd)|].
  destruct (perform_kind datetimes j w) as (res1 & w1 & l1 & o1 & Hrun1 & Hk & _).
  destruct (run_same _ _ _ _ _ _ _ _ Hrun1 E) as [[= ->] ->].
  exact Hk.
Qed.

Lemma draft_flag_decides_the_call_witness :
  exists res w',
    perform iso_datetimes quotation_draft (office []) = (Return res, w') /\
    exists l,
      calls w' = (calls (office []) ++ l)%list /\
      Forall (fun c => kind_ok (draft_of quotation_draft) c = true) l /\
      (truthy (res !! "success") = true ->
       res !! "is_draft"
       = (if draft_of quotation_draft then Some (VBool true) else None)).
Proof.
  eexists _, _. split; [vm_compute; reflexivity|].
  eapply (draft_flag_decides_the_call iso_datetimes quotation_draft (office [])).
  vm_compute; reflexivity.
Defined.

(** X4.  An auto-confirmed operation ([--yes]; [add_event] always) shows no
    prompt and consumes nothing of the console input. *)
Theorem auto_confirmed_run_never_prompts datetimes j w r w' :
  auto_confirmed j = true ->
  perform datetimes j w = (r, w') ->
  stdin w' = stdin w /\
  exists o, stdout w' = (stdout w ++ o)%list /\ existsb is_prompt o = false.
Proof.
  intros Ha E.
  destruct (perform_detail datetimes j w) as (res0 & w0 & l & o & Hrun & Hd).
  destruct (run_same _ _ _ _ _ _ _ _ Hrun E) as [-> ->].
  destruct (no_prompt _ _ _ _ _ _ _ Hd Ha) as [Hin Hout].
  split; [exact Hin|]. exists o. split; [apply (run_out _ _ _ _ _ _ Hrun) | exact Hout].
Qed.

Lemma auto_confirmed_run_never_prompts_witness :
  auto_confirmed quotation_reply = true /\
  exists r w',
    perform iso_datetimes quotation_reply (office ["yes"]) = (r, w') /\
    stdin w' = stdin (office ["yes"]) /\
    exists o, stdout w' = (stdout (office ["yes"]) ++ o)%list /\
              existsb is_prompt o = false.
Proof.
  split; [reflexivity|]. eexists _, _. split; [vm_compute; reflexivity|].
  eapply (auto_confirmed_run_never_prompts iso_datetimes quotation_reply
            (office ["yes"]));
    [reflexivity | vm_compute; reflexivity].
Defined.

(** X5.  When the confirmation prompt meets the end of the console input,
    the [EOFError] of [input] is caught by the operation's handler: the
    operation returns the failure "EOF when reading a line" (not the
    cancelled result) and delivers nothing. *)
Theorem prompt_at_end_of_input_is_a_failure datetimes j w :
  auto_confirmed j = false ->
  stdin w = [] ->
  exists res w' l o,
    run_of (perform datetimes j) w (Return res) w' l o /\
    Forall (fun c => delivers c = false) l /\
    (existsb is_prompt o = true -> res = failure "EOF when reading a line").
Proof.
  intros Ha Hin.
  destruct (perform_detail datetimes j w) as (res & w' & l & o & Hrun & Hd).
  exists res, w', l, o. split; [exact Hrun|].
  apply (prompt_at_eof _ _ _ _ _ _ _ Hd Ha Hin).
Qed.

Lemma prompt_at_end_of_input_witness :
  auto_confirmed (booking_notice false) = false /\
  stdin (office []) = [] /\
  exists res w' l o,
    run_of (perform iso_datetimes (booking_notice false)) (office [])
      (Return res) w' l o /\
    Forall (fun c => delivers c = false) l /\
    (existsb is_prompt o = true -> res = failure "EOF when reading a line").
Proof.
  refine (conj eq_refl (conj eq_refl _)).
  exact (prompt_at_end_of_input_is_a_failure iso_datetimes (booking_notice false)
           (office []) eq_refl eq_refl).
Defined.

(** The prompt of the witness is reached. *)
Example prompt_at_end_of_input_sample :
  fst (perform iso_datetimes (booking_notice false) (office []))
  = Return (failure "EOF when reading a line").
Proof. vm_compute. reflexivity. Qed.

(** X6.  An operation that knows its sender (a [--from] override; the
    designer notification and the calendar tool always) never asks the
    provider for the profile. *)
Theorem known_sender_skips_the_profile_lookup datetimes j w r w' :
  sender_known j = true ->
  perform datetimes j w = (r, w') ->
  exists l, calls w' = (calls w ++ l)%list /\ Forall (fun c => is_profile c = false) l.
Proof.
  intros Hk E.
  destruct (perform_kind datetimes j w) as (res1 & w1 & l & o & Hrun & _ & Hp).
  destruct (run_same _ _ _ _ _ _ _ _ Hrun E) as [-> ->].
  exists l. split; [apply (run_calls _ _ _ _ _ _ Hrun) | exact (Hp Hk)].
Qed.

Lemma known_sender_witness :
  sender_known quotation_draft = true /\
  exists r w',
    perform iso_datetimes quotation_draft (office []) = (r, w') /\
    exists l, calls w' = (calls (office []) ++ l)%list /\
              Forall (fun c => is_profile c = false) l.
Proof.
  split; [reflexivity|]. eexists _, _. split; [vm_compute; reflexivity|].
  eapply (known_sender_skips_the_profile_lookup iso_datetimes quotation_draft
            (office []));
    [reflexivity | vm_compute; reflexivity].
Defined.

(** ** The message each mail operation hands over *)

(** X7.  Every message [send_email] hands to the provider, sent or stored
    as a draft, has the recipient, subject and body it was called with; an
    empty [cc], [bcc] or thread id is left out like a missing one; the
    message has no [In-Reply-To] and no [References] header, also when a
    thread id is given. *)
Theorem send_email_message_is_as_requested account to subject body cc bcc
    auto_confirm from_address draft thread_id w :
  exists res w' l o,
    run_of (SendEmail.send_email account to subject body cc bcc auto_confirm
              from_address draft thread_id) w (Return res) w' l o /\
    Forall (fun c => forall b, delivered c = Some b ->
              m_to (raw b) = to /\ m_subject (raw b) = subject /\
              m_plain (raw b) = body /\
              m_cc (raw b) = if_truthy cc /\ m_bcc (raw b) = if_truthy bcc /\
              m_in_reply_to (raw b) = None /\ m_references (raw b) = None /\
              threadId b = if_truthy thread_id) l.
Proof.
  destruct (send_email_detail account to subject body cc bcc auto_confirm
              from_address draft thread_id w)
    as (res & w' & l & o & Hrun & _ & Hmsg & _).
  exists res, w', l, o. split; [exact Hrun|].
  eapply Forall_impl; [exact Hmsg|]. cbn beta. intros c Hc b Hb.
  destruct (Hc b Hb) as (-> & -> & _). repeat split.
Qed.

(** An empty [--bcc] is dropped, a [--cc] is kept. *)
Example send_email_message_sample :
  omap delivered (calls (snd (perform iso_datetimes quotation (office []))))
  = [ MsgBody (Mime "client@example.com" "hello@livemoments.com.sg" "Quotation"
                 (Some "boss@example.com") None None None
                 "Please find the quotation attached."
                 "Please find the quotation attached.") None ].
Proof. vm_compute. reflexivity. Qed.

(** A message that the serialiser refuses is not handed over: the
    exception is caught like the provider's. *)
Example refused_message_is_a_failure :
  let subject := "Quotation" +:+ String Py.LF "Bcc: all@example.com" in
  let end_ :=
    SendEmail.send_email "livemomentssg@gmail.com" "client@example.com" subject
      "Hello" None None true None false None
      (world_of strict (token_store "livemomentssg@gmail.com") []) in
  fst end_ = Return (failure "folded header contains newline") /\
  List.filter delivers (calls (snd end_)) = [].
Proof. split; vm_compute; reflexivity. Qed.

(** X8.  The [From] header of a message of [send_email] or [send_reply] is
    the [from_address] override when a non-empty one is given; otherwise
    it is the [emailAddress] of the provider's profile, or the account name
    when the profile has none. *)
Theorem sender_is_the_override_or_the_profile :
  (forall account to subject body cc bcc auto_confirm from_address draft thread_id w,
     exists res w' l o,
       run_of (SendEmail.send_email account to subject body cc bcc auto_confirm
                 from_address draft thread_id) w (Return res) w' l o /\
       Forall (fun c => forall b, delivered c = Some b ->
                 sender_rule w account from_address (m_from (raw b))) l) /\
  (forall account thread_id to subject body cc auto_confirm from_address draft w,
     exists res w' l o,
       run_of (SendEmail.send_reply account thread_id to subject body cc auto_confirm
                 from_address draft) w (Return res) w' l o /\
       Forall (fun c => forall b, delivered c = Some b ->
                 sender_rule w account from_address (m_from (raw b))) l).
Proof.
  split; intros.
  - destruct (send_email_detail account to subject body cc bcc auto_confirm
                from_address draft thread_id w)
      as (res & w' & l & o & Hrun & _ & Hmsg & _).
    exists res, w', l, o. split; [exact Hrun|].
    eapply Forall_impl; [exact Hmsg|]. cbn beta. intros c Hc b Hb.
    apply (Hc b Hb).
  - destruct (send_reply_detail account thread_id to subject body cc auto_confirm
                from_address draft w)
      as (res & w' & l & o & Hrun & _ & Hmsg & _).
    exists res, w', l, o. split; [exact Hrun|].
    eapply Forall_impl; [exact Hmsg|]. cbn beta. intros c Hc b Hb.
    destruct (Hc b Hb) as (t & id & _ & _ & _ & _ & Hs). exact Hs.
Qed.

Example sender_samples :
  let senders j w :=
    omap (fun c => option_map (fun b => m_from (raw b)) (delivered c))
      (calls (snd (perform iso_datetimes j w))) in
  let anonymous :=
    Remote (Answer (Profile None)) (threads_get obliging) (messages_send obliging)
           (drafts_create obliging) (messages_list obliging)
           (messages_get obliging) (events_insert obliging) (refresh obliging)
           (run_local_server obliging) (as_bytes obliging) (discovery obliging) in
  senders quotation (office []) = ["hello@livemoments.com.sg"] /\
  senders quotation (world_of anonymous (token_store "livemomentssg@gmail.com") [])
  = ["livemomentssg@gmail.com"] /\
  senders (SendEmailJob "livemomentssg@gmail.com" "client@example.com" "Quotation"
             "Hello" None None true (Some "sales@livemoments.com.sg") false None)
    (office [])
  = ["sales@livemoments.com.sg"].
Proof. repeat split; vm_compute; reflexivity. Qed.

(** X9.  Every message [send_reply] hands over stays in its thread: the
    request carries the thread id, and [In-Reply-To] and [References] both
    hold the id of the last message of the thread as the provider returned
    it; a reply never has a [bcc]. *)
Theorem reply_is_threaded_under_the_last_message account thread_id to subject body
    cc auto_confirm from_address draft w :
  exists res w' l o,
    run_of (SendEmail.send_reply account thread_id to subject body cc auto_confirm
              from_address draft) w (Return res) w' l o /\
    Forall (fun c => forall b, delivered c = Some b ->
              threadId b = Some thread_id /\
              m_to (raw b) = to /\ m_plain (raw b) = body /\
              m_cc (raw b) = if_truthy cc /\ m_bcc (raw b) = None /\
              exists t id,
                threads_get (api w) thread_id = Answer t /\
                last (thread_messages t) = Some id /\
                m_in_reply_to (raw b) = Some id /\
                m_references (raw b) = Some id) l.
Proof.
  destruct (send_reply_detail account thread_id to subject body cc auto_confirm
              from_address draft w)
    as (res & w' & l & o & Hrun & _ & Hmsg & _).
  exists res, w', l, o. split; [exact Hrun|].
  eapply Forall_impl; [exact Hmsg|]. cbn beta. intros c Hc b Hb.
  destruct (Hc b Hb) as (t & id & Ht & Hlast & -> & -> & _).
  repeat split. exists t, id. repeat split; assumption.
Qed.

Example reply_message_sample :
  omap delivered (calls (snd (perform iso_datetimes quotation_reply (office []))))
  = [ MsgBody (Mime "client@example.com" "hello@livemoments.com.sg" "Re: Quotation"
                 None None (Some "m-last") (Some "m-last") "Thanks." "Thanks.")
        (Some "thread-1") ].
Proof. vm_compute. reflexivity. Qed.

(** X10.  A reply to a thread that holds no message fails: the
    [IndexError] of [thread['messages'][-1]] is caught, the result is the
    failure "list index out of range" once the thread was looked up, and
    nothing is delivered. *)
Theorem reply_to_an_empty_thread_fails account thread_id to subject body cc
    auto_confirm from_address draft w t :
  threads_get (api w) thread_id = Answer t ->
  thread_messages t = [] ->
  exists res w' l o,
    run_of (SendEmail.send_reply account thread_id to subject body cc auto_confirm
              from_address draft) w (Return res) w' l o /\
    Forall (fun c => delivers c = false) l /\
    (existsb is_thread_lookup l = true -> res = failure "list index out of range").
Proof.
  intros Ht Hnone.
  destruct (send_reply_detail account thread_id to subject body cc auto_confirm
              from_address draft w)
    as (res & w' & l & o & Hrun & _ & _ & _ & _ & Hempty).
  exists res, w', l, o. split; [exact Hrun|].
  apply (Hempty t Ht). rewrite Hnone. reflexivity.
Qed.

Lemma reply_to_an_empty_thread_witness :
  let w := world_of hollow (token_store "livemomentssg@gmail.com") [] in
  threads_get (api w) "thread-1" = Answer (Thread []) /\
  thread_messages (Thread []) = [] /\
  exists res w' l o,
    run_of (SendEmail.send_reply "livemomentssg@gmail.com" "thread-1"
              "client@example.com" "Re: Quotation" "Thanks." None true None false)
      w (Return res) w' l o /\
    Forall (fun c => delivers c = false) l /\
    (existsb is_thread_lookup l = true -> res = failure "list index out of range").
Proof.
  refine (conj eq_refl (conj eq_refl _)).
  exact (reply_to_an_empty_thread_fails "livemomentssg@gmail.com" "thread-1"
           "client@example.com" "Re: Quotation" "Thanks." None true None false
           (world_of hollow (token_store "livemomentssg@gmail.com") [])
           (Thread []) eq_refl eq_refl).
Defined.

Example reply_to_an_empty_thread_sample :
  fst (perform iso_datetimes quotation_reply
         (world_of hollow (token_store "livemomentssg@gmail.com") []))
  = Return (failure "list index out of range").
Proof. vm_compute. reflexivity. Qed.

(** X11.  Whatever account and booking it is called with,
    [send_designer_notification] hands over messages addressed to the
    designer only, from the studio's address, with the subject and body of
    [build_designer_email], without [cc], [bcc] or thread; a successful
    result names the designer, the client and the contact. *)
Theorem notification_goes_to_the_designer account client poc poc_email date time
    venue event_type auto_confirm draft w :
  exists res w' l o,
    run_of (NotifyDesigner.send_designer_notification account client poc poc_email
              date time venue event_type auto_confirm draft) w (Return res) w' l o /\
    Forall (fun c => forall b, delivered c = Some b ->
              let '(subject, body) :=
                NotifyDesigner.build_designer_email client poc poc_email date time
                  venue event_type in
              raw b = Mime NotifyDesigner.DESIGNER_EMAIL NotifyDesigner.FROM_ADDRESS
                        subject None None None None body (html_of body) /\
              threadId b = None) l /\
    (truthy (res !! "success") = true ->
     res !! "to" = Some (VStr NotifyDesigner.DESIGNER_EMAIL) /\
     res !! "client" = Some (VStr client) /\ res !! "poc" = Some (VStr poc)).
Proof.
  destruct (send_designer_notification_detail account client poc poc_email date
              time venue event_type auto_confirm draft w)
    as (res & w' & l & o & Hrun & _ & Hmsg & _ & He).
  exists res, w', l, o. split; [exact Hrun|]. split; [exact Hmsg|].
  intros Hs. destruct (He Hs) as (H1 & _ & H2 & H3 & _). auto.
Qed.

Example notification_sample :
  omap (fun c => option_map (fun b => (m_to (raw b), m_subject (raw b))) (delivered c))
    (calls (snd (perform iso_datetimes (booking_notice true) (office []))))
  = [("designer@livemoments.com.sg", "New Booking - Acme - 24 May 2026")].
Proof. vm_compute. reflexivity. Qed.

(** ** Loading the token *)

(** X12.  The path [get_credentials_path] of the mail tools returns is that
    of a file that exists: the [.token] file of the account when there is
    one, whatever else is stored; the [.json] file only when the [.token]
    file is missing; [None] when both are.  The calendar tool knows the
    [.token] file only.  Neither lookup changes anything. *)
Theorem credentials_path_is_a_stored_file :
  (forall account w,
     exists p,
       SendEmail.get_credentials_path account w = (Return p, w) /\
       match p with
       | Some f =>
           is_Some (files w !! f) /\
           (f = SendEmail.token_file (home w) account \/
            f = SendEmail.alt_path (home w) account /\
            files w !! SendEmail.token_file (home w) account = None)
       | None => no_mail_token account w
       end) /\
  (forall account w,
     exists p,
       AddCalendarEvent.get_credentials_path account w = (Return p, w) /\
       match p with
       | Some f =>
           is_Some (files w !! f) /\ f = AddCalendarEvent.token_file (home w) account
       | None => files w !! AddCalendarEvent.token_file (home w) account = None
       end).
Proof.
  split; intros account w.
  - exists (mail_token_path account w). split; [apply mail_credentials_path_run|].
    unfold mail_token_path, no_mail_token.
    repeat case_bool_decide.
    + split; [assumption | left; reflexivity].
    + split; [assumption|]. right. split; [reflexivity|].
      apply eq_None_not_Some. assumption.
    + split; apply eq_None_not_Some; assumption.
  - unfold AddCalendarEvent.get_credentials_path, bind, get_home, path_exists, ret. cbn.
    eexists. split; [reflexivity|].
    case_bool_decide as H.
    + split; [exact H | reflexivity].
    + destruct (files w !! AddCalendarEvent.token_file (home w) account); [|reflexivity].
      exfalso. apply H. eexists; reflexivity.
Qed.

Example credentials_path_samples :
  fst (SendEmail.get_credentials_path "ops@example.com"
         (world_of obliging (token_store "ops@example.com" ∪ json_store "ops@example.com") []))
  = Return (Some "/home/ops/.nanobot/credentials/gmail/ops_at_example.com.token") /\
  fst (SendEmail.get_credentials_path "ops@example.com"
         (world_of obliging (json_store "ops@example.com") []))
  = Return (Some "/home/ops/.nanobot/credentials/ops@example.com.json") /\
  fst (AddCalendarEvent.get_credentials_path "ops@example.com"
         (world_of obliging (json_store "ops@example.com") []))
  = Return None.
Proof. repeat split; vm_compute; reflexivity. Qed.

(** X13.  A stored token that is expired and has a refresh token is
    renewed with one refresh call, and the renewed token is written back to
    the file it was loaded from before it is returned. *)
Theorem expired_token_is_refreshed_and_stored account w p c c' :
  mail_token_path account w = Some p ->
  files w !! p = Some (PickleFile c) ->
  expired c = true ->
  Py.truthy_str (refresh_token c) = true ->
  refresh (api w) c = Answer c' ->
  exists w',
    SendEmail.load_credentials account w = (Return (Some c'), w') /\
    files w' = <[p := PickleFile c']> (files w) /\
    calls w' = (calls w ++ [(TokenRefresh c, None)])%list /\
    stdout w' = stdout w.
Proof.
  intros Hp Hf He Hr Ha.
  unfold SendEmail.load_credentials, bind at 1.
  rewrite mail_credentials_path_run, Hp.
  unfold try_except, bind, pickle_load, refresh_if_expired. rewrite Hf, He, Hr. cbn.
  unfold bind, remote_call, write_file, ret. rewrite Ha. cbn.
  eexists. repeat split.
Qed.

Lemma expired_token_witness :
  let account := "livemomentssg@gmail.com" in
  let w := world_of renewing (stale_store account) [] in
  let p := SendEmail.token_file "/home/ops" account in
  let c' := Credentials "ya29.new" true false (Some "1//refresh") in
  mail_token_path account w = Some p /\
  files w !! p = Some (PickleFile stale_token) /\
  expired stale_token = true /\
  Py.truthy_str (refresh_token stale_token) = true /\
  refresh (api w) stale_token = Answer c' /\
  exists w',
    SendEmail.load_credentials account w = (Return (Some c'), w') /\
    files w' = <[p := PickleFile c']> (files w) /\
    calls w' = (calls w ++ [(TokenRefresh stale_token, None)])%list /\
    stdout w' = stdout w.
Proof.
  assert (H1 : mail_token_path "livemomentssg@gmail.com"
                 (world_of renewing (stale_store "livemomentssg@gmail.com") [])
               = Some (SendEmail.token_file "/home/ops" "livemomentssg@gmail.com"))
    by (vm_compute; reflexivity).
  assert (H2 : files (world_of renewing (stale_store "livemomentssg@gmail.com") [])
                 !! SendEmail.token_file "/home/ops" "livemomentssg@gmail.com"
               = Some (PickleFile stale_token))
    by (vm_compute; reflexivity).
  refine (conj H1 (conj H2 (conj eq_refl (conj eq_refl (conj eq_refl _))))).
  exact (expired_token_is_refreshed_and_stored "livemomentssg@gmail.com"
           (world_of renewing (stale_store "livemomentssg@gmail.com") [])
           _ stale_token _ H1 H2 eq_refl eq_refl eq_refl).
Defined.

(** X14.  A stored token that is not both expired and renewable is
    returned as it is stored, with no remote call, no output and no write:
    in particular an expired token without a refresh token, and a token
    that is not [valid], are handed to the API client unchecked. *)
Theorem other_tokens_are_loaded_untouched account w p c :
  mail_token_path account w = Some p ->
  files w !! p = Some (PickleFile c) ->
  expired c && Py.truthy_str (refresh_token c) = false ->
  SendEmail.load_credentials account w = (Return (Some c), w).
Proof.
  intros Hp Hf He.
  unfold SendEmail.load_credentials, bind at 1.
  rewrite mail_credentials_path_run, Hp.
  unfold try_except, bind, pickle_load, refresh_if_expired. rewrite Hf, He.
  reflexivity.
Qed.

Lemma other_tokens_witness :
  let account := "livemomentssg@gmail.com" in
  let dead := Credentials "ya29.old" false true None in
  let w :=
    world_of revoked {[ SendEmail.token_file "/home/ops" account := PickleFile dead ]} [] in
  mail_token_path account w = Some (SendEmail.token_file "/home/ops" account) /\
  files w !! SendEmail.token_file "/home/ops" account = Some (PickleFile dead) /\
  expired dead && Py.truthy_str (refresh_token dead) = false /\
  SendEmail.load_credentials account w = (Return (Some dead), w).
Proof.
  assert (H1 : mail_token_path "livemomentssg@gmail.com"
                 (world_of revoked
                    {[ SendEmail.token_file "/home/ops" "livemomentssg@gmail.com"
                       := PickleFile (Credentials "ya29.old" false true None) ]} [])
               = Some (SendEmail.token_file "/home/ops" "livemomentssg@gmail.com"))
    by (vm_compute; reflexivity).
  assert (H2 : files (world_of revoked
                    {[ SendEmail.token_file "/home/ops" "livemomentssg@gmail.com"
                       := PickleFile (Credentials "ya29.old" false true None) ]} [])
                 !! SendEmail.token_file "/home/ops" "livemomentssg@gmail.com"
               = Some (PickleFile (Credentials "ya29.old" false true None)))
    by (vm_compute; reflexivity).
  refine (conj H1 (conj H2 (conj eq_refl _))).
  exact (other_tokens_are_loaded_untouched "livemomentssg@gmail.com" _ _ _
           H1 H2 eq_refl).
Defined.

(** Loading a token from a file that holds none that can be used. *)
Lemma load_unloadable_run account w p f :
  mail_token_path account w = Some p ->
  files w !! p = Some f ->
  unloadable (api w) f ->
  exists w' msg l,
    SendEmail.load_credentials account w = (Return None, w') /\
    files w' = files w /\
    stdout w'
    = (stdout w ++ [ErrLine ("Error loading credentials for " +:+ account +:+ ": "
                               +:+ msg)])%list /\
    calls w' = (calls w ++ l)%list /\
    Forall (fun c => is_refresh c = true /\ returned c = false) l.
Proof.
  intros Hp Hf Hbad.
  unfold SendEmail.load_credentials, bind at 1.
  rewrite mail_credentials_path_run, Hp.
  unfold try_except, bind, pickle_load, refresh_if_expired. rewrite Hf.
  destruct f as [c| | |]; cbn in Hbad.
  - destruct Hbad as (He & Hr & cls & msg & Ha).
    rewrite He, Hr. cbn. unfold bind, remote_call. rewrite Ha. cbn.
    eexists _, msg, [_]. split; [reflexivity|]. cbn. repeat split.
    repeat constructor.
  - cbn. eexists _, _, []. split; [reflexivity|]. cbn. rewrite app_nil_r.
    repeat split. constructor.
  - cbn. eexists _, _, []. split; [reflexivity|]. cbn. rewrite app_nil_r.
    repeat split. constructor.
  - cbn. eexists _, _, []. split; [reflexivity|]. cbn. rewrite app_nil_r.
    repeat split. constructor.
Qed.

(** X15.  A token that cannot be loaded is treated as a missing one: when
    the stored file is not a pickle (the [.json] fallback holding JSON
    text, for one), or when the refresh of an expired token fails,
    [load_credentials] returns [None], writes one line with the error to
    the error stream, leaves every file as it was, and has issued nothing
    but the failed refresh. *)
Theorem unloadable_token_gives_no_credentials account w p f :
  mail_token_path account w = Some p ->
  files w !! p = Some f ->
  unloadable (api w) f ->
  exists w' msg l,
    SendEmail.load_credentials account w = (Return None, w') /\
    files w' = files w /\
    stdout w'
    = (stdout w ++ [ErrLine ("Error loading credentials for " +:+ account +:+ ": "
                               +:+ msg)])%list /\
    calls w' = (calls w ++ l)%list /\
    Forall (fun c => is_refresh c = true /\ returned c = false) l.
Proof. apply load_unloadable_run. Qed.

Lemma unloadable_token_witness :
  let account := "livemomentssg@gmail.com" in
  let w := world_of revoked (stale_store account) [] in
  let p := SendEmail.token_file "/home/ops" account in
  mail_token_path account w = Some p /\
  files w !! p = Some (PickleFile stale_token) /\
  unloadable (api w) (PickleFile stale_token) /\
  exists w' msg l,
    SendEmail.load_credentials account w = (Return None, w') /\
    files w' = files w /\
    stdout w'
    = (stdout w ++ [ErrLine ("Error loading credentials for " +:+ account +:+ ": "
                               +:+ msg)])%list /\
    calls w' = (calls w ++ l)%list /\
    Forall (fun c => is_refresh c = true /\ returned c = false) l.
Proof.
  assert (H1 : mail_token_path "livemomentssg@gmail.com"
                 (world_of revoked (stale_store "livemomentssg@gmail.com") [])
               = Some (SendEmail.token_file "/home/ops" "livemomentssg@gmail.com"))
    by (vm_compute; reflexivity).
  assert (H2 : files (world_of revoked (stale_store "livemomentssg@gmail.com") [])
                 !! SendEmail.token_file "/home/ops" "livemomentssg@gmail.com"
               = Some (PickleFile stale_token))
    by (vm_compute; reflexivity).
  assert (H3 : unloadable
                 (api (world_of revoked (stale_store "livemomentssg@gmail.com") []))
                 (PickleFile stale_token))
    by (split; [reflexivity|]; split; [reflexivity|]; eexists _, _; reflexivity).
  refine (conj H1 (conj H2 (conj H3 _))).
  exact (unloadable_token_gives_no_credentials "livemomentssg@gmail.com" _ _ _
           H1 H2 H3).
Defined.

Example json_fallback_is_read_as_a_pickle :
  let w := world_of obliging (json_store "ops@example.com") [] in
  fst (SendEmail.load_credentials "ops@example.com" w) = Return None.
Proof. vm_compute. reflexivity. Qed.

(** The mail operations start by loading the token of their account. *)
Lemma mail_starts_with_the_token datetimes j w w1 :
  is_mail j = true ->
  SendEmail.load_credentials (account_of j) w = (Return None, w1) ->
  perform datetimes j w = (Return (failure (not_configured j)), w1).
Proof.
  intros Hm E.
  destruct j; try discriminate Hm; cbn [perform account_of not_configured] in *.
  - unfold SendEmail.send_email, bind at 1. rewrite E. reflexivity.
  - unfold SendEmail.send_reply, bind at 1. rewrite E. reflexivity.
  - unfold NotifyDesigner.send_designer_notification, NotifyDesigner.load_credentials,
      bind at 1. rewrite E. reflexivity.
Qed.

(** X16.  With a stored token that cannot be loaded, [send_email],
    [send_reply] and [send_designer_notification] answer as if no token
    were stored ("No credentials found for ..."); the cause is in the line
    on the error stream only, and nothing is delivered. *)
Theorem unloadable_token_is_reported_as_missing datetimes j w p f :
  is_mail j = true ->
  mail_token_path (account_of j) w = Some p ->
  files w !! p = Some f ->
  unloadable (api w) f ->
  exists w' l,
    perform datetimes j w = (Return (failure (not_configured j)), w') /\
    calls w' = (calls w ++ l)%list /\
    Forall (fun c => delivers c = false) l.
Proof.
  intros Hm Hp Hf Hbad.
  destruct (load_unloadable_run (account_of j) w p f Hp Hf Hbad)
    as (w' & msg & l & E & _ & _ & Hcalls & Hl).
  exists w', l. split; [apply (mail_starts_with_the_token _ _ _ _ Hm E)|].
  split; [exact Hcalls|].
  eapply Forall_impl; [exact Hl|]. cbn beta. intros c [Hc _].
  apply refresh_quiet in Hc as [Hc _]. exact Hc.
Qed.

Lemma unloadable_token_is_reported_witness :
  let w := world_of obliging (json_store "livemomentssg@gmail.com") [] in
  let p := SendEmail.alt_path "/home/ops" "livemomentssg@gmail.com" in
  is_mail quotation = true /\
  mail_token_path (account_of quotation) w = Some p /\
  files w !! p = Some (TokenJson fresh_token) /\
  unloadable (api w) (TokenJson fresh_token) /\
  exists w' l,
    perform iso_datetimes quotation w
    = (Return (failure (not_configured quotation)), w') /\
    calls w' = (calls w ++ l)%list /\
    Forall (fun c => delivers c = false) l.
Proof.
  assert (H1 : mail_token_path (account_of quotation)
                 (world_of obliging (json_store "livemomentssg@gmail.com") [])
               = Some (SendEmail.alt_path "/home/ops" "livemomentssg@gmail.com"))
    by (vm_compute; reflexivity).
  assert (H2 : files (world_of obliging (json_store "livemomentssg@gmail.com") [])
                 !! SendEmail.alt_path "/home/ops" "livemomentssg@gmail.com"
               = Some (TokenJson fresh_token))
    by (vm_compute; reflexivity).
  refine (conj eq_refl (conj H1 (conj H2 (conj I _)))).
  exact (unloadable_token_is_reported_as_missing iso_datetimes quotation _ _ _
           eq_refl H1 H2 I).
Defined.

(** ** The three command lines and their exit status *)

Lemma notify_render_run result w :
  exists o, NotifyDesigner.render result w = (Return tt, set_stdout (stdout w ++ o) w).
Proof.
  unfold NotifyDesigner.render, bind, print, emit.
  destruct (truthy (result !! "success")), (truthy (result !! "is_draft")),
    (truthy (result !! "preview_only")); cbn; rewrite ?set_stdout_twice;
    eexists; f_equal; f_equal; appended.
Qed.

Lemma calendar_render_run result w :
  exists o, AddCalendarEvent.render result w = (Return tt, set_stdout (stdout w ++ o) w).
Proof.
  unfold AddCalendarEvent.render, bind, print, emit.
  destruct (truthy (result !! "success")); cbn; rewrite ?set_stdout_twice;
    eexists; f_equal; f_equal; appended.
Qed.

(** Showing the result, as JSON or as text, makes no remote call. *)
Lemma show_run (json_flag : bool) (render : gmap string value -> M unit) res w :
  (exists o, render res w = (Return tt, set_stdout (stdout w ++ o) w)) ->
  exists w',
    (if json_flag then emit (JsonResult res) else render res) w = (Return tt, w') /\
    calls w' = calls w.
Proof.
  intros (o & E). destruct json_flag.
  - eexists. split; reflexivity.
  - rewrite E. eexists. split; reflexivity.
Qed.

(** What the result says, as an exit status. *)
Lemma status_of_result w w' auto_confirm draft res l o :
  mail_detail w w' auto_confirm draft res l o ->
  status_tells (if truthy (res !! "success") then 0 else 1) l.
Proof.
  intros Hd. destruct (truthy (res !! "success")) eqn:Hs.
  - left. split; [reflexivity|]. apply (on_success _ _ _ _ _ _ _ Hd Hs).
  - right. split; [reflexivity|]. apply (on_failure _ _ _ _ _ _ _ Hd Hs).
Qed.

(** The end of every [main]: show the result, exit with its status. *)
Lemma report_run (json_flag : bool) (render : gmap string value -> M unit)
    (m : M (gmap string value)) w0 w auto_confirm draft res w' l o :
  (forall r v, exists o, render r v = (Return tt, set_stdout (stdout v ++ o) v)) ->
  run_of m w (Return res) w' l o ->
  mail_detail w w' auto_confirm draft res l o ->
  calls w = calls w0 ->
  exists code w'',
    (result <- m ;;
     (if json_flag then emit (JsonResult result) else render result) ;;;
     (raise (SystemExit (if truthy (result !! "success") then 0 else 1)) : M unit))%py w
    = (Raise (SystemExit code), w'') /\
    calls w'' = (calls w0 ++ l)%list /\ status_tells code l.
Proof.
  intros Hrender Hrun Hd Hcalls.
  destruct (show_run json_flag render res w' (Hrender res w')) as (w3 & Es & Hc3).
  rewrite (bind_return _ _ _ _ _ (run_eq _ _ _ _ _ _ Hrun)).
  rewrite (bind_return _ _ _ _ _ Es). unfold raise.
  eexists _, _. split; [reflexivity|]. split.
  - rewrite Hc3, (run_calls _ _ _ _ _ _ Hrun), Hcalls. reflexivity.
  - apply (status_of_result _ _ _ _ _ _ _ Hd).
Qed.



Example body_file_comes_first :
  fst (run_process (SendEmail.main (Options quotation_args)) (office []))
  = Uncaught (Exception "FileNotFoundError"
                "[Errno 2] No such file or directory: 'body.txt'") /\
  omap (fun c => option_map (fun b => m_plain (raw b)) (delivered c))
    (calls (snd (run_process (SendEmail.main (Options quotation_args))
                   (world_of obliging
                      (<[ "body.txt" := TextFile "body from the file" ]>
                         (token_store "livemomentssg@gmail.com")) []))))
  = ["body from the file"].
Proof. split; vm_compute; reflexivity. Qed.

(** What [notify_designer.py] does with the namespace of its options. *)
Lemma notify_designer_options_run (a : NotifyDesigner.args) w :
  exists code w' l,
    run_process (NotifyDesigner.main (Options a)) w = (Exit code, w') /\
    calls w' = (calls w ++ l)%list /\ status_tells code l.
Proof.
  unfold run_process, NotifyDesigner.main. rewrite parse_options.
  destruct (perform_detail iso_datetimes
              (NotifyJob (NotifyDesigner.account a) (NotifyDesigner.client a)
                 (NotifyDesigner.poc a) (NotifyDesigner.email a)
                 (NotifyDesigner.date a) (NotifyDesigner.time a)
                 (NotifyDesigner.venue a) (NotifyDesigner.type a)
                 (NotifyDesigner.yes a) (NotifyDesigner.draft a)) w)
    as (res & w2 & l & o & Hrun & Hd).
  cbn [perform] in Hrun.
  destruct (report_run (NotifyDesigner.json_flag a) NotifyDesigner.render _ w w _ _
              res w2 l o notify_render_run Hrun Hd eq_refl)
    as (code & w3 & E & Hc & Hs).
  unfold NotifyDesigner.exit_code. rewrite E. exists code, w3, l. auto.
Qed.

(** X18.  However [notify_designer.py] is started, an exit with status 0
    after its options were parsed means that one notification was handed
    over and accepted, and an exit with status 1 that none was; no
    exception of class [Exception] leaves [main].  [--help] ends it with
    status 0 and a command line that argparse rejects with status 2, both
    before anything is called. *)
Theorem notify_designer_exit_status (c : command_line NotifyDesigner.args) w :
  match c, run_process (NotifyDesigner.main c) w with
  | Options a, (Exit code, w') =>
      exists l, calls w' = (calls w ++ l)%list /\ status_tells code l
  | Options a, (Uncaught e, w') => False
  | HelpRequested _, (e, w') => e = Exit 0 /\ calls w' = calls w
  | Rejected _, (e, w') => e = Exit 2 /\ calls w' = calls w
  end.
Proof.
  destruct c as [a|help|usage]; [|split; reflexivity ..].
  destruct (notify_designer_options_run a w) as (code & w' & l & -> & Hc & Hs).
  exists l. auto.
Qed.

Example notify_designer_exit_samples :
  fst (run_process (NotifyDesigner.main (Options booking_args)) (office [])) = Exit 0 /\
  fst (run_process (NotifyDesigner.main (Options booking_args)) bare) = Exit 1 /\
  fst (run_process (NotifyDesigner.main (HelpRequested "usage: ...")) (office []))
  = Exit 0 /\
  calls (snd (run_process (NotifyDesigner.main (HelpRequested "usage: ..."))
                (office [])))
  = [].
Proof. repeat split; vm_compute; reflexivity. Qed.

(** What [add_calendar_event.py] does with the namespace of its options. *)
Lemma add_calendar_event_options_run datetimes (a : AddCalendarEvent.args) w :
  exists w' l,
    run_process (AddCalendarEvent.main datetimes (Options a)) w
    = (Exit (if Py.mem (AddCalendarEvent.type a) ["EVENT"; "LIVE"]
                && Py.mem (AddCalendarEvent.status a) ["TBC"; "CONFIRMED"]
             then 1 else 2), w') /\
    calls w' = (calls w ++ l)%list /\
    Forall (fun c => delivers c = false) l.
Proof.
  unfold run_process, AddCalendarEvent.main, AddCalendarEvent.check_choices.
  rewrite parse_options.
  destruct (Py.mem (AddCalendarEvent.type a) ["EVENT"; "LIVE"]
            && Py.mem (AddCalendarEvent.status a) ["TBC"; "CONFIRMED"]).
  - unfold bind at 1, ret at 1.
    destruct (add_event_detail datetimes (AddCalendarEvent.account a)
                (AddCalendarEvent.company a) (AddCalendarEvent.poc a)
                (AddCalendarEvent.type a) (AddCalendarEvent.date a)
                (AddCalendarEvent.start a) (AddCalendarEvent.end_ a)
                (AddCalendarEvent.location_arg a) (AddCalendarEvent.email_id a)
                (AddCalendarEvent.description_arg a) (AddCalendarEvent.status a) w)
      as (res & w2 & l & o & Hrun & Hd & _ & Hfail & Hnd).
    destruct (report_run (AddCalendarEvent.json_flag a) AddCalendarEvent.render _ w w
                _ _ res w2 l o calendar_render_run Hrun Hd eq_refl)
      as (code & w3 & E & Hc & Hs).
    unfold AddCalendarEvent.exit_code. rewrite E.
    assert (code = 1%Z) as ->.
    { destruct Hs as [[_ (c & Hlast & Hdel & _)] | [-> _]]; [|reflexivity].
      exfalso. apply last_Some in Hlast as [l' ->].
      apply Forall_app in Hnd as [_ Hnd].
      inversion Hnd as [|? ? Hx _]. congruence. }
    exists w3, l. split; [reflexivity|]. split; [exact Hc | exact Hnd].
  - unfold bind, raise. exists w, []. rewrite app_nil_r. repeat split. constructor.
Qed.

(** X19.  [add_calendar_event.py] never inserts an event, and status 0 is
    the status of [--help] only: a command line that argparse rejects (a
    [--type] or [--status] outside the choices included) ends with status
    2 before anything is done, and every run that gets its options ends
    with status 1. *)
Theorem add_calendar_event_exit_status datetimes
    (c : command_line AddCalendarEvent.args) w :
  exists w' l,
    run_process (AddCalendarEvent.main datetimes c) w
    = (Exit match c with
            | Options a =>
                if Py.mem (AddCalendarEvent.type a) ["EVENT"; "LIVE"]
                   && Py.mem (AddCalendarEvent.status a) ["TBC"; "CONFIRMED"]
                then 1 else 2
            | HelpRequested _ => 0
            | Rejected _ => 2
            end, w') /\
    calls w' = (calls w ++ l)%list /\
    Forall (fun c => delivers c = false) l.
Proof.
  destruct c as [a|help|usage].
  - apply add_calendar_event_options_run.
  - eexists _, []. split; [reflexivity|]. cbn. rewrite app_nil_r. split; constructor.
  - eexists _, []. split; [reflexivity|]. cbn. rewrite app_nil_r. split; constructor.
Qed.

Example add_calendar_event_exit_samples :
  fst (run_process (AddCalendarEvent.main iso_datetimes (Options (event_args false))) (office []))
  = Exit 1 /\
  calls (snd (run_process (AddCalendarEvent.main iso_datetimes (Options (event_args false)))
                (office [])))
  = [].
Proof. split; vm_compute; reflexivity. Qed.

(** X20.  Without a token file the calendar tool announces it on the
    standard output, where the mail tools use the error stream: two lines,
    the second one "Expected: None" (the path looked at is not shown),
    precede the result, so that with [--json] the output is not the JSON
    document alone.  Nothing is called and nothing is written. *)
Theorem calendar_missing_token_is_announced_on_stdout datetimes
    (a : AddCalendarEvent.args) w :
  files w !! AddCalendarEvent.token_file (home w) (AddCalendarEvent.account a) = None ->
  Py.mem (AddCalendarEvent.type a) ["EVENT"; "LIVE"]
  && Py.mem (AddCalendarEvent.status a) ["TBC"; "CONFIRMED"] = true ->
  exists w',
    run_process (AddCalendarEvent.main datetimes (Options a)) w = (Exit 1, w') /\
    calls w' = calls w /\ files w' = files w /\
    stdout w'
    = (stdout w
         ++ [ Line ("Error: No credentials found for " +:+ AddCalendarEvent.account a);
              Line "Expected: None";
              if AddCalendarEvent.json_flag a
              then JsonResult (failure "No credentials found")
              else Line (AddCalendarEvent.FAILED +:+ "No credentials found") ])%list.
Proof.
  intros Hnone Hok.
  unfold run_process, AddCalendarEvent.main, AddCalendarEvent.check_choices.
  rewrite parse_options, Hok.
  unfold AddCalendarEvent.add_event, AddCalendarEvent.load_credentials,
    AddCalendarEvent.get_credentials_path, AddCalendarEvent.render,
    AddCalendarEvent.exit_code, bind, get_home, path_exists, print, emit, ret, raise.
  cbn. rewrite Hnone. cbn.
  destruct (AddCalendarEvent.json_flag a); cbn;
    (eexists; split; [reflexivity|]; cbn; rewrite <- !app_assoc; repeat split).
Qed.

Lemma calendar_missing_token_witness :
  files bare
    !! AddCalendarEvent.token_file (home bare) (AddCalendarEvent.account (event_args true))
  = None /\
  Py.mem (AddCalendarEvent.type (event_args true)) ["EVENT"; "LIVE"]
  && Py.mem (AddCalendarEvent.status (event_args true)) ["TBC"; "CONFIRMED"] = true /\
  exists w',
    run_process (AddCalendarEvent.main iso_datetimes (Options (event_args true))) bare
    = (Exit 1, w') /\
    calls w' = calls bare /\ files w' = files bare /\
    stdout w'
    = (stdout bare
         ++ [ Line ("Error: No credentials found for "
                      +:+ AddCalendarEvent.account (event_args true));
              Line "Expected: None";
              if AddCalendarEvent.json_flag (event_args true)
              then JsonResult (failure "No credentials found")
              else Line (AddCalendarEvent.FAILED +:+ "No credentials found") ])%list.
Proof.
  refine (conj eq_refl (conj eq_refl _)).
  exact (calendar_missing_token_is_announced_on_stdout iso_datetimes (event_args true)
           bare eq_refl eq_refl).
Defined.

(** ** The capture tool *)

Section Headers.

Import CaptureEmail.

Local Abbreviation step :=
  (fun (result : gmap string string) (h : header) =>
     let name := Py.lower (default EmptyString (h_name h)) in
     let value := default EmptyString (h_value h) in
     if Py.mem name header_names then <[name := value]> result else result).

Lemma headers_from k v hs acc :
  fold_left step hs acc !! k = Some v ->
  acc !! k = Some v \/
  In k header_names /\ exists h, In h hs /\ header_key h = k /\ header_text h = v.
Proof.
  revert acc; induction hs as [|h hs IH]; intros acc; cbn [fold_left]; [auto|].
  intros H. apply IH in H as [H|(Hk & h' & Hin & Hh)].
  - cbn zeta in H.
    destruct (Py.mem (Py.lower (default EmptyString (h_name h))) header_names) eqn:Hm;
      [|auto].
    destruct (decide (Py.lower (default EmptyString (h_name h)) = k)) as [<-|Hne].
    + rewrite lookup_insert_eq in H. injection H as <-.
      right. split; [apply mem_In, Hm|]. exists h. split; [left; reflexivity|].
      split; reflexivity.
    + rewrite lookup_insert_ne in H by exact Hne. auto.
  - right. split; [exact Hk|]. exists h'. split; [right; exact Hin | exact Hh].
Qed.

Lemma headers_skip k hs acc :
  Forall (fun h => header_key h <> k) hs ->
  fold_left step hs acc !! k = acc !! k.
Proof.
  revert acc; induction hs as [|h hs IH]; intros acc Hall; [reflexivity|].
  apply Forall_cons in Hall as [Hh Hall]. cbn [fold_left]. rewrite (IH _ Hall).
  cbn zeta.
  destruct (Py.mem (Py.lower (default EmptyString (h_name h))) header_names);
    [|reflexivity].
  apply lookup_insert_ne. exact Hh.
Qed.

(** X21.  [extract_headers] keeps the seven headers it knows and nothing
    else: every key of its result is one of "from", "to", "cc", "bcc",
    "subject", "date", "message-id", and its value is the value of a header
    of the message whose name is that key up to letter case. *)
Theorem extract_headers_keeps_known_names_only headers k v :
  extract_headers headers !! k = Some v ->
  In k header_names /\
  exists h, In h headers /\ header_key h = k /\ header_text h = v.
Proof.
  intros H. apply headers_from in H as [H|H]; [|exact H].
  rewrite lookup_empty in H. discriminate H.
Qed.

Lemma extract_headers_witness :
  let headers :=
    [ Header (Some "Subject") (Some "Quotation");
      Header (Some "X-Mailer") (Some "mutt") ] in
  extract_headers headers !! "subject" = Some "Quotation" /\
  In "subject" header_names /\
  exists h, In h headers /\ header_key h = "subject" /\ header_text h = "Quotation".
Proof.
  assert (H : extract_headers
                [ Header (Some "Subject") (Some "Quotation");
                  Header (Some "X-Mailer") (Some "mutt") ] !! "subject"
              = Some "Quotation") by (vm_compute; reflexivity).
  exact (conj H (extract_headers_keeps_known_names_only _ _ _ H)).
Defined.

(** X22.  When a header occurs more than once (in any letter case), the
    last occurrence wins; a header without a value counts as the empty
    string. *)
Theorem extract_headers_last_occurrence_wins pre h post :
  In (header_key h) header_names ->
  Forall (fun h' => header_key h' <> header_key h) post ->
  extract_headers (pre ++ h :: post)%list !! header_key h = Some (header_text h).
Proof.
  intros Hk Hpost. unfold extract_headers.
  rewrite fold_left_app. cbn [fold_left]. rewrite (headers_skip _ _ _ Hpost).
  cbn zeta. apply mem_In in Hk. unfold header_key in Hk. rewrite Hk.
  apply lookup_insert_eq.
Qed.

Lemma extract_headers_last_witness :
  let pre := [Header (Some "Subject") (Some "first")] in
  let h := Header (Some "SUBJECT") None in
  let post := [Header (Some "X-Mailer") (Some "mutt"); Header None (Some "nameless")] in
  In (header_key h) header_names /\
  Forall (fun h' => header_key h' <> header_key h) post /\
  extract_headers (pre ++ h :: post)%list !! header_key h = Some (header_text h).
Proof.
  assert (H1 : In (header_key (Header (Some "SUBJECT") None)) header_names)
    by (apply mem_In; vm_compute; reflexivity).
  assert (H2 : Forall (fun h' => header_key h' <> header_key (Header (Some "SUBJECT") None))
                 [Header (Some "X-Mailer") (Some "mutt"); Header None (Some "nameless")])
    by (repeat constructor; vm_compute; discriminate).
  exact (conj H1 (conj H2 (extract_headers_last_occurrence_wins
                             [Header (Some "Subject") (Some "first")] _ _ H1 H2))).
Defined.

End Headers.

Section Decode.

Import CaptureEmail.
Variable b64decode : string -> answer string.

Lemma decode_body_parts mime_type data parts :
  decode_body b64decode (Payload mime_type data (Some parts))
  = decode_parts b64decode parts EmptyString.
Proof. destruct data; reflexivity. Qed.

Lemma decode_parts_plain pre part post d body :
  plain_data part = Some d ->
  Forall (fun p => plain_data p = None /\ has_parts p = false /\
                   forall h, html_data p = Some h -> exists s, b64decode h = Answer s)
    pre ->
  decode_parts b64decode (pre ++ part :: post)%list body = b64decode d.
Proof.
  intros Hd Hpre. revert body.
  induction Hpre as [|[m dat sub] pre (Hp & Hs & Hh) _ IH]; intros body.
  - destruct part as [m dat sub]. cbn in Hd |- *.
    destruct (String.eqb (default EmptyString m) "text/plain"); [|discriminate Hd].
    rewrite Hd. reflexivity.
  - cbn in Hp, Hs, Hh. destruct sub; [discriminate Hs|].
    cbn [app decode_parts]. cbn zeta.
    destruct dat as [x|]; [|apply IH].
    destruct (String.eqb (default EmptyString m) "text/plain"); [discriminate Hp|].
    destruct (String.eqb (default EmptyString m) "text/html"); [|apply IH].
    destruct (nonempty body); [apply IH|].
    destruct (Hh x eq_refl) as (s & ->). cbn [abind]. apply IH.
Qed.

(** X23.  Plain text is preferred: when a payload has parts and one of them
    is [text/plain] with body data, preceded only by parts that are neither
    that nor containers of further parts (and whose HTML, if any, decodes),
    [decode_body] returns the decoding of that plain part; the HTML parts
    before it, the parts after it and the payload's own body data do not
    matter. *)
Theorem decode_body_prefers_the_plain_part mime_type data pre part post d :
  plain_data part = Some d ->
  Forall (fun p => plain_data p = None /\ has_parts p = false /\
                   forall h, html_data p = Some h -> exists s, b64decode h = Answer s)
    pre ->
  decode_body b64decode (Payload mime_type data (Some (pre ++ part :: post)%list))
  = b64decode d.
Proof.
  intros Hd Hpre. rewrite decode_body_parts. apply decode_parts_plain; assumption.
Qed.

End Decode.

Lemma decode_body_plain_witness :
  let pre := [Payload (Some "text/html") (Some "<p>Dear team</p>") None] in
  let part := Payload (Some "text/plain") (Some "Dear team") None in
  plain_data part = Some "Dear team" /\
  Forall (fun p => plain_data p = None /\ has_parts p = false /\
                   forall h, html_data p = Some h -> exists s, Answer h = Answer s)
    pre /\
  CaptureEmail.decode_body (fun d => Answer d)
    (Payload (Some "multipart/alternative") (Some "ignored") (Some (pre ++ part :: [])%list))
  = Answer "Dear team".
Proof.
  assert (H2 : Forall (fun p => plain_data p = None /\ has_parts p = false /\
                   forall h, html_data p = Some h ->
                             exists s, @Answer string h = Answer s)
                 [Payload (Some "text/html") (Some "<p>Dear team</p>") None])
    by (repeat constructor; intros h _; exists h; reflexivity).
  exact (conj eq_refl (conj H2
           (decode_body_prefers_the_plain_part (fun d => Answer d)
              (Some "multipart/alternative") (Some "ignored")
              [Payload (Some "text/html") (Some "<p>Dear team</p>") None]
              (Payload (Some "text/plain") (Some "Dear team") None) [] "Dear team"
              eq_refl H2))).
Defined.

(** ** One run of the capture *)

Lemma print_summary_run i e w :
  exists o, CaptureEmail.print_summary i e w = (Return tt, set_stdout (stdout w ++ o) w).
Proof.
  unfold CaptureEmail.print_summary, bind, print, emit. cbn.
  rewrite !set_stdout_twice. eexists. f_equal. f_equal. appended.
Qed.

Lemma print_summaries_run captured i w :
  exists o,
    CaptureEmail.print_summaries i captured w
    = (Return tt, set_stdout (stdout w ++ o) w).
Proof.
  revert i w; induction captured as [|e captured IH]; intros i w.
  - exists []. cbn. unfold ret. rewrite app_nil_r. destruct w; reflexivity.
  - cbn [CaptureEmail.print_summaries].
    destruct (print_summary_run i e w) as (o1 & E1).
    rewrite (bind_return _ _ _ _ _ E1).
    destruct (IH (S i) (set_stdout (stdout w ++ o1) w)) as (o2 & E2).
    rewrite E2. exists (o1 ++ o2)%list. rewrite set_stdout_twice. cbn.
    rewrite app_assoc. reflexivity.
Qed.

Lemma read_cache_total cache_file w :
  exists j, CaptureEmail.read_cache cache_file w = (Return j, w).
Proof.
  unfold CaptureEmail.read_cache, bind, path_exists, try_except_all, json_load, ret.
  destruct (files w !! cache_file) as [[c|c|j|t]|] eqn:Ef; cbn; rewrite ?Ef; cbn; eauto.
Qed.

Lemma read_cache_json cache_file w j :
  files w !! cache_file = Some (JsonFile j) ->
  CaptureEmail.read_cache cache_file w = (Return j, w).
Proof.
  intros Ef.
  unfold CaptureEmail.read_cache, bind, path_exists, try_except_all, json_load, ret.
  rewrite Ef. cbn. rewrite Ef. reflexivity.
Qed.

Lemma store_all_cases captured j w :
  (exists msg, CaptureEmail.store_all captured j w = (Raise (Exception "TypeError" msg), w)) \/
  (exists j', CaptureEmail.store_all captured j w = (Return j', w)).
Proof.
  revert j; induction captured as [|e captured IH]; intros j.
  - right. exists j. reflexivity.
  - cbn [CaptureEmail.store_all].
    destruct j as [| | | |items|fields]; cbn [CaptureEmail.setitem];
      try (left; eexists; reflexivity).
    unfold bind, ret.
    destruct (IH (JObj (dict_set (CaptureEmail.cache_key e) (CaptureEmail.email_json e)
                          fields)))
      as [(msg & ->)|(j' & ->)]; [left | right]; eexists; reflexivity.
Qed.

Lemma store_all_not_an_object e captured j w :
  (forall fields, j <> JObj fields) ->
  exists msg,
    CaptureEmail.store_all (e :: captured) j w = (Raise (Exception "TypeError" msg), w).
Proof.
  intros Hj. cbn [CaptureEmail.store_all].
  destruct j as [| | | |items|fields]; cbn [CaptureEmail.setitem];
    try (eexists; reflexivity).
  exfalso. apply (Hj fields). reflexivity.
Qed.

(** A save either fails before it writes, or writes the cache file and
    nothing else. *)
Lemma save_cache_cases cache_file captured json_output w :
  (exists msg,
     CaptureEmail.save_cache cache_file captured json_output w
     = (Raise (Exception "TypeError" msg), w)) \/
  (exists j w',
     CaptureEmail.save_cache cache_file captured json_output w = (Return tt, w') /\
     files w' = <[cache_file := JsonFile j]> (files w) /\
     calls w' = calls w /\ home w' = home w).
Proof.
  unfold CaptureEmail.save_cache.
  destruct (read_cache_total cache_file w) as (j & Er).
  rewrite (bind_return _ _ _ _ _ Er).
  destruct (store_all_cases captured j w) as [(msg & Es)|(j' & Es)].
  - left. exists msg. rewrite (bind_raise _ _ _ _ _ Es). reflexivity.
  - right. rewrite (bind_return _ _ _ _ _ Es).
    unfold bind, write_file, print, emit, ret.
    destruct json_output; cbn; eexists j', _; repeat split.
Qed.

Section Run.

Import CaptureEmail.
Variable b64decode : string -> answer string.

(** Fetching the messages touches neither the files nor the console. *)
Lemma capture_one_frame query m w r w' :
  capture_one b64decode query m w = (r, w') ->
  files w' = files w /\ stdout w' = stdout w /\ home w' = home w.
Proof.
  unfold capture_one, bind, remote_call, lift, datetime_now, ret.
  destruct (messages_get (api w) (meta_id m)) as [msg|]; cbn.
  - destruct (decode_body b64decode (msg_payload msg)); cbn;
      intros E; injection E as _ <-; repeat split.
  - intros E; injection E as _ <-; repeat split.
Qed.

Lemma capture_all_frame query messages w r w' :
  capture_all b64decode query messages w = (r, w') ->
  files w' = files w /\ stdout w' = stdout w /\ home w' = home w.
Proof.
  revert w r w'; induction messages as [|m messages IH]; intros w r w'.
  - intros E. injection E as _ <-. repeat split.
  - cbn [capture_all]. unfold bind at 1.
    destruct (capture_one b64decode query m w) as [[e|x] w1] eqn:E1;
      apply capture_one_frame in E1 as (Hf1 & Ho1 & Hh1).
    + unfold bind at 1.
      destruct (capture_all b64decode query messages w1) as [[es|x] w2] eqn:E2;
        apply IH in E2 as (Hf2 & Ho2 & Hh2);
        intros E; injection E as _ <-; repeat split; congruence.
    + intros E; injection E as _ <-; repeat split; assumption.
Qed.

(** The records of a completed fetch, and the calls it made. *)
Lemma capture_all_ids query messages w captured w' :
  capture_all b64decode query messages w = (Return captured, w') ->
  map message_id captured = map meta_id messages /\
  map thread_id captured = map meta_threadId messages /\
  Forall (fun e => search_query e = query) captured /\
  calls w' = (calls w ++ map fetch messages)%list.
Proof.
  revert w captured; induction messages as [|m messages IH]; intros w captured.
  - intros E. injection E as <- <-. cbn. rewrite app_nil_r. repeat split. constructor.
  - cbn [capture_all]. intros E.
    apply bind_inv in E as (e & w1 & E1 & E).
    apply bind_inv in E as (es & w2 & E2 & E).
    injection E as <- <-.
    destruct (IH _ _ E2) as (Hid & Hth & Hq & Hcalls).
    unfold capture_one, bind, remote_call, lift, datetime_now, ret in E1.
    destruct (messages_get (api w) (meta_id m)) as [msg|]; cbn in E1; [|discriminate].
    destruct (decode_body b64decode (msg_payload msg)); cbn in E1; [|discriminate].
    injection E1 as <- <-. cbn in Hcalls |- *.
    split; [f_equal; exact Hid|]. split; [f_equal; exact Hth|].
    split; [constructor; [reflexivity | exact Hq]|].
    rewrite Hcalls, <- app_assoc. reflexivity.
Qed.

(** When every message can be fetched and decoded, the fetch completes. *)
Lemma capture_all_total query messages w :
  Forall (fun m => exists msg body,
            messages_get (api w) (meta_id m) = Answer msg /\
            decode_body b64decode (msg_payload msg) = Answer body) messages ->
  exists captured w',
    capture_all b64decode query messages w = (Return captured, w') /\
    List.length captured = List.length messages.
Proof.
  revert w; induction messages as [|m messages IH]; intros w Hall.
  - exists [], w. split; reflexivity.
  - apply Forall_cons in Hall as [(msg & body & Hg & Hd) Hall].
    cbn [capture_all].
    unfold bind at 1, capture_one, bind, remote_call, lift, datetime_now, ret.
    rewrite Hg. cbn. rewrite Hd. cbn.
    match goal with |- context [capture_all _ _ _ ?v] =>
      destruct (IH v Hall) as (es & w2 & E2 & Hlen)
    end.
    unfold bind. rewrite E2. eexists _, _. split; [reflexivity|]. cbn. congruence.
Qed.

(** X24.  A search without results (an empty [messages] list, or none at
    all) ends the capture after the one list call: the function prints
    "No emails found for query: ...", returns [None], and writes no cache
    file even when asked to save. *)
Theorem empty_search_captures_nothing query save json_output cache_path w r :
  messages_list (api w) query = Answer r ->
  default [] r = [] ->
  exists w',
    capture_email b64decode query save json_output cache_path w = (Return None, w') /\
    files w' = files w /\
    calls w' = (calls w ++ [(MessagesList query 5, None)])%list /\
    stdout w' = (stdout w ++ [Line ("No emails found for query: " +:+ query)])%list.
Proof.
  intros Hl Hr.
  unfold capture_email, bind, get_home, remote_call, print, emit, ret. cbn.
  rewrite Hl. cbn. rewrite Hr. cbn. eexists. repeat split.
Qed.

(** X25.  When [capture_email] returns records, there is one record for
    each message the search returned, in the same order, with the ids of
    that message and the query in it; the run made the list call and then
    one get call for each message, and no other call. *)
Theorem one_record_for_each_message_found query save json_output cache_path w
    captured w' :
  capture_email b64decode query save json_output cache_path w
  = (Return (Some captured), w') ->
  exists messages,
    messages_list (api w) query = Answer (Some messages) /\
    map message_id captured = map meta_id messages /\
    map thread_id captured = map meta_threadId messages /\
    Forall (fun e => search_query e = query) captured /\
    calls w'
    = (calls w ++ (MessagesList query 5, None) :: map fetch messages)%list.
Proof.
  unfold capture_email. intros E.
  apply bind_inv in E as (h & w1 & Eh & E). injection Eh as <- <-.
  apply bind_inv in E as (results & w2 & Er & E).
  unfold remote_call in Er.
  destruct (messages_list (api w) query) as [r|] eqn:Hl; [|discriminate].
  injection Er as <- <-.
  destruct r as [[|m ms]|]; cbn [default] in E.
  1,3: unfold bind, print, emit, ret in E; cbn in E; discriminate.
  apply bind_inv in E as (cap & w3 & Ecap & E).
  apply bind_inv in E as (u1 & w4 & Esave & E).
  apply bind_inv in E as (u2 & w5 & Eshow & E).
  injection E as <- <-.
  destruct (capture_all_ids _ _ _ _ _ Ecap) as (Hid & Hth & Hq & Hcalls).
  exists (m :: ms). split; [reflexivity|]. split; [exact Hid|].
  split; [exact Hth|]. split; [exact Hq|].
  assert (H4 : calls w4 = calls w3).
  { destruct save.
    - destruct (save_cache_cases
                  (default (CACHE_FILE (home w)) cache_path) cap json_output w3)
        as [(msg & Ex)|(j & wx & Ex & _ & Hc & _)]; congruence.
    - injection Esave as _ <-. reflexivity. }
  assert (H5 : calls w5 = calls w4).
  { destruct json_output.
    - injection Eshow as _ <-. reflexivity.
    - destruct (print_summaries_run cap 1 w4) as (o & Ex). rewrite Ex in Eshow.
      injection Eshow as _ <-. reflexivity. }
  rewrite H5, H4, Hcalls. cbn. rewrite <- app_assoc. reflexivity.
Qed.

(** X26.  The only file the capture ever writes is the cache file (the one
    named by [cache_path], else the default under the home directory), and
    only in a run with [save] that returns its records: a run without
    [save], a run that found nothing and a run that ended in an exception
    leave every file as it was. *)
Theorem files_change_only_by_a_completed_save query save json_output cache_path w r w' :
  capture_email b64decode query save json_output cache_path w = (r, w') ->
  files w' = files w \/
  save = true /\
  exists captured j,
    r = Return (Some captured) /\
    files w' = <[default (CACHE_FILE (home w)) cache_path := JsonFile j]> (files w).
Proof.
  unfold capture_email, bind at 1, get_home, bind at 1, remote_call.
  destruct (messages_list (api w) query) as [res|] eqn:Hl; cbn [to_outcome raised];
    [|intros E; injection E as _ <-; left; reflexivity].
  destruct (default [] res) as [|m ms].
  { unfold bind, print, emit, ret. cbn. intros E. injection E as _ <-.
    left. reflexivity. }
  set (w1 := set_calls _ w).
  unfold bind at 1.
  destruct (capture_all b64decode query (m :: ms) w1) as [[cap|x] w3] eqn:Ecap;
    apply capture_all_frame in Ecap as (Hf & _ & Hh);
    [|intros E; injection E as _ <-; left; exact Hf].
  assert (Hshow : forall v, exists v',
             (if json_output then emit (JsonList (map email_json cap))
              else print_summaries 1 cap) v = (Return tt, v') /\ files v' = files v).
  { intros v. destruct json_output.
    - eexists. split; reflexivity.
    - destruct (print_summaries_run cap 1 v) as (o & ->). eexists. split; reflexivity. }
  destruct save.
  - destruct (save_cache_cases (default (CACHE_FILE (home w)) cache_path) cap
                json_output w3) as [(msg & Ex)|(j & wx & Ex & Hfx & _ & _)].
    + rewrite (bind_raise _ _ _ _ _ Ex). intros E. injection E as _ <-.
      left. exact Hf.
    + rewrite (bind_return _ _ _ _ _ Ex).
      destruct (Hshow wx) as (v' & Es & Hfv). rewrite (bind_return _ _ _ _ _ Es).
      unfold ret. intros E. injection E as <- <-. right. split; [reflexivity|].
      exists cap, j. split; [reflexivity|]. rewrite Hfv, Hfx, Hf. reflexivity.
  - unfold bind at 1, ret at 1.
    destruct (Hshow w3) as (v' & Es & Hfv). rewrite (bind_return _ _ _ _ _ Es).
    unfold ret. intros E. injection E as _ <-. left. rewrite Hfv, Hf. reflexivity.
Qed.

(** X27.  When the cache file holds JSON that is not an object (a list, a
    string, a number), a capture with [save] that fetched its messages
    ends in the [TypeError] of the item assignment, and the cache file is
    left as it was; the records are neither saved nor shown. *)
Theorem cache_that_is_no_object_fails_the_save query json_output cache_path w
    m messages j :
  messages_list (api w) query = Answer (Some (m :: messages)) ->
  Forall (fun m => exists msg body,
            messages_get (api w) (meta_id m) = Answer msg /\
            decode_body b64decode (msg_payload msg) = Answer body) (m :: messages) ->
  files w !! default (CACHE_FILE (home w)) cache_path = Some (JsonFile j) ->
  (forall fields, j <> JObj fields) ->
  exists msg w',
    capture_email b64decode query true json_output cache_path w
    = (Raise (Exception "TypeError" msg), w') /\
    files w' = files w /\ stdout w' = stdout w.
Proof.
  intros Hl Hall Hfile Hj.
  unfold capture_email, bind at 1, get_home, bind at 1, remote_call.
  rewrite Hl. cbn [to_outcome raised].
  change (default [] (Some (m :: messages))) with (m :: messages). cbn beta iota.
  set (w1 := set_calls _ w).
  destruct (capture_all_total query (m :: messages) w1 Hall) as (cap & w3 & Ecap & Hlen).
  destruct (capture_all_frame _ _ _ _ _ Ecap) as (Hf & Ho & Hh).
  rewrite (bind_return _ _ _ _ _ Ecap).
  destruct cap as [|e cap]; [discriminate Hlen|].
  assert (Ex : exists msg,
             save_cache (default (CACHE_FILE (home w)) cache_path) (e :: cap)
               json_output w3 = (Raise (Exception "TypeError" msg), w3)).
  { unfold save_cache.
    rewrite (bind_return _ _ _ _ _
               (read_cache_json _ w3 j ltac:(rewrite Hf; exact Hfile))).
    destruct (store_all_not_an_object e cap j w3 Hj) as (msg & Es).
    exists msg. rewrite (bind_raise _ _ _ _ _ Es). reflexivity. }
  destruct Ex as (msg & Ex). rewrite (bind_raise _ _ _ _ _ Ex).
  exists msg, w3. repeat split; assumption.
Qed.

End Run.

Lemma empty_search_witness :
  let w := capture_desk silent_inbox in
  messages_list (api w) "from:nobody" = Answer None /\
  default [] (None : option (list msg_meta)) = [] /\
  exists w',
    CaptureEmail.capture_email (fun d => Answer d) "from:nobody" true false None w
    = (Return None, w') /\
    files w' = files w /\
    calls w' = (calls w ++ [(MessagesList "from:nobody" 5, None)])%list /\
    stdout w' = (stdout w ++ [Line ("No emails found for query: " +:+ "from:nobody")])%list.
Proof.
  refine (conj eq_refl (conj eq_refl _)).
  exact (empty_search_captures_nothing (fun d => Answer d) "from:nobody" true false
           None (capture_desk silent_inbox) None eq_refl eq_refl).
Defined.

Lemma one_record_witness :
  let w := capture_desk twins in
  exists captured w',
    CaptureEmail.capture_email (fun d => Answer d) "from:jean" false true None w
    = (Return (Some captured), w') /\
    exists messages,
      messages_list (api w) "from:jean" = Answer (Some messages) /\
      map CaptureEmail.message_id captured = map meta_id messages /\
      map CaptureEmail.thread_id captured = map meta_threadId messages /\
      Forall (fun e => CaptureEmail.search_query e = "from:jean") captured /\
      calls w'
      = (calls w ++ (MessagesList "from:jean" 5, None) :: map fetch messages)%list.
Proof.
  eexists _, _. split; [vm_compute; reflexivity|].
  eapply (one_record_for_each_message_found (fun d => Answer d) "from:jean" false true
            None (capture_desk twins)).
  vm_compute. reflexivity.
Defined.

Lemma files_change_witness :
  let w := capture_desk twins in
  exists r w',
    CaptureEmail.capture_email (fun d => Answer d) "from:jean" true true
      (Some cache_path) w = (r, w') /\
    (files w' = files w \/
     true = true /\
     exists captured j,
       r = Return (Some captured) /\
       files w'
       = <[default (CaptureEmail.CACHE_FILE (home w)) (Some cache_path) := JsonFile j]>
           (files w)).
Proof.
  eexists _, _. split; [vm_compute; reflexivity|].
  eapply (files_change_only_by_a_completed_save (fun d => Answer d) "from:jean" true
            true (Some cache_path) (capture_desk twins)).
  vm_compute. reflexivity.
Defined.

Lemma cache_that_is_no_object_witness :
  let m := Meta "18c2f3a4b5d6e7f8" "thread-1" in
  let messages := [Meta "18c2f3a4c0ffee00" "thread-1"] in
  let j := JArr [JStr "not an object"] in
  messages_list (api list_cache) "from:jean" = Answer (Some (m :: messages)) /\
  Forall (fun m => exists msg body,
            messages_get (api list_cache) (meta_id m) = Answer msg /\
            CaptureEmail.decode_body (fun d => Answer d) (msg_payload msg) = Answer body)
    (m :: messages) /\
  files list_cache
    !! default (CaptureEmail.CACHE_FILE (home list_cache)) (Some cache_path)
  = Some (JsonFile j) /\
  (forall fields, j <> JObj fields) /\
  exists msg w',
    CaptureEmail.capture_email (fun d => Answer d) "from:jean" true false
      (Some cache_path) list_cache
    = (Raise (Exception "TypeError" msg), w') /\
    files w' = files list_cache /\ stdout w' = stdout list_cache.
Proof.
  assert (H2 : Forall (fun m => exists msg body,
            messages_get (api list_cache) (meta_id m) = Answer msg /\
            CaptureEmail.decode_body (fun d => Answer d) (msg_payload msg) = Answer body)
            [Meta "18c2f3a4b5d6e7f8" "thread-1"; Meta "18c2f3a4c0ffee00" "thread-1"])
    by (repeat constructor; eexists _, _; split; reflexivity).
  assert (H3 : files list_cache
                 !! default (CaptureEmail.CACHE_FILE (home list_cache)) (Some cache_path)
               = Some (JsonFile (JArr [JStr "not an object"])))
    by (vm_compute; reflexivity).
  assert (H4 : forall fields, JArr [JStr "not an object"] <> JObj fields)
    by (intros fields; discriminate).
  refine (conj eq_refl (conj H2 (conj H3 (conj H4 _)))).
  exact (cache_that_is_no_object_fails_the_save (fun d => Answer d) "from:jean" false
           (Some cache_path) list_cache _ _ _ eq_refl H2 H3 H4).
Defined.

(** ** The credentials of the capture tool *)

(** X28.  Whenever [get_credentials] returns a token, [token.json] holds
    that token afterwards: either it held it before, the token is valid,
    and nothing was called or written; or the token was obtained by one
    call (a refresh or the consent flow) and written to [token.json]. *)
Theorem get_credentials_leaves_the_token_on_disk w c w' :
  CaptureEmail.get_credentials w = (Return c, w') ->
  files w' !! CaptureEmail.token_path = Some (TokenJson c) /\
  (files w !! CaptureEmail.token_path = Some (TokenJson c) /\ valid c = true /\ w' = w \/
   exists k,
     calls w' = (calls w ++ [(k, None)])%list /\ is_refresh (k, None) = true /\
     files w' = <[CaptureEmail.token_path := TokenJson c]> (files w)).
Proof.
  unfold CaptureEmail.get_credentials, CaptureEmail.from_authorized_user_file, bind,
    path_exists, remote_call, write_file, print, emit, ret, raise.
  intros E. run.
  all: first
    [ split; [assumption|]; left; repeat split; assumption
    | split; [apply lookup_insert_eq|]; right; eexists; repeat split ].
Qed.

Lemma get_credentials_witness :
  exists c w',
    CaptureEmail.get_credentials (world_of renewing
                                    {[ "token.json" := TokenJson stale_token ]} [])
    = (Return c, w') /\
    files w' !! CaptureEmail.token_path = Some (TokenJson c) /\
    (files (world_of renewing {[ "token.json" := TokenJson stale_token ]} [])
       !! CaptureEmail.token_path = Some (TokenJson c) /\ valid c = true /\
     w' = world_of renewing {[ "token.json" := TokenJson stale_token ]} [] \/
     exists k,
       calls w'
       = (calls (world_of renewing {[ "token.json" := TokenJson stale_token ]} [])
            ++ [(k, None)])%list /\
       is_refresh (k, None) = true /\
       files w'
       = <[CaptureEmail.token_path := TokenJson c]>
           (files (world_of renewing {[ "token.json" := TokenJson stale_token ]} []))).
Proof.
  eexists _, _. split; [vm_compute; reflexivity|].
  eapply (get_credentials_leaves_the_token_on_disk
            (world_of renewing {[ "token.json" := TokenJson stale_token ]} [])).
  vm_compute. reflexivity.
Defined.

(** X29.  Started where neither [token.json] nor [credentials.json]
    exists, [capture_email.py] prints its two lines and exits with status
    1; the provider is never called. *)
Theorem capture_without_credentials_exits_1 b64decode (a : CaptureEmail.args) w :
  files w !! CaptureEmail.token_path = None ->
  files w !! CaptureEmail.credentials_path = None ->
  exists w',
    run_process (CaptureEmail.main b64decode (Options a)) w = (Exit 1, w') /\
    calls w' = calls w /\ files w' = files w /\
    stdout w'
    = (stdout w ++ [ Line "Error: credentials.json not found";
                     Line "Please download credentials from Google Cloud Console" ])%list.
Proof.
  intros Ht Hc.
  unfold run_process, CaptureEmail.main. rewrite parse_options.
  unfold CaptureEmail.get_credentials, bind, path_exists, print, emit, ret, raise.
  rewrite Ht. cbn. rewrite Hc. cbn.
  eexists. split; [reflexivity|]. cbn. rewrite <- app_assoc. repeat split.
Qed.

Lemma capture_without_credentials_witness :
  files bare !! CaptureEmail.token_path = None /\
  files bare !! CaptureEmail.credentials_path = None /\
  exists w',
    run_process (CaptureEmail.main (fun d => Answer d)
                   (Options (CaptureEmail.Args "from:jean" true false None))) bare
    = (Exit 1, w') /\
    calls w' = calls bare /\ files w' = files bare /\
    stdout w'
    = (stdout bare ++ [ Line "Error: credentials.json not found";
                        Line "Please download credentials from Google Cloud Console" ])%list.
Proof.
  refine (conj eq_refl (conj eq_refl _)).
  exact (capture_without_credentials_exits_1 (fun d => Answer d)
           (CaptureEmail.Args "from:jean" true false None) bare eq_refl eq_refl).
Defined.

